(** * Flowerbelle point of sale: cart, checkout, sales transactions

    A shallow embedding of [backend/pos/models.py], [backend/pos/serializers.py]
    and [backend/pos/views.py], with the theorems that relate the code to its
    specification.

    Conventions.
    - A [DecimalField(max_digits=10, decimal_places=2)] value is an integer
      number of hundredths ([Z]); sums, differences and products by an integer
      quantity of such values are exact, as they are for Python's [Decimal].
    - The relational store is a record of tables; a table is the list of its
      rows in insertion order, the product table a finite map from the
      primary key.  Every operation threads the store explicitly.
    - A raised exception leaves the store as it was at the raise;
      [transaction.atomic] restores the store it started from.  An exception
      that leaves a view becomes its response.
    - [timezone.now()] is an input of a request: every reading of the clock
      within one request gives the same instant.
    - A serializer validates its fields first and runs its own [validate]
      only when every field passed; the error dictionary is kept as a flat
      list of field name and message.
    - [order_by] on a text column compares strings character by character.
    - A [str] is the string of the bytes of its UTF-8 encoding: [Py.len]
      counts its characters, [Py.strip] removes Unicode white space.
    - What a serializer hands on is typed (an integer, an amount, a text);
      what a view reads from [request.data] itself is a [JSON] value.
    - What saving an inventory movement does to the product table belongs to
      the inventory application and is a parameter of the development.
    - An auto-increment key is one above the keys of the table.  The error
      of saving a row that does not fit its columns (an amount of more
      than ten digits, a text beyond its width) is not modelled: a theorem
      that concludes that a creation returns assumes rows that fit
      ([storable]). *)

From Stdlib Require Import ZArith QArith String Ascii List Lia Bool.
From stdpp Require Import base option list gmap strings.
Import ListNotations.

Local Open Scope string_scope.
Local Open Scope Z_scope.
Local Open Scope list_scope.

(** ** Primitive values *)

Definition Decimal := Z.
Definition Pk := Z.

(** ** Strings: the fragments of Python's [str] the code relies on *)

Module Py.

Definition digit_char (d : Z) : ascii := ascii_of_nat (48 + Z.to_nat d).

Fixpoint str_fuel (fuel : nat) (n : Z) (acc : string) : string :=
  match fuel with
  | O => acc
  | S f =>
      let acc' := String (digit_char (n mod 10)) acc in
      if n / 10 =? 0 then acc' else str_fuel f (n / 10) acc'
  end.

(** [str(n)] for a non-negative integer. *)
Definition str (n : Z) : string :=
  str_fuel (S (Z.to_nat (Z.log2 n))) n "".

Fixpoint zeros (k : nat) : string :=
  match k with
  | O => ""
  | S k' => String "0" (zeros k')
  end.

(** [f'{n:0Wd}']: at least [width] digits, zero padded on the left. *)
Definition format_0d (width : nat) (n : Z) : string :=
  let s := str n in
  zeros (width - String.length s) +:+ s.

Definition digit_of (c : ascii) : option Z :=
  let n := Z.of_nat (nat_of_ascii c) in
  if (48 <=? n) && (n <=? 57) then Some (n - 48) else None.

Fixpoint int_acc (s : string) (acc : Z) : option Z :=
  match s with
  | EmptyString => Some acc
  | String c s' =>
      match digit_of c with
      | Some d => int_acc s' (10 * acc + d)
      | None => None
      end
  end.

(** [int(s)] on a string of decimal digits; [None] stands for
    [ValueError]. *)
Definition int (s : string) : option Z :=
  match s with
  | EmptyString => None
  | _ => int_acc s 0
  end.

(** [s.split(sep)] for a one-character separator. *)
Fixpoint split (sep : ascii) (s : string) : list string :=
  match s with
  | EmptyString => [EmptyString]
  | String c s' =>
      if Ascii.eqb c sep then EmptyString :: split sep s'
      else match split sep s' with
           | seg :: rest => String c seg :: rest
           | [] => [String c EmptyString]
           end
  end.

(** [s.startswith(p)] *)
Definition startswith (s p : string) : bool := String.prefix p s.

(** A [str] is kept as the bytes of its UTF-8 encoding (a lone surrogate
    as the three bytes [ED A0..BF xx]).  [len(s)] counts code points: the
    bytes that are not continuation bytes [10xxxxxx]. *)
Definition is_continuation (c : ascii) : bool :=
  let n := nat_of_ascii c in ((128 <=? n) && (n <=? 191))%nat.

Fixpoint len (s : string) : nat :=
  match s with
  | EmptyString => O
  | String c s' => if is_continuation c then len s' else S (len s')
  end.

(** The characters [str.strip()] removes, by the bytes of their encoding:
    U+0009..U+000D, U+001C..U+0020; U+0085, U+00A0; U+1680,
    U+2000..U+200A, U+2028, U+2029, U+202F, U+205F, U+3000. *)
Definition isspace1 (a : ascii) : bool :=
  let n := nat_of_ascii a in
  ((9 <=? n) && (n <=? 13) || (28 <=? n) && (n <=? 32))%nat.

Definition isspace2 (a b : ascii) : bool :=
  let x := nat_of_ascii a in
  let y := nat_of_ascii b in
  ((x =? 194) && ((y =? 133) || (y =? 160)))%nat.

Definition isspace3 (a b c : ascii) : bool :=
  let x := nat_of_ascii a in
  let y := nat_of_ascii b in
  let z := nat_of_ascii c in
  ((x =? 225) && (y =? 154) && (z =? 128)
   || (x =? 226) && (y =? 128)
      && ((128 <=? z) && (z <=? 138) || (z =? 168) || (z =? 169) || (z =? 175))
   || (x =? 226) && (y =? 129) && (z =? 159)
   || (x =? 227) && (y =? 128) && (z =? 128))%nat.

Fixpoint lstrip (s : string) : string :=
  match s with
  | EmptyString => EmptyString
  | String a s1 =>
      if isspace1 a then lstrip s1
      else
        match s1 with
        | String b s2 =>
            if isspace2 a b then lstrip s2
            else
              match s2 with
              | String c s3 => if isspace3 a b c then lstrip s3 else s
              | EmptyString => s
              end
        | EmptyString => s
        end
  end.

Fixpoint reversed_onto (s acc : string) : string :=
  match s with
  | EmptyString => acc
  | String c s' => reversed_onto s' (String c acc)
  end.

(** [s[::-1]], byte by byte. *)
Definition reversed (s : string) : string := reversed_onto s EmptyString.

(** [lstrip] on the reversed bytes: the last byte of a character comes
    first. *)
Fixpoint lstrip_reversed (s : string) : string :=
  match s with
  | EmptyString => EmptyString
  | String c s1 =>
      if isspace1 c then lstrip_reversed s1
      else
        match s1 with
        | String b s2 =>
            if isspace2 b c then lstrip_reversed s2
            else
              match s2 with
              | String a s3 => if isspace3 a b c then lstrip_reversed s3 else s
              | EmptyString => s
              end
        | EmptyString => s
        end
  end.

Definition rstrip (s : string) : string :=
  reversed (lstrip_reversed (reversed s)).

(** [s.strip()] *)
Definition strip (s : string) : string := rstrip (lstrip s).

(** ['\x00' in s] *)
Fixpoint has_null (s : string) : bool :=
  match s with
  | EmptyString => false
  | String c s' => (nat_of_ascii c =? 0)%nat || has_null s'
  end.

(** Whether [s] has a surrogate code point, U+D800..U+DFFF. *)
Fixpoint has_surrogate (s : string) : bool :=
  match s with
  | EmptyString => false
  | String a s1 =>
      match s1 with
      | String b _ =>
          (nat_of_ascii a =? 237)%nat
          && (160 <=? nat_of_ascii b)%nat && (nat_of_ascii b <=? 191)%nat
          || has_surrogate s1
      | EmptyString => false
      end
  end.

End Py.

(** ** Values of a request body *)

(** What [request.data.get(key)] gives for a JSON object or a form: [JNull]
    is [None] (a null or an absent key), [JFloat] a number written with a
    fraction or an exponent, which Python reads as a float and which is
    kept as the rational it denotes; a form field is a [JString]. *)
#[local] Unset Elimination Schemes.

Inductive JSON :=
| JNull
| JBool (b : bool)
| JInt (n : Z)
| JFloat (x : Q)
| JString (s : string)
| JArray (items : list JSON)
| JObject (members : list (string * JSON)).

#[local] Set Elimination Schemes.

Module PyValue.

(** [bool(v)], the truth value [not v] negates. *)
Definition truth (v : JSON) : bool :=
  match v with
  | JNull => false
  | JBool b => b
  | JInt n => negb (n =? 0)
  | JFloat x => negb (Qeq_bool x (inject_Z 0))
  | JString s => negb (String.eqb s "")
  | JArray items => match items with [] => false | _ => true end
  | JObject members => match members with [] => false | _ => true end
  end.

(** The number a value is when it is compared with an [int]: a [bool]
    counts as 0 or 1; any other type makes the comparison a
    [TypeError] ([None]). *)
Definition number (v : JSON) : option Q :=
  match v with
  | JBool b => Some (inject_Z (if b then 1 else 0))
  | JInt n => Some (inject_Z n)
  | JFloat x => Some x
  | _ => None
  end.

(** [x < y] on numbers; Python compares an [int] and a [float] exactly. *)
Definition lt (x y : Q) : bool := negb (Qle_bool y x).

(** [int(x)]: towards zero. *)
Definition int (x : Q) : Z := Z.quot (Qnum x) (Z.pos (Qden x)).

End PyValue.

(** ** Time *)

Record DateTime := {
  year : Z;
  month : Z;
  day : Z;
  (** microseconds since midnight *)
  time_of_day : Z
}.

(** [today.strftime('%Y%m%d')] *)
Definition strftime_Ymd (t : DateTime) : string :=
  Py.format_0d 4 (year t) +:+ Py.format_0d 2 (month t) +:+ Py.format_0d 2 (day t).

(** ** Data model *)

Inductive Status := PENDING | COMPLETED | VOID | REFUNDED.

Inductive PaymentMethod := CASH | CARD | GCASH | PAYMAYA | BANK_TRANSFER.

Inductive MovementType := SALE | RETURN.

(** [inventory.models.Product]: the columns the point of sale reads.  The
    product table maps the primary key to the rest of the row. *)
Module Product.
Record t := {
  unit_price : Decimal;
  cost_price : Decimal;
  current_stock : Z;
  is_active : bool
}.
End Product.

Module SalesTransaction.
Record t := {
  (** [None] until the row is inserted *)
  id : option Pk;
  transaction_number : string;
  subtotal : Decimal;
  tax : Decimal;
  discount : Decimal;
  total_amount : Decimal;
  payment_method : PaymentMethod;
  payment_reference : string;
  amount_paid : Decimal;
  change_amount : Decimal;
  status : Status;
  notes : string;
  customer_name : string;
  customer_phone : string;
  customer_email : string;
  created_by : Pk;
  created_at : option DateTime;
  updated_at : option DateTime;
  completed_at : option DateTime;
  voided_by : option Pk;
  voided_at : option DateTime;
  void_reason : string
}.
End SalesTransaction.

Module TransactionItem.
Record t := {
  id : Pk;
  transaction : Pk;
  product : Pk;
  quantity : Z;
  unit_price : Decimal;
  discount : Decimal;
  line_total : Decimal;
  notes : string
}.
End TransactionItem.

(** [inventory.models.InventoryMovement]: the columns the point of sale
    writes. *)
Module InventoryMovement.
Record t := {
  product : Pk;
  movement_type : MovementType;
  quantity : Z;
  reference_number : string;
  reason : string;
  created_by : Pk;
  transaction_id : option Pk
}.
End InventoryMovement.

Module Cart.
Record t := {
  id : Pk;
  user : Pk;
  (** [f'CART-{user.id}-{timezone.now().timestamp()}'], kept as its two
      components *)
  session_id : Pk * DateTime;
  is_active : bool
}.
End Cart.

Module CartItem.
Record t := {
  id : Pk;
  cart : Pk;
  product : Pk;
  quantity : Z;
  unit_price : Decimal
}.
End CartItem.

(** One row of the audit log written by [accounts.utils.create_audit_log]. *)
Module AuditLog.
Record t := {
  user : Pk;
  action : string;
  table_name : string;
  record_id : option Pk
}.
End AuditLog.

(** ** Request payloads *)

(** One element of [items], as posted and, once validated, as handed to
    [create]: the validated product is the row with this key. *)
Module ItemData.
Record t := {
  product : Pk;
  quantity : Z;
  unit_price : Decimal;
  (** absent unless posted; the model default is 0 *)
  discount : option Decimal;
  notes : string
}.
End ItemData.

(** The body posted to [SalesTransactionCreateSerializer].  [None] is an
    absent key; an absent optional string is the empty string. *)
Module TransactionData.
Record t := {
  items : list ItemData.t;
  payment_method : option string;
  payment_reference : string;
  amount_paid : option Decimal;
  tax : option Decimal;
  discount : option Decimal;
  notes : string;
  customer_name : string;
  customer_phone : string;
  customer_email : string
}.
End TransactionData.

(** [validated_data] after field validation, before [validate] adds the
    two calculated entries. *)
Module ValidatedData.
Record t := {
  items : list ItemData.t;
  payment_method : PaymentMethod;
  payment_reference : string;
  amount_paid : Decimal;
  tax : Decimal;
  discount : Decimal;
  notes : string;
  customer_name : string;
  customer_phone : string;
  customer_email : string
}.
End ValidatedData.

(** The body posted to the checkout view. *)
Module CheckoutData.
Record t := {
  payment_method : option string;
  payment_reference : option string;
  amount_paid : option Decimal;
  tax : option Decimal;
  discount : option Decimal;
  notes : option string;
  customer_name : option string;
  customer_phone : option string;
  customer_email : option string
}.
End CheckoutData.

Record Store := {
  products : gmap Z Product.t;
  sales_transactions : list SalesTransaction.t;
  transaction_items : list TransactionItem.t;
  inventory_movements : list InventoryMovement.t;
  carts : list Cart.t;
  cart_items : list CartItem.t;
  audit_logs : list AuditLog.t
}.

(** ** Exceptions and responses *)

(** The messages the code raises or returns, by meaning. *)
Inductive ErrorDetail :=
  (** a check built into a serializer field: required, null, choice,
      range, digits, unknown primary key, e-mail syntax *)
| InvalidField
  (** "At least one item is required" *)
| AtLeastOneItemRequired
  (** "Quantity must be greater than 0" *)
| QuantityMustBePositive
  (** "Insufficient stock. Available: n" *)
| InsufficientStock (available : Z)
  (** "Insufficient payment. Total: t" *)
| InsufficientPayment (total : Decimal)
  (** "Product not found or inactive" *)
| ProductNotFoundOrInactive
| CartIsEmpty
| NoActiveCartFound
| CartItemNotFound
| InvalidQuantity
| TransactionNotFound
| TransactionAlreadyVoided.

(** A [ValidationError] carries the error dictionary: field name and
    message, in field order. *)
Inductive Exn :=
| ValidationError (errors : list (string * ErrorDetail))
| DoesNotExist
| MultipleObjectsReturned
| IntegrityError
| ValueError
| TypeError.

Inductive Outcome (A : Type) :=
| Return (a : A)
| Raise (e : Exn).
Arguments Return {A} a.
Arguments Raise {A} e.

(** What a view returns.  An exception that escapes a view becomes a
    response: a [ValidationError] is a 400 with its error dictionary, any
    other exception a 500. *)
Inductive Payload :=
| TransactionPayload (transaction : SalesTransaction.t)
| CartPayload (cart : Cart.t) (items : list CartItem.t)
| MessagePayload.

Inductive Response :=
| HTTP_200 (payload : Payload)
| HTTP_201 (payload : Payload)
| HTTP_400 (errors : list (string * ErrorDetail))
| HTTP_404 (error : ErrorDetail)
| HTTP_500 (e : Exn).

(** A computation over the store.  The store that comes back with [Raise]
    is the store at the point of the raise. *)
Definition M (A : Type) : Type := Store -> Outcome A * Store.

Definition ret {A} (a : A) : M A := fun s => (Return a, s).

Definition bind {A B} (m : M A) (k : A -> M B) : M B :=
  fun s =>
    match m s with
    | (Return a, s') => k a s'
    | (Raise e, s') => (Raise e, s')
    end.

Definition raise {A} (e : Exn) : M A := fun s => (Raise e, s).

Definition gets {A} (f : Store -> A) : M A := fun s => (Return (f s), s).

Definition modify (f : Store -> Store) : M unit := fun s => (Return tt, f s).

(** [try: m except e: h e] *)
Definition try_except {A} (m : M A) (h : Exn -> option (M A)) : M A :=
  fun s =>
    match m s with
    | (Raise e, s') =>
        match h e with
        | Some handler => handler s'
        | None => (Raise e, s')
        end
    | r => r
    end.

(** [transaction.atomic]: commit on return, roll back on exception. *)
Definition atomic {A} (m : M A) : M A :=
  fun s =>
    match m s with
    | (Raise e, _) => (Raise e, s)
    | r => r
    end.

Notation "'let*' x ':=' m 'in' k" := (bind m (fun x => k))
  (at level 10, x pattern, m at level 100, k at level 200).
Notation "m ';;' k" := (bind m (fun _ => k))
  (at level 100, k at level 200, right associativity).

(** [for x in xs: body x] *)
Fixpoint for_each {A} (xs : list A) (body : A -> M unit) : M unit :=
  match xs with
  | [] => ret tt
  | x :: xs' => body x ;; for_each xs' body
  end.

(** ** Table updates *)

Definition with_products f (s : Store) : Store :=
  {| products := f (products s);
     sales_transactions := sales_transactions s;
     transaction_items := transaction_items s;
     inventory_movements := inventory_movements s;
     carts := carts s;
     cart_items := cart_items s;
     audit_logs := audit_logs s |}.

Definition with_sales_transactions f (s : Store) : Store :=
  {| products := products s;
     sales_transactions := f (sales_transactions s);
     transaction_items := transaction_items s;
     inventory_movements := inventory_movements s;
     carts := carts s;
     cart_items := cart_items s;
     audit_logs := audit_logs s |}.

Definition with_transaction_items f (s : Store) : Store :=
  {| products := products s;
     sales_transactions := sales_transactions s;
     transaction_items := f (transaction_items s);
     inventory_movements := inventory_movements s;
     carts := carts s;
     cart_items := cart_items s;
     audit_logs := audit_logs s |}.

Definition with_inventory_movements f (s : Store) : Store :=
  {| products := products s;
     sales_transactions := sales_transactions s;
     transaction_items := transaction_items s;
     inventory_movements := f (inventory_movements s);
     carts := carts s;
     cart_items := cart_items s;
     audit_logs := audit_logs s |}.

Definition with_carts f (s : Store) : Store :=
  {| products := products s;
     sales_transactions := sales_transactions s;
     transaction_items := transaction_items s;
     inventory_movements := inventory_movements s;
     carts := f (carts s);
     cart_items := cart_items s;
     audit_logs := audit_logs s |}.

Definition with_cart_items f (s : Store) : Store :=
  {| products := products s;
     sales_transactions := sales_transactions s;
     transaction_items := transaction_items s;
     inventory_movements := inventory_movements s;
     carts := carts s;
     cart_items := f (cart_items s);
     audit_logs := audit_logs s |}.

Definition with_audit_logs f (s : Store) : Store :=
  {| products := products s;
     sales_transactions := sales_transactions s;
     transaction_items := transaction_items s;
     inventory_movements := inventory_movements s;
     carts := carts s;
     cart_items := cart_items s;
     audit_logs := f (audit_logs s) |}.

(** The key an auto-increment column hands out next: above every key in
    the table. *)
Definition next_pk (keys : list Pk) : Pk := 1 + fold_right Z.max 0 keys.

(** [objects.get(...)] over the rows a filter kept. *)
Definition get_one {A} (rows : list A) : M A :=
  match rows with
  | [] => raise DoesNotExist
  | [r] => ret r
  | _ => raise MultipleObjectsReturned
  end.

#[global] Instance Status_eq_dec : EqDecision Status.
Proof. solve_decision. Defined.

#[global] Instance MovementType_eq_dec : EqDecision MovementType.
Proof. solve_decision. Defined.

(** ** Field assignments on a transaction instance *)

Definition set_transaction_number (n : string) (t : SalesTransaction.t) :=
  {| SalesTransaction.id := SalesTransaction.id t;
     SalesTransaction.transaction_number := n;
     SalesTransaction.subtotal := SalesTransaction.subtotal t;
     SalesTransaction.tax := SalesTransaction.tax t;
     SalesTransaction.discount := SalesTransaction.discount t;
     SalesTransaction.total_amount := SalesTransaction.total_amount t;
     SalesTransaction.payment_method := SalesTransaction.payment_method t;
     SalesTransaction.payment_reference := SalesTransaction.payment_reference t;
     SalesTransaction.amount_paid := SalesTransaction.amount_paid t;
     SalesTransaction.change_amount := SalesTransaction.change_amount t;
     SalesTransaction.status := SalesTransaction.status t;
     SalesTransaction.notes := SalesTransaction.notes t;
     SalesTransaction.customer_name := SalesTransaction.customer_name t;
     SalesTransaction.customer_phone := SalesTransaction.customer_phone t;
     SalesTransaction.customer_email := SalesTransaction.customer_email t;
     SalesTransaction.created_by := SalesTransaction.created_by t;
     SalesTransaction.created_at := SalesTransaction.created_at t;
     SalesTransaction.updated_at := SalesTransaction.updated_at t;
     SalesTransaction.completed_at := SalesTransaction.completed_at t;
     SalesTransaction.voided_by := SalesTransaction.voided_by t;
     SalesTransaction.voided_at := SalesTransaction.voided_at t;
     SalesTransaction.void_reason := SalesTransaction.void_reason t |}.

(** The columns the ORM fills in on save: the key and [created_at]
    ([auto_now_add]) on insert, [updated_at] ([auto_now]) always. *)
Definition set_saved (pk : option Pk) (created updated : option DateTime)
    (t : SalesTransaction.t) :=
  {| SalesTransaction.id := pk;
     SalesTransaction.transaction_number := SalesTransaction.transaction_number t;
     SalesTransaction.subtotal := SalesTransaction.subtotal t;
     SalesTransaction.tax := SalesTransaction.tax t;
     SalesTransaction.discount := SalesTransaction.discount t;
     SalesTransaction.total_amount := SalesTransaction.total_amount t;
     SalesTransaction.payment_method := SalesTransaction.payment_method t;
     SalesTransaction.payment_reference := SalesTransaction.payment_reference t;
     SalesTransaction.amount_paid := SalesTransaction.amount_paid t;
     SalesTransaction.change_amount := SalesTransaction.change_amount t;
     SalesTransaction.status := SalesTransaction.status t;
     SalesTransaction.notes := SalesTransaction.notes t;
     SalesTransaction.customer_name := SalesTransaction.customer_name t;
     SalesTransaction.customer_phone := SalesTransaction.customer_phone t;
     SalesTransaction.customer_email := SalesTransaction.customer_email t;
     SalesTransaction.created_by := SalesTransaction.created_by t;
     SalesTransaction.created_at := created;
     SalesTransaction.updated_at := updated;
     SalesTransaction.completed_at := SalesTransaction.completed_at t;
     SalesTransaction.voided_by := SalesTransaction.voided_by t;
     SalesTransaction.voided_at := SalesTransaction.voided_at t;
     SalesTransaction.void_reason := SalesTransaction.void_reason t |}.

(** [self.status = 'COMPLETED'; self.completed_at = now] *)
Definition set_completed (now : DateTime) (t : SalesTransaction.t) :=
  {| SalesTransaction.id := SalesTransaction.id t;
     SalesTransaction.transaction_number := SalesTransaction.transaction_number t;
     SalesTransaction.subtotal := SalesTransaction.subtotal t;
     SalesTransaction.tax := SalesTransaction.tax t;
     SalesTransaction.discount := SalesTransaction.discount t;
     SalesTransaction.total_amount := SalesTransaction.total_amount t;
     SalesTransaction.payment_method := SalesTransaction.payment_method t;
     SalesTransaction.payment_reference := SalesTransaction.payment_reference t;
     SalesTransaction.amount_paid := SalesTransaction.amount_paid t;
     SalesTransaction.change_amount := SalesTransaction.change_amount t;
     SalesTransaction.status := COMPLETED;
     SalesTransaction.notes := SalesTransaction.notes t;
     SalesTransaction.customer_name := SalesTransaction.customer_name t;
     SalesTransaction.customer_phone := SalesTransaction.customer_phone t;
     SalesTransaction.customer_email := SalesTransaction.customer_email t;
     SalesTransaction.created_by := SalesTransaction.created_by t;
     SalesTransaction.created_at := SalesTransaction.created_at t;
     SalesTransaction.updated_at := SalesTransaction.updated_at t;
     SalesTransaction.completed_at := Some now;
     SalesTransaction.voided_by := SalesTransaction.voided_by t;
     SalesTransaction.voided_at := SalesTransaction.voided_at t;
     SalesTransaction.void_reason := SalesTransaction.void_reason t |}.

(** [self.status = 'VOID'; self.voided_by = user; self.voided_at = now;
    self.void_reason = reason] *)
Definition set_voided (user : Pk) (now : DateTime) (reason : string)
    (t : SalesTransaction.t) :=
  {| SalesTransaction.id := SalesTransaction.id t;
     SalesTransaction.transaction_number := SalesTransaction.transaction_number t;
     SalesTransaction.subtotal := SalesTransaction.subtotal t;
     SalesTransaction.tax := SalesTransaction.tax t;
     SalesTransaction.discount := SalesTransaction.discount t;
     SalesTransaction.total_amount := SalesTransaction.total_amount t;
     SalesTransaction.payment_method := SalesTransaction.payment_method t;
     SalesTransaction.payment_reference := SalesTransaction.payment_reference t;
     SalesTransaction.amount_paid := SalesTransaction.amount_paid t;
     SalesTransaction.change_amount := SalesTransaction.change_amount t;
     SalesTransaction.status := VOID;
     SalesTransaction.notes := SalesTransaction.notes t;
     SalesTransaction.customer_name := SalesTransaction.customer_name t;
     SalesTransaction.customer_phone := SalesTransaction.customer_phone t;
     SalesTransaction.customer_email := SalesTransaction.customer_email t;
     SalesTransaction.created_by := SalesTransaction.created_by t;
     SalesTransaction.created_at := SalesTransaction.created_at t;
     SalesTransaction.updated_at := SalesTransaction.updated_at t;
     SalesTransaction.completed_at := SalesTransaction.completed_at t;
     SalesTransaction.voided_by := Some user;
     SalesTransaction.voided_at := Some now;
     SalesTransaction.void_reason := reason |}.

(** ** [pos/models.py] *)

Section Pos.

(** What saving an inventory movement does to the product table.  The
    inventory application is a collaborator outside this package; the
    development holds for every such effect. *)
Variable movement_effect :
  InventoryMovement.t -> gmap Z Product.t -> gmap Z Product.t.

(** The syntax check of a serializer [EmailField]. *)
Variable EmailValidator : string -> bool.

(** [InventoryMovement.objects.create(...)]: one more ledger row, and the
    ledger's effect on stock. *)
Definition record_movement (mv : InventoryMovement.t) (s : Store) : Store :=
  with_products (movement_effect mv)
    (with_inventory_movements (fun l => l ++ [mv]) s).

Definition InventoryMovement_objects_create (mv : InventoryMovement.t) : M unit :=
  modify (record_movement mv).

(** [.order_by('-transaction_number').first()]: the row whose number is
    greatest in string order. *)
Fixpoint first_by_number_desc (rows : list SalesTransaction.t)
    : option SalesTransaction.t :=
  match rows with
  | [] => None
  | r :: rows' =>
      match first_by_number_desc rows' with
      | Some b =>
          if String.ltb (SalesTransaction.transaction_number r)
                        (SalesTransaction.transaction_number b)
          then Some b else Some r
      | None => Some r
      end
  end.

(** The body of [if not self.transaction_number:] in
    [SalesTransaction.save]. *)
Definition generate_transaction_number (now : DateTime) : M string :=
  let date_str := strftime_Ymd now in
  let* rows := gets sales_transactions in
  let last_transaction :=
    first_by_number_desc
      (List.filter
         (fun r => Py.startswith (SalesTransaction.transaction_number r)
                     ("TXN-" +:+ date_str))
         rows) in
  let* new_number :=
    match last_transaction with
    | Some lt =>
        match Py.int (List.last
                        (Py.split "-" (SalesTransaction.transaction_number lt))
                        "") with
        | Some last_number => ret (last_number + 1)
        | None => raise ValueError
        end
    | None => ret 1
    end in
  ret ("TXN-" +:+ date_str +:+ "-" +:+ Py.format_0d 4 new_number).

Definition has_pk (pk : Pk) (r : SalesTransaction.t) : bool :=
  bool_decide (SalesTransaction.id r = Some pk).

(** [super().save()]: insert a new row or update the row with the
    instance's key; [transaction_number] is [unique]. *)
Definition Model_save (now : DateTime) (self : SalesTransaction.t)
    : M SalesTransaction.t :=
  let* rows := gets sales_transactions in
  let number := SalesTransaction.transaction_number self in
  match SalesTransaction.id self with
  | None =>
      if existsb (fun r => String.eqb (SalesTransaction.transaction_number r) number)
                 rows
      then raise IntegrityError
      else
        let pk := next_pk (omap SalesTransaction.id rows) in
        let row := set_saved (Some pk) (Some now) (Some now) self in
        modify (with_sales_transactions (fun l => l ++ [row])) ;;
        ret row
  | Some pk =>
      if existsb (fun r => String.eqb (SalesTransaction.transaction_number r) number
                           && negb (has_pk pk r))
                 rows
      then raise IntegrityError
      else if existsb (has_pk pk) rows then
        let row := set_saved (Some pk) (SalesTransaction.created_at self)
                     (Some now) self in
        modify (with_sales_transactions
                  (map (fun r => if has_pk pk r then row else r))) ;;
        ret row
      else
        let row := set_saved (Some pk) (Some now) (Some now) self in
        modify (with_sales_transactions (fun l => l ++ [row])) ;;
        ret row
  end.

(** [SalesTransaction.save] *)
Definition SalesTransaction_save (now : DateTime) (self : SalesTransaction.t)
    : M SalesTransaction.t :=
  let* self :=
    if String.eqb (SalesTransaction.transaction_number self) ""
    then
      let* number := generate_transaction_number now in
      ret (set_transaction_number number self)
    else ret self in
  Model_save now self.

(** [self.items.all()]: the transaction's items, [ordering = ['id']]. *)
Definition items_all (pk : Pk) (s : Store) : list TransactionItem.t :=
  List.filter (fun i => TransactionItem.transaction i =? pk) (transaction_items s).

(** [SalesTransaction.profit] *)
Definition item_profit (s : Store) (item : TransactionItem.t) : option Decimal :=
  match products s !! TransactionItem.product item with
  | Some product =>
      Some ((TransactionItem.unit_price item - Product.cost_price product)
            * TransactionItem.quantity item)
  | None => None
  end.

Fixpoint profit_loop (s : Store) (items : list TransactionItem.t)
    (total_profit : Decimal) : option Decimal :=
  match items with
  | [] => Some total_profit
  | item :: rest =>
      match item_profit s item with
      | Some p => profit_loop s rest (total_profit + p)
      | None => None
      end
  end.

Definition SalesTransaction_profit (s : Store) (pk : Pk) : option Decimal :=
  profit_loop s (items_all pk s) 0.

(** [TransactionItem.profit] *)
Definition TransactionItem_profit := item_profit.

Definition sale_movement (self : SalesTransaction.t) (item : TransactionItem.t)
    : InventoryMovement.t :=
  {| InventoryMovement.product := TransactionItem.product item;
     InventoryMovement.movement_type := SALE;
     InventoryMovement.quantity := TransactionItem.quantity item;
     InventoryMovement.reference_number := SalesTransaction.transaction_number self;
     InventoryMovement.reason :=
       "Sale transaction " +:+ SalesTransaction.transaction_number self;
     InventoryMovement.created_by := SalesTransaction.created_by self;
     InventoryMovement.transaction_id := SalesTransaction.id self |}.

Definition return_movement (self : SalesTransaction.t) (user : Pk)
    (reason : string) (item : TransactionItem.t) : InventoryMovement.t :=
  {| InventoryMovement.product := TransactionItem.product item;
     InventoryMovement.movement_type := RETURN;
     InventoryMovement.quantity := TransactionItem.quantity item;
     InventoryMovement.reference_number :=
       "VOID-" +:+ SalesTransaction.transaction_number self;
     InventoryMovement.reason :=
       "Voided transaction " +:+ SalesTransaction.transaction_number self
         +:+ ": " +:+ reason;
     InventoryMovement.created_by := user;
     InventoryMovement.transaction_id := SalesTransaction.id self |}.

(** A related manager needs a saved instance. *)
Definition self_items (self : SalesTransaction.t) : M (list TransactionItem.t) :=
  match SalesTransaction.id self with
  | Some pk => gets (items_all pk)
  | None => raise ValueError
  end.

(** [SalesTransaction.complete_transaction]; the result is the instance
    after the call. *)
Definition complete_transaction (now : DateTime) (self : SalesTransaction.t)
    : M SalesTransaction.t :=
  if bool_decide (SalesTransaction.status self = COMPLETED) then ret self
  else
    let self := set_completed now self in
    let* items := self_items self in
    for_each items (fun item =>
      InventoryMovement_objects_create (sale_movement self item)) ;;
    SalesTransaction_save now self.

(** [SalesTransaction.void_transaction] *)
Definition void_transaction (now : DateTime) (self : SalesTransaction.t)
    (user : Pk) (reason : string) : M SalesTransaction.t :=
  if bool_decide (SalesTransaction.status self = VOID) then ret self
  else
    (if bool_decide (SalesTransaction.status self = COMPLETED) then
       let* items := self_items self in
       for_each items (fun item =>
         InventoryMovement_objects_create (return_movement self user reason item))
     else ret tt) ;;
    let self := set_voided user now reason self in
    SalesTransaction_save now self.

(** ** [pos/serializers.py] *)

(** Python's [sum]: a left fold from 0. *)
Definition Py_sum (l : list Z) : Z := fold_left Z.add l 0.

(** [DecimalField(max_digits=10, decimal_places=2, min_value=0)]: at most
    eight digits before the point, not negative. *)
Definition DecimalField (v : Decimal) : bool :=
  (0 <=? v) && (v <=? 9999999999).

Definition PAYMENT_METHODS : list (string * PaymentMethod) :=
  [("CASH", CASH); ("CARD", CARD); ("GCASH", GCASH); ("PAYMAYA", PAYMAYA);
   ("BANK_TRANSFER", BANK_TRANSFER)].

(** [ChoiceField(choices=PAYMENT_METHODS)] *)
Definition ChoiceField (v : string) : option PaymentMethod :=
  snd <$> List.find (fun c => String.eqb (fst c) v) PAYMENT_METHODS.

Definition failed (field : string) (e : ErrorDetail) : list (string * ErrorDetail) :=
  [(field, e)].

(** [TransactionItemCreateSerializer.validate_quantity] *)
Definition validate_quantity (value : Z) : list (string * ErrorDetail) :=
  if value <=? 0 then failed "quantity" QuantityMustBePositive else [].

(** [TransactionItemCreateSerializer.validate] *)
Definition TransactionItemCreateSerializer_validate
    (product : Product.t) (quantity : Z) : list (string * ErrorDetail) :=
  if Product.current_stock product <? quantity
  then failed "quantity" (InsufficientStock (Product.current_stock product))
  else [].

(** The fields of one item, in the order of [Meta.fields]: the product
    key must name a row, the quantity is at least 1 (the model's
    [MinValueValidator(1)]), prices are two-decimal and not negative. *)
Definition item_field_errors (s : Store) (d : ItemData.t)
    : list (string * ErrorDetail) :=
  (match products s !! ItemData.product d with
   | Some _ => []
   | None => failed "product" InvalidField
   end)
  ++ (if ItemData.quantity d <? 1 then failed "quantity" InvalidField
      else validate_quantity (ItemData.quantity d))
  ++ (if DecimalField (ItemData.unit_price d) then []
      else failed "unit_price" InvalidField)
  ++ (match ItemData.discount d with
      | Some v => if DecimalField v then [] else failed "discount" InvalidField
      | None => []
      end).

(** Validation of one item: [validate] runs only when every field
    passed. *)
Definition item_errors (s : Store) (d : ItemData.t)
    : list (string * ErrorDetail) :=
  match item_field_errors s d with
  | [] =>
      match products s !! ItemData.product d with
      | Some product =>
          TransactionItemCreateSerializer_validate product (ItemData.quantity d)
      | None => []
      end
  | errors => errors
  end.

(** [SalesTransactionCreateSerializer.validate_items] *)
Definition validate_items (value : list ItemData.t) : list (string * ErrorDetail) :=
  match value with
  | [] => failed "items" AtLeastOneItemRequired
  | _ => []
  end.

(** The [items] field: every item is validated; [validate_items] runs
    when all of them passed. *)
Definition items_errors (s : Store) (value : list ItemData.t)
    : list (string * ErrorDetail) :=
  match flat_map (item_errors s) value with
  | [] => validate_items value
  | errors => errors
  end.

Definition required_decimal (field : string) (v : option Decimal)
    : list (string * ErrorDetail) :=
  match v with
  | Some d => if DecimalField d then [] else failed field InvalidField
  | None => failed field InvalidField
  end.

Definition optional_decimal (field : string) (v : option Decimal)
    : list (string * ErrorDetail) :=
  match v with
  | Some d => if DecimalField d then [] else failed field InvalidField
  | None => []
  end.

(** [EmailField(required=False, allow_blank=True)] *)
Definition email_errors (v : string) : list (string * ErrorDetail) :=
  if String.eqb v "" then []
  else if EmailValidator v then [] else failed "customer_email" InvalidField.

(** Field validation of [SalesTransactionCreateSerializer]: the error
    dictionary, in the order the fields are declared. *)
Definition field_errors (s : Store) (data : TransactionData.t)
    : list (string * ErrorDetail) :=
  items_errors s (TransactionData.items data)
  ++ (match TransactionData.payment_method data with
      | Some v => match ChoiceField v with
                  | Some _ => []
                  | None => failed "payment_method" InvalidField
                  end
      | None => failed "payment_method" InvalidField
      end)
  ++ required_decimal "amount_paid" (TransactionData.amount_paid data)
  ++ optional_decimal "tax" (TransactionData.tax data)
  ++ optional_decimal "discount" (TransactionData.discount data)
  ++ email_errors (TransactionData.customer_email data).

(** One validated item: its [notes], a [CharField], are handed on
    trimmed. *)
Definition item_internal_value (d : ItemData.t) : ItemData.t :=
  {| ItemData.product := ItemData.product d;
     ItemData.quantity := ItemData.quantity d;
     ItemData.unit_price := ItemData.unit_price d;
     ItemData.discount := ItemData.discount d;
     ItemData.notes := Py.strip (ItemData.notes d) |}.

(** The validated values; [tax] and [discount] default to 0, and a
    [CharField] or [EmailField] hands on its text trimmed. *)
Definition to_internal_value (data : TransactionData.t) : option ValidatedData.t :=
  match TransactionData.payment_method data ≫= ChoiceField,
        TransactionData.amount_paid data with
  | Some method, Some paid =>
      Some {| ValidatedData.items :=
                map item_internal_value (TransactionData.items data);
              ValidatedData.payment_method := method;
              ValidatedData.payment_reference :=
                Py.strip (TransactionData.payment_reference data);
              ValidatedData.amount_paid := paid;
              ValidatedData.tax := default 0 (TransactionData.tax data);
              ValidatedData.discount := default 0 (TransactionData.discount data);
              ValidatedData.notes := Py.strip (TransactionData.notes data);
              ValidatedData.customer_name :=
                Py.strip (TransactionData.customer_name data);
              ValidatedData.customer_phone :=
                Py.strip (TransactionData.customer_phone data);
              ValidatedData.customer_email :=
                Py.strip (TransactionData.customer_email data) |}
  | _, _ => None
  end.

(** [(item['unit_price'] * item['quantity']) - item.get('discount', 0)] *)
Definition item_amount (item : ItemData.t) : Decimal :=
  ItemData.unit_price item * ItemData.quantity item
  - default 0 (ItemData.discount item).

Definition calculated_subtotal (data : ValidatedData.t) : Decimal :=
  Py_sum (map item_amount (ValidatedData.items data)).

Definition calculated_total (data : ValidatedData.t) : Decimal :=
  calculated_subtotal data + ValidatedData.tax data - ValidatedData.discount data.

(** [SalesTransactionCreateSerializer.validate]: the data with its two
    calculated entries, or the payment error. *)
Definition SalesTransactionCreateSerializer_validate (data : ValidatedData.t)
    : Outcome (ValidatedData.t * Decimal * Decimal) :=
  let subtotal := Py_sum (map item_amount (ValidatedData.items data)) in
  let total := subtotal + ValidatedData.tax data - ValidatedData.discount data in
  if ValidatedData.amount_paid data <? total
  then Raise (ValidationError (failed "amount_paid" (InsufficientPayment total)))
  else Return (data, subtotal, total).

(** [serializer.is_valid(raise_exception=True)]: field errors are
    reported without running [validate]. *)
Definition is_valid (data : TransactionData.t)
    : M (ValidatedData.t * Decimal * Decimal) :=
  let* errors := gets (fun s => field_errors s data) in
  match errors, to_internal_value data with
  | [], Some value =>
      match SalesTransactionCreateSerializer_validate value with
      | Return v => ret v
      | Raise e => raise e
      end
  | _, _ => raise (ValidationError errors)
  end.

(** [TransactionItem.objects.create(transaction=..., **item_data)], with
    [TransactionItem.save] computing the line total. *)
Definition item_row (pk transaction : Pk) (item_data : ItemData.t)
    : TransactionItem.t :=
  let discount := default 0 (ItemData.discount item_data) in
  {| TransactionItem.id := pk;
     TransactionItem.transaction := transaction;
     TransactionItem.product := ItemData.product item_data;
     TransactionItem.quantity := ItemData.quantity item_data;
     TransactionItem.unit_price := ItemData.unit_price item_data;
     TransactionItem.discount := discount;
     TransactionItem.line_total :=
       ItemData.unit_price item_data * ItemData.quantity item_data - discount;
     TransactionItem.notes := ItemData.notes item_data |}.

Definition insert_item (transaction : Pk) (item_data : ItemData.t) (s : Store)
    : Store :=
  with_transaction_items
    (fun rows =>
       rows ++ [item_row (next_pk (map TransactionItem.id rows)) transaction item_data])
    s.

Definition TransactionItem_objects_create (transaction : Pk) (item_data : ItemData.t)
    : M unit :=
  modify (insert_item transaction item_data).

(** The instance [SalesTransaction.objects.create] builds before saving
    it. *)
Definition new_transaction (user : Pk) (data : ValidatedData.t)
    (subtotal total : Decimal) : SalesTransaction.t :=
  {| SalesTransaction.id := None;
     SalesTransaction.transaction_number := "";
     SalesTransaction.subtotal := subtotal;
     SalesTransaction.tax := ValidatedData.tax data;
     SalesTransaction.discount := ValidatedData.discount data;
     SalesTransaction.total_amount := total;
     SalesTransaction.payment_method := ValidatedData.payment_method data;
     SalesTransaction.payment_reference := ValidatedData.payment_reference data;
     SalesTransaction.amount_paid := ValidatedData.amount_paid data;
     SalesTransaction.change_amount := ValidatedData.amount_paid data - total;
     SalesTransaction.status := PENDING;
     SalesTransaction.notes := ValidatedData.notes data;
     SalesTransaction.customer_name := ValidatedData.customer_name data;
     SalesTransaction.customer_phone := ValidatedData.customer_phone data;
     SalesTransaction.customer_email := ValidatedData.customer_email data;
     SalesTransaction.created_by := user;
     SalesTransaction.created_at := None;
     SalesTransaction.updated_at := None;
     SalesTransaction.completed_at := None;
     SalesTransaction.voided_by := None;
     SalesTransaction.voided_at := None;
     SalesTransaction.void_reason := "" |}.

(** [SalesTransactionCreateSerializer.create], under
    [@transaction.atomic]. *)
Definition SalesTransactionCreateSerializer_create (now : DateTime) (user : Pk)
    (validated_data : ValidatedData.t * Decimal * Decimal)
    : M SalesTransaction.t :=
  atomic (
    let '(data, subtotal, total) := validated_data in
    let items_data := ValidatedData.items data in
    let* sales_transaction :=
      SalesTransaction_save now (new_transaction user data subtotal total) in
    match SalesTransaction.id sales_transaction with
    | Some pk =>
        for_each items_data (fun item_data =>
          TransactionItem_objects_create pk item_data) ;;
        complete_transaction now sales_transaction
    | None => raise ValueError
    end).

(** [createTransaction]: [is_valid(raise_exception=True)] then [save()]. *)
Definition create_transaction (now : DateTime) (user : Pk)
    (data : TransactionData.t) : M SalesTransaction.t :=
  let* validated_data := is_valid data in
  SalesTransactionCreateSerializer_create now user validated_data.

(** [AddToCartSerializer]: [validate_product_id], then [validate]. *)
Definition AddToCartSerializer_validate_product_id (s : Store) (value : Pk)
    : list (string * ErrorDetail) :=
  match products s !! value with
  | Some product =>
      if Product.is_active product then []
      else failed "product_id" ProductNotFoundOrInactive
  | None => failed "product_id" ProductNotFoundOrInactive
  end.

Definition AddToCartSerializer_validate (s : Store) (product_id : Pk)
    (quantity : Z) : list (string * ErrorDetail) :=
  match products s !! product_id with
  | Some product =>
      if Product.current_stock product <? quantity
      then failed "quantity" (InsufficientStock (Product.current_stock product))
      else []
  | None => []
  end.

Definition AddToCartSerializer_is_valid (product_id : Pk) (quantity : Z) : M unit :=
  let* errors := gets (fun s =>
    AddToCartSerializer_validate_product_id s product_id
    ++ (if quantity <? 1 then failed "quantity" InvalidField else [])) in
  match errors with
  | [] =>
      let* errors := gets (fun s => AddToCartSerializer_validate s product_id quantity) in
      match errors with
      | [] => ret tt
      | _ => raise (ValidationError errors)
      end
  | _ => raise (ValidationError errors)
  end.

(** ** [pos/models.py]: carts *)

Definition with_quantity (q : Z) (i : CartItem.t) : CartItem.t :=
  {| CartItem.id := CartItem.id i;
     CartItem.cart := CartItem.cart i;
     CartItem.product := CartItem.product i;
     CartItem.quantity := q;
     CartItem.unit_price := CartItem.unit_price i |}.

Definition with_unit_price (p : Decimal) (i : CartItem.t) : CartItem.t :=
  {| CartItem.id := CartItem.id i;
     CartItem.cart := CartItem.cart i;
     CartItem.product := CartItem.product i;
     CartItem.quantity := CartItem.quantity i;
     CartItem.unit_price := p |}.

Definition deactivated (c : Cart.t) : Cart.t :=
  {| Cart.id := Cart.id c;
     Cart.user := Cart.user c;
     Cart.session_id := Cart.session_id c;
     Cart.is_active := false |}.

(** [Product.objects.get(id=...)] *)
Definition Product_objects_get (product_id : Pk) : M Product.t :=
  let* found := gets (fun s => products s !! product_id) in
  match found with
  | Some product => ret product
  | None => raise DoesNotExist
  end.

(** [cart.cart_items.all()] *)
Definition cart_items_all (cart : Pk) (s : Store) : list CartItem.t :=
  List.filter (fun i => CartItem.cart i =? cart) (cart_items s).

(** [Cart.clear] *)
Definition Cart_clear (cart : Cart.t) : M unit :=
  modify (with_cart_items
            (List.filter (fun i => negb (CartItem.cart i =? Cart.id cart)))).

(** [Cart.save] on a stored cart: the row is overwritten. *)
Definition Cart_save (cart : Cart.t) : M unit :=
  modify (with_carts
            (map (fun c => if Cart.id c =? Cart.id cart then cart else c))).

(** [CartItem.save]: the unit price falls back to the product's when the
    instance has none (or zero); then the row is written. *)
Definition CartItem_save (self : CartItem.t) : M CartItem.t :=
  let* self :=
    if CartItem.unit_price self =? 0 then
      let* product := Product_objects_get (CartItem.product self) in
      ret (with_unit_price (Product.unit_price product) self)
    else ret self in
  let* rows := gets cart_items in
  (if existsb (fun i => CartItem.id i =? CartItem.id self) rows
   then modify (with_cart_items
                  (map (fun i => if CartItem.id i =? CartItem.id self
                                 then self else i)))
   else modify (with_cart_items (fun l => l ++ [self]))) ;;
  ret self.

Definition active_carts (user : Pk) (s : Store) : list Cart.t :=
  List.filter (fun c => (Cart.user c =? user) && Cart.is_active c) (carts s).

Definition session_id_eqb (a b : Pk * DateTime) : bool :=
  (fst a =? fst b)
  && (year (snd a) =? year (snd b)) && (month (snd a) =? month (snd b))
  && (day (snd a) =? day (snd b))
  && (time_of_day (snd a) =? time_of_day (snd b)).

(** [Cart.objects.get(user=..., is_active=True)] *)
Definition Cart_objects_get (user : Pk) : M Cart.t :=
  let* rows := gets (active_carts user) in
  get_one rows.

(** [Cart.objects.get_or_create(user=..., is_active=True,
    defaults={'session_id': ...})]; [session_id] is [unique]. *)
Definition Cart_objects_get_or_create (now : DateTime) (user : Pk) : M Cart.t :=
  try_except (Cart_objects_get user) (fun e =>
    match e with
    | DoesNotExist => Some (
        let* rows := gets carts in
        if existsb (fun c => session_id_eqb (Cart.session_id c) (user, now)) rows
        then raise IntegrityError
        else
          let cart := {| Cart.id := next_pk (map Cart.id rows);
                         Cart.user := user;
                         Cart.session_id := (user, now);
                         Cart.is_active := true |} in
          modify (with_carts (fun l => l ++ [cart])) ;;
          ret cart)
    | _ => None
    end).

Definition cart_lines (cart product : Pk) (s : Store) : list CartItem.t :=
  List.filter (fun i => (CartItem.cart i =? cart) && (CartItem.product i =? product))
              (cart_items s).

(** [CartItem.objects.get_or_create(cart=..., product=...,
    defaults={'quantity': ..., 'unit_price': ...})]: the item and whether
    it was created. *)
Definition CartItem_objects_get_or_create (cart : Cart.t) (product : Pk)
    (quantity : Z) (unit_price : Decimal) : M (CartItem.t * bool) :=
  try_except
    (let* rows := gets (cart_lines (Cart.id cart) product) in
     let* item := get_one rows in
     ret (item, false))
    (fun e =>
       match e with
       | DoesNotExist => Some (
           let* rows := gets cart_items in
           let* item :=
             CartItem_save
               {| CartItem.id := next_pk (map CartItem.id rows);
                  CartItem.cart := Cart.id cart;
                  CartItem.product := product;
                  CartItem.quantity := quantity;
                  CartItem.unit_price := unit_price |} in
           ret (item, true))
       | _ => None
       end).

(** ** [pos/views.py] *)

Definition respond (m : M Response) (s : Store) : Response * Store :=
  match m s with
  | (Return r, s') => (r, s')
  | (Raise (ValidationError errors), s') => (HTTP_400 errors, s')
  | (Raise e, s') => (HTTP_500 e, s')
  end.

(** [accounts.utils.create_audit_log] *)
Definition create_audit_log (user : Pk) (action table_name : string)
    (record_id : option Pk) : M unit :=
  modify (with_audit_logs (fun l => l ++
    [{| AuditLog.user := user; AuditLog.action := action;
        AuditLog.table_name := table_name; AuditLog.record_id := record_id |}])).

Definition CartSerializer_data (cart : Cart.t) : M Payload :=
  let* items := gets (cart_items_all (Cart.id cart)) in
  ret (CartPayload cart items).

(** [SalesTransactionListCreateView.post] *)
Definition SalesTransactionListCreateView_post (now : DateTime) (user : Pk)
    (data : TransactionData.t) : Store -> Response * Store :=
  respond (
    let* transaction := create_transaction now user data in
    create_audit_log user "CREATE" "sales_transactions"
      (SalesTransaction.id transaction) ;;
    ret (HTTP_201 (TransactionPayload transaction))).

(** [SalesTransaction.objects.get(pk=pk)] *)
Definition SalesTransaction_objects_get (pk : Pk) : M SalesTransaction.t :=
  let* rows := gets (fun s => List.filter (has_pk pk) (sales_transactions s)) in
  get_one rows.

(** The validators every serializer [CharField] carries: no null
    character, no surrogate. *)
Definition prohibited_characters (value : string) : bool :=
  Py.has_null value || Py.has_surrogate value.

(** [VoidTransactionSerializer]: [reason = CharField(max_length=500)],
    required, trimmed, not blank, at most 500 characters.  [reason] is
    the posted text, a posted number being its text; it is [None] when
    the key is absent or its value is null, a boolean, an array or an
    object. *)
Definition VoidTransactionSerializer_is_valid (reason : option string) : M string :=
  match reason with
  | Some r =>
      let r := Py.strip r in
      if String.eqb r "" || (500 <? Py.len r)%nat || prohibited_characters r
      then raise (ValidationError (failed "reason" InvalidField))
      else ret r
  | None => raise (ValidationError (failed "reason" InvalidField))
  end.

(** [try: x = m except DoesNotExist: ...]: the row, or [None] when the
    handler runs. *)
Definition or_does_not_exist {A} (m : M A) : M (option A) :=
  try_except (let* x := m in ret (Some x))
    (fun e => match e with
              | DoesNotExist => Some (ret None)
              | _ => None
              end).

(** [VoidTransactionView.post] *)
Definition VoidTransactionView_post (now : DateTime) (user : Pk) (pk : Pk)
    (reason : option string) : Store -> Response * Store :=
  respond (
    let* found := or_does_not_exist (SalesTransaction_objects_get pk) in
    match found with
    | None => ret (HTTP_404 TransactionNotFound)
    | Some transaction =>
        if bool_decide (SalesTransaction.status transaction = VOID)
        then ret (HTTP_400 (failed "error" TransactionAlreadyVoided))
        else
          let* reason := VoidTransactionSerializer_is_valid reason in
          let* transaction := void_transaction now transaction user reason in
          create_audit_log user "UPDATE" "sales_transactions"
            (SalesTransaction.id transaction) ;;
          ret (HTTP_200 (TransactionPayload transaction))
    end).

(** [CartView.get] *)
Definition CartView_get (now : DateTime) (user : Pk) : Store -> Response * Store :=
  respond (
    let* cart := Cart_objects_get_or_create now user in
    let* data := CartSerializer_data cart in
    ret (HTTP_200 data)).

(** [CartView.delete] *)
Definition CartView_delete (user : Pk) : Store -> Response * Store :=
  respond (
    let* found := or_does_not_exist (Cart_objects_get user) in
    match found with
    | Some cart => Cart_clear cart ;; ret (HTTP_200 MessagePayload)
    | None => ret (HTTP_200 MessagePayload)
    end).

(** [AddToCartView.post] *)
Definition AddToCartView_post (now : DateTime) (user : Pk) (product_id : Pk)
    (quantity : Z) : Store -> Response * Store :=
  respond (
    AddToCartSerializer_is_valid product_id quantity ;;
    let* cart := Cart_objects_get_or_create now user in
    let* product := Product_objects_get product_id in
    let* (cart_item, created) :=
      CartItem_objects_get_or_create cart product_id quantity
        (Product.unit_price product) in
    if negb created then
      let new_quantity := CartItem.quantity cart_item + quantity in
      if Product.current_stock product <? new_quantity then
        ret (HTTP_400 (failed "error"
               (InsufficientStock (Product.current_stock product))))
      else
        CartItem_save (with_quantity new_quantity cart_item) ;;
        let* data := CartSerializer_data cart in
        ret (HTTP_200 data)
    else
      let* data := CartSerializer_data cart in
      ret (HTTP_200 data)).

(** [CartItem.objects.get(pk=pk, cart__user=user, cart__is_active=True)] *)
Definition CartItem_objects_get (pk user : Pk) : M CartItem.t :=
  let* rows := gets (fun s =>
    List.filter
      (fun i => (CartItem.id i =? pk)
                && existsb (fun c => Cart.id c =? CartItem.cart i)
                           (active_carts user s))
      (cart_items s)) in
  get_one rows.

(** [value < n] and [n < value] for an [int] [n]. *)
Definition less_than_int (value : JSON) (n : Z) : M bool :=
  match PyValue.number value with
  | Some x => ret (PyValue.lt x (inject_Z n))
  | None => raise TypeError
  end.

Definition int_less_than (n : Z) (value : JSON) : M bool :=
  match PyValue.number value with
  | Some x => ret (PyValue.lt (inject_Z n) x)
  | None => raise TypeError
  end.

(** [IntegerField.get_prep_value]: the column takes [int(value)]. *)
Definition IntegerField_get_prep_value (value : JSON) : M Z :=
  match PyValue.number value with
  | Some x => ret (PyValue.int x)
  | None => raise TypeError
  end.

(** [UpdateCartItemView.patch]; [quantity] is
    [request.data.get('quantity')] as posted: the view hands it to no
    serializer. *)
Definition UpdateCartItemView_patch (user : Pk) (pk : Pk) (quantity : JSON)
    : Store -> Response * Store :=
  respond (
    let* found := or_does_not_exist (CartItem_objects_get pk user) in
    match found with
    | None => ret (HTTP_404 CartItemNotFound)
    | Some cart_item =>
        let* invalid :=
          if negb (PyValue.truth quantity) then ret true
          else less_than_int quantity 1 in
        if invalid then ret (HTTP_400 (failed "error" InvalidQuantity))
        else
          let* product := Product_objects_get (CartItem.product cart_item) in
          let* short := int_less_than (Product.current_stock product) quantity in
          if short then
            ret (HTTP_400 (failed "error"
                   (InsufficientStock (Product.current_stock product))))
          else
            let* stored := IntegerField_get_prep_value quantity in
            CartItem_save (with_quantity stored cart_item) ;;
            let* cart := gets (fun s =>
              List.filter (fun c => Cart.id c =? CartItem.cart cart_item)
                          (carts s)) in
            let* cart := get_one cart in
            let* data := CartSerializer_data cart in
            ret (HTTP_200 data)
    end).

(** [RemoveCartItemView.delete] *)
Definition RemoveCartItemView_delete (user : Pk) (pk : Pk)
    : Store -> Response * Store :=
  respond (
    let* found := or_does_not_exist (CartItem_objects_get pk user) in
    match found with
    | None => ret (HTTP_404 CartItemNotFound)
    | Some cart_item =>
        let* cart := gets (fun s =>
          List.filter (fun c => Cart.id c =? CartItem.cart cart_item) (carts s)) in
        let* cart := get_one cart in
        modify (with_cart_items
                  (List.filter (fun i => negb (CartItem.id i =? CartItem.id cart_item)))) ;;
        let* data := CartSerializer_data cart in
        ret (HTTP_200 data)
    end).

(** The entry the checkout view appends to [items] for one cart line. *)
Definition checkout_item (cart_item : CartItem.t) : ItemData.t :=
  {| ItemData.product := CartItem.product cart_item;
     ItemData.quantity := CartItem.quantity cart_item;
     ItemData.unit_price := CartItem.unit_price cart_item;
     ItemData.discount := Some 0;
     ItemData.notes := "" |}.

(** [transaction_data] of the checkout view. *)
Definition checkout_transaction_data (items : list ItemData.t)
    (data : CheckoutData.t) : TransactionData.t :=
  {| TransactionData.items := items;
     TransactionData.payment_method := CheckoutData.payment_method data;
     TransactionData.payment_reference :=
       default "" (CheckoutData.payment_reference data);
     TransactionData.amount_paid := CheckoutData.amount_paid data;
     TransactionData.tax := Some (default 0 (CheckoutData.tax data));
     TransactionData.discount := Some (default 0 (CheckoutData.discount data));
     TransactionData.notes := default "" (CheckoutData.notes data);
     TransactionData.customer_name := default "" (CheckoutData.customer_name data);
     TransactionData.customer_phone := default "" (CheckoutData.customer_phone data);
     TransactionData.customer_email := default "" (CheckoutData.customer_email data) |}.

(** [CheckoutView.post] *)
Definition CheckoutView_post (now : DateTime) (user : Pk) (data : CheckoutData.t)
    : Store -> Response * Store :=
  respond (
    let* found := or_does_not_exist (Cart_objects_get user) in
    match found with
    | None => ret (HTTP_404 NoActiveCartFound)
    | Some cart =>
        let* lines := gets (cart_items_all (Cart.id cart)) in
        match lines with
        | [] => ret (HTTP_400 (failed "error" CartIsEmpty))
        | _ =>
            let items := map checkout_item lines in
            let transaction_data := checkout_transaction_data items data in
            let* transaction := create_transaction now user transaction_data in
            Cart_clear cart ;;
            Cart_save (deactivated cart) ;;
            ret (HTTP_201 (TransactionPayload transaction))
        end
    end).

(** ** Sample data *)

Definition sample_now : DateTime :=
  {| year := 2024; month := 1; day := 15; time_of_day := 36000000000 |}.

Definition product_A : Product.t :=
  {| Product.unit_price := 1000; Product.cost_price := 600;
     Product.current_stock := 5; Product.is_active := true |}.

Definition empty_store : Store :=
  {| products := ∅; sales_transactions := []; transaction_items := [];
     inventory_movements := []; carts := []; cart_items := [];
     audit_logs := [] |}.

(** Product A (stock 5, price 10.00, cost 6.00) and nothing else. *)
Definition shop : Store := with_products (fun _ => {[ 1 := product_A ]}) empty_store.

Definition three_of_A : ItemData.t :=
  {| ItemData.product := 1; ItemData.quantity := 3; ItemData.unit_price := 1000;
     ItemData.discount := None; ItemData.notes := "" |}.

Definition sale_of (items : list ItemData.t) (paid : Decimal) : TransactionData.t :=
  {| TransactionData.items := items;
     TransactionData.payment_method := Some "CASH";
     TransactionData.payment_reference := "";
     TransactionData.amount_paid := Some paid;
     TransactionData.tax := None;
     TransactionData.discount := None;
     TransactionData.notes := "";
     TransactionData.customer_name := "";
     TransactionData.customer_phone := "";
     TransactionData.customer_email := "" |}.

Definition cash (paid : Decimal) : CheckoutData.t :=
  {| CheckoutData.payment_method := Some "CASH";
     CheckoutData.payment_reference := None;
     CheckoutData.amount_paid := Some paid;
     CheckoutData.tax := None;
     CheckoutData.discount := None;
     CheckoutData.notes := None;
     CheckoutData.customer_name := None;
     CheckoutData.customer_phone := None;
     CheckoutData.customer_email := None |}.

(** ** Store transformers named in the theorems *)

(** The ledger after a loop of [InventoryMovement.objects.create]. *)
Definition record_all (mvs : list InventoryMovement.t) (s : Store) : Store :=
  fold_left (fun s mv => record_movement mv s) mvs s.

(** The row [save] writes for a stored instance, and the table after the
    write. *)
Definition updated_row (now : DateTime) (self : SalesTransaction.t) (pk : Pk) :=
  set_saved (Some pk) (SalesTransaction.created_at self) (Some now) self.

Definition overwrite (pk : Pk) (row : SalesTransaction.t) (s : Store) : Store :=
  with_sales_transactions (map (fun r => if has_pk pk r then row else r)) s.

(** The store after [create] inserted the header [row] and, one by one,
    the items of the request. *)
Definition insert_header (row : SalesTransaction.t) (s : Store) : Store :=
  with_sales_transactions (fun l => l ++ [row]) s.

Definition insert_items (pk : Pk) (items : list ItemData.t) (s : Store) : Store :=
  fold_left (fun s d => insert_item pk d s) items s.

(** The rows [insert_items] appends to a table that holds [existing]. *)
Fixpoint inserted_rows (pk : Pk) (existing : list TransactionItem.t)
    (items : list ItemData.t) : list TransactionItem.t :=
  match items with
  | [] => []
  | d :: ds =>
      let r := item_row (next_pk (map TransactionItem.id existing)) pk d in
      r :: inserted_rows pk (existing ++ [r]) ds
  end.

(** [unit_price × quantity − discount] of a stored item. *)
Definition line_amount (i : TransactionItem.t) : Decimal :=
  TransactionItem.unit_price i * TransactionItem.quantity i
  - TransactionItem.discount i.

(** Referential integrity of [TransactionItem.transaction]. *)
Definition items_reference_transactions (s : Store) : Prop :=
  Forall (fun i => In (Some (TransactionItem.transaction i))
                      (map SalesTransaction.id (sales_transactions s)))
         (transaction_items s).

(** The rejection the specification names INSUFFICIENT_PAYMENT: the
    [ValidationError] that [validate] raises on [amount_paid]. *)
Definition insufficient_payment (total : Decimal) : Exn :=
  ValidationError [("amount_paid", InsufficientPayment total)].


(** The store after the checkout view cleared and deactivated [cart]. *)
Definition consume_cart (cart : Cart.t) (s : Store) : Store :=
  with_carts (map (fun c => if Cart.id c =? Cart.id cart then deactivated cart else c))
    (with_cart_items
       (List.filter (fun i => negb (CartItem.cart i =? Cart.id cart))) s).

(** The request the checkout view hands to [createTransaction] for the
    cart lines [lines]. *)
Definition checkout_request (lines : list CartItem.t) (data : CheckoutData.t)
    : TransactionData.t :=
  checkout_transaction_data (map checkout_item lines) data.

(** [subtotal + tax − discount] of a request, as [validate] computes it. *)
Definition request_total (data : TransactionData.t) : Decimal :=
  Py_sum (map item_amount (TransactionData.items data))
  + default 0 (TransactionData.tax data)
  - default 0 (TransactionData.discount data).

(** The quantity of [product] in the user's active cart; 0 when the user
    has no active cart or the cart has no line for the product. *)
Definition cart_quantity (user product : Pk) (s : Store) : Z :=
  match active_carts user s with
  | [cart] =>
      match cart_lines (Cart.id cart) product s with
      | [line] => CartItem.quantity line
      | _ => 0
      end
  | _ => 0
  end.

(** Integrity of the cart tables: one active cart per user, one line per
    cart and product ([unique_together]), unique primary keys, lines that
    reference stored carts, quantities of at least 1. *)
Record cart_integrity (s : Store) : Prop := {
  one_active_cart : forall user, (length (active_carts user s) <= 1)%nat;
  one_line_per_product :
    forall cart product, (length (cart_lines cart product s) <= 1)%nat;
  unique_cart_pks : NoDup (map Cart.id (carts s));
  unique_line_pks : NoDup (map CartItem.id (cart_items s));
  lines_reference_carts :
    Forall (fun i => In (CartItem.cart i) (map Cart.id (carts s))) (cart_items s);
  line_quantities : Forall (fun i => 1 <= CartItem.quantity i) (cart_items s)
}.

(** The rows of the lookup in [UpdateCartItemView.patch]. *)
Definition user_cart_items (pk user : Pk) (s : Store) : list CartItem.t :=
  List.filter
    (fun i => (CartItem.id i =? pk)
              && existsb (fun c => Cart.id c =? CartItem.cart i) (active_carts user s))
    (cart_items s).

(** [cart_item.quantity = q; cart_item.save()] as a row. *)
Definition saved_line (q : Z) (product : Product.t) (line : CartItem.t) : CartItem.t :=
  let line := with_quantity q line in
  if CartItem.unit_price line =? 0
  then with_unit_price (Product.unit_price product) line
  else line.

Definition replace_line (line : CartItem.t) (s : Store) : Store :=
  with_cart_items
    (map (fun i => if CartItem.id i =? CartItem.id line then line else i)) s.

(** The rows [get_or_create] inserts. *)
Definition new_line (cart product : Pk) (quantity : Z) (unit_price : Decimal)
    (s : Store) : CartItem.t :=
  {| CartItem.id := next_pk (map CartItem.id (cart_items s));
     CartItem.cart := cart;
     CartItem.product := product;
     CartItem.quantity := quantity;
     CartItem.unit_price := unit_price |}.

Definition insert_line (line : CartItem.t) (s : Store) : Store :=
  with_cart_items (fun l => l ++ [line]) s.

Definition new_cart (now : DateTime) (user : Pk) (s : Store) : Cart.t :=
  {| Cart.id := next_pk (map Cart.id (carts s));
     Cart.user := user;
     Cart.session_id := (user, now);
     Cart.is_active := true |}.

Definition insert_cart (cart : Cart.t) (s : Store) : Store :=
  with_carts (fun l => l ++ [cart]) s.

(** No stored cart has the session id a cart created now would get. *)
Definition session_id_free (now : DateTime) (user : Pk) (s : Store) : Prop :=
  existsb (fun c => session_id_eqb (Cart.session_id c) (user, now)) (carts s) = false.

(** A change of a product's cost price in the catalog. *)
Definition with_cost_price (c : Decimal) (p : Product.t) : Product.t :=
  {| Product.unit_price := Product.unit_price p;
     Product.cost_price := c;
     Product.current_stock := Product.current_stock p;
     Product.is_active := Product.is_active p |}.

Definition set_cost_price (product : Pk) (c : Decimal) (s : Store) : Store :=
  with_products (alter (with_cost_price c) product) s.

(** Units of [product] among [items]. *)
Definition units_of (product : Pk) (items : list TransactionItem.t) : Z :=
  fold_right
    (fun i acc =>
       (if TransactionItem.product i =? product then TransactionItem.quantity i else 0)
       + acc)
    0 items.

(** Modelled from the spec: the effect of an inventory movement on the
    product table, which the inventory application (not part of this
    package) applies when a movement is saved.  A SALE movement deducts its
    quantity from the product's stock, a RETURN movement adds it back. *)
Definition stock_effect (mv : InventoryMovement.t) (table : gmap Z Product.t)
    : gmap Z Product.t :=
  alter
    (fun p =>
       {| Product.unit_price := Product.unit_price p;
          Product.cost_price := Product.cost_price p;
          Product.current_stock :=
            match InventoryMovement.movement_type mv with
            | SALE => Product.current_stock p - InventoryMovement.quantity mv
            | RETURN => Product.current_stock p + InventoryMovement.quantity mv
            end;
          Product.is_active := Product.is_active p |})
    (InventoryMovement.product mv) table.

(** An e-mail check that accepts every address. *)
Definition any_email (v : string) : bool := true.

Definition six_of_A : ItemData.t :=
  {| ItemData.product := 1; ItemData.quantity := 6; ItemData.unit_price := 1000;
     ItemData.discount := None; ItemData.notes := "" |}.

(** The sale of three A for 30.00 by user 7, as stored. *)
Definition sample_sale : SalesTransaction.t :=
  {| SalesTransaction.id := Some 1;
     SalesTransaction.transaction_number := "TXN-20240115-0001";
     SalesTransaction.subtotal := 3000;
     SalesTransaction.tax := 0;
     SalesTransaction.discount := 0;
     SalesTransaction.total_amount := 3000;
     SalesTransaction.payment_method := CASH;
     SalesTransaction.payment_reference := "";
     SalesTransaction.amount_paid := 3000;
     SalesTransaction.change_amount := 0;
     SalesTransaction.status := COMPLETED;
     SalesTransaction.notes := "";
     SalesTransaction.customer_name := "";
     SalesTransaction.customer_phone := "";
     SalesTransaction.customer_email := "";
     SalesTransaction.created_by := 7;
     SalesTransaction.created_at := Some sample_now;
     SalesTransaction.updated_at := Some sample_now;
     SalesTransaction.completed_at := Some sample_now;
     SalesTransaction.voided_by := None;
     SalesTransaction.voided_at := None;
     SalesTransaction.void_reason := "" |}.

Definition sample_item : TransactionItem.t :=
  {| TransactionItem.id := 1; TransactionItem.transaction := 1;
     TransactionItem.product := 1; TransactionItem.quantity := 3;
     TransactionItem.unit_price := 1000; TransactionItem.discount := 0;
     TransactionItem.line_total := 3000; TransactionItem.notes := "" |}.

(** The shop after that sale: two A left. *)
Definition product_A_after_sale : Product.t :=
  {| Product.unit_price := 1000; Product.cost_price := 600;
     Product.current_stock := 2; Product.is_active := true |}.

Definition shop_after_sale : Store :=
  {| products := {[ 1 := product_A_after_sale ]};
     sales_transactions := [sample_sale];
     transaction_items := [sample_item];
     inventory_movements := [sale_movement sample_sale sample_item];
     carts := []; cart_items := []; audit_logs := [] |}.

Definition voided_sale : SalesTransaction.t := set_voided 9 sample_now "wrong item" sample_sale.

Definition shop_after_void : Store :=
  {| products := {[ 1 := product_A ]};
     sales_transactions := [voided_sale];
     transaction_items := [sample_item];
     inventory_movements :=
       [sale_movement sample_sale sample_item;
        return_movement sample_sale 9 "wrong item" sample_item];
     carts := []; cart_items := []; audit_logs := [] |}.

Definition sample_cart : Cart.t :=
  {| Cart.id := 1; Cart.user := 7; Cart.session_id := (7, sample_now);
     Cart.is_active := true |}.

(** A line of three A taken at 10.00. *)
Definition sample_line : CartItem.t :=
  {| CartItem.id := 1; CartItem.cart := 1; CartItem.product := 1;
     CartItem.quantity := 3; CartItem.unit_price := 1000 |}.

(** The shop with user 7's cart holding three A. *)
Definition shop_with_cart : Store :=
  with_cart_items (fun _ => [sample_line]) (with_carts (fun _ => [sample_cart]) shop).

(** The same, after the catalog price of A went up to 12.00. *)
Definition shop_repriced : Store :=
  with_products
    (fun _ => {[ 1 := {| Product.unit_price := 1200; Product.cost_price := 600;
                         Product.current_stock := 5; Product.is_active := true |} ]})
    shop_with_cart.

(** User 7's cart still holds three A, but only two are left. *)
Definition shop_short_of_stock : Store :=
  with_cart_items (fun _ => [sample_line])
    (with_carts (fun _ => [sample_cart]) shop_after_sale).

(** The shop with user 7's cart empty. *)
Definition shop_with_empty_cart : Store := with_carts (fun _ => [sample_cart]) shop.

(** The repriced shop once user 7's cart was turned into the sample sale,
    before the view consumes the cart. *)
Definition shop_repriced_sold : Store :=
  {| products :=
       {[ 1 := {| Product.unit_price := 1200; Product.cost_price := 600;
                  Product.current_stock := 2; Product.is_active := true |} ]};
     sales_transactions := [sample_sale];
     transaction_items := [sample_item];
     inventory_movements := [sale_movement sample_sale sample_item];
     carts := [sample_cart]; cart_items := [sample_line]; audit_logs := [] |}.

(** ** Transaction numbers *)

(** [f'TXN-{date_str}-{k:04d}'] *)
Definition number_of (date_str : string) (k : Z) : string :=
  "TXN-" +:+ date_str +:+ "-" +:+ Py.format_0d 4 k.

(** [int(number.split('-')[-1])] *)
Definition sequence_of (number : string) : option Z :=
  Py.int (List.last (Py.split "-" number) "").

(** The rows whose number starts with today's prefix. *)
Definition todays (now : DateTime) (s : Store) : list SalesTransaction.t :=
  List.filter
    (fun r => Py.startswith (SalesTransaction.transaction_number r)
                ("TXN-" +:+ strftime_Ymd now))
    (sales_transactions s).

(** The greatest sequence among today's numbers, 0 when there is none. *)
Definition max_sequence (now : DateTime) (s : Store) : Z :=
  fold_right Z.max 0
    (omap (fun r => sequence_of (SalesTransaction.transaction_number r))
          (todays now s)).

(** Every number of today was generated with a sequence of at most four
    digits. *)
Definition four_digit_day (now : DateTime) (s : Store) : Prop :=
  Forall (fun r => exists k,
              1 <= k <= 9999
              /\ SalesTransaction.transaction_number r
                 = number_of (strftime_Ymd now) k)
         (todays now s).

(** [range(n)] *)
Definition range (n : Z) : list Z := map Z.of_nat (seq 0 (Z.to_nat n)).

(** The facts about [k:04d] for a [k] up to 10000 that are checked by
    running through all of them: the text has no dash and reads
    back as [k], and the text of [k + 1] comes after it in string order. *)
Definition four_digit_check (k : Z) : bool :=
  let text := Py.format_0d 4 k in
  match Py.split "-" text, Py.int text with
  | [segment], Some v =>
      String.eqb segment text && (v =? k)
      && (if k <? 9999
          then match String.compare text (Py.format_0d 4 (k + 1)) with
               | Lt => true
               | _ => false
               end
          else true)
  | _, _ => false
  end.

(** An instance as [SalesTransaction.objects.create] builds it: no key and
    no number yet. *)
Definition fresh_transaction : SalesTransaction.t :=
  new_transaction 7
    {| ValidatedData.items := []; ValidatedData.payment_method := CASH;
       ValidatedData.payment_reference := ""; ValidatedData.amount_paid := 0;
       ValidatedData.tax := 0; ValidatedData.discount := 0;
       ValidatedData.notes := ""; ValidatedData.customer_name := "";
       ValidatedData.customer_phone := ""; ValidatedData.customer_email := "" |}
    0 0.

(** The store after [n] transactions were saved one after the other, all at
    the date of [now]. *)
Fixpoint history (now : DateTime) (n : nat) (s : Store) : Store :=
  match n with
  | O => s
  | S k => snd (SalesTransaction_save now fresh_transaction (history now k s))
  end.

(** [1, 2, ..., n] *)
Definition first_sequences (n : nat) : list Z := map Z.of_nat (seq 1 n).

(** [(item.unit_price - item.product.cost_price) * item.quantity] with the
    cost price the product table has in [s]. *)
Definition profit_term (s : Store) (i : TransactionItem.t) : Decimal :=
  (TransactionItem.unit_price i
   - default 0 (Product.cost_price <$> products s !! TransactionItem.product i))
  * TransactionItem.quantity i.

(** ** [pos/models.py]: counts and totals *)

(** [queryset.aggregate(total=Sum(column))['total']]: SQL's SUM, which is
    NULL over no rows. *)
Definition aggregate_Sum (values : list Z) : option Z :=
  match values with
  | [] => None
  | _ => Some (fold_right Z.add 0 values)
  end.

(** Python's [x or 0] for a number or [None]. *)
Definition or_0 (x : option Z) : Z :=
  match x with
  | Some v => if v =? 0 then 0 else v
  | None => 0
  end.

(** [SalesTransaction.item_count] *)
Definition SalesTransaction_item_count (s : Store) (pk : Pk) : Z :=
  or_0 (aggregate_Sum (map TransactionItem.quantity (items_all pk s))).

(** [CartItem.line_total]: 0 while the instance lacks a price or a
    quantity; a stored line has both. *)
Definition CartItem_line_total (unit_price : option Decimal) (quantity : option Z)
    : Decimal :=
  match unit_price, quantity with
  | Some p, Some q => p * q
  | _, _ => 0
  end.

Definition line_total_of (item : CartItem.t) : Decimal :=
  CartItem_line_total (Some (CartItem.unit_price item)) (Some (CartItem.quantity item)).

(** [Cart.item_count] *)
Definition Cart_item_count (s : Store) (cart : Pk) : Z :=
  or_0 (aggregate_Sum (map CartItem.quantity (cart_items_all cart s))).

(** [Cart.subtotal] *)
Definition Cart_subtotal (s : Store) (cart : Pk) : Decimal :=
  Py_sum (map line_total_of (cart_items_all cart s)).

(** The product table after the inventory application applied the
    movements [mvs] in order. *)
Definition apply_movements (mvs : list InventoryMovement.t)
    (table : gmap Z Product.t) : gmap Z Product.t :=
  fold_left (fun t mv => movement_effect mv t) mvs table.

(** The sample sale before completion, and the shop holding it. *)
Definition pending_sale : SalesTransaction.t :=
  {| SalesTransaction.id := Some 1;
     SalesTransaction.transaction_number := "TXN-20240115-0001";
     SalesTransaction.subtotal := 3000;
     SalesTransaction.tax := 0;
     SalesTransaction.discount := 0;
     SalesTransaction.total_amount := 3000;
     SalesTransaction.payment_method := CASH;
     SalesTransaction.payment_reference := "";
     SalesTransaction.amount_paid := 3000;
     SalesTransaction.change_amount := 0;
     SalesTransaction.status := PENDING;
     SalesTransaction.notes := "";
     SalesTransaction.customer_name := "";
     SalesTransaction.customer_phone := "";
     SalesTransaction.customer_email := "";
     SalesTransaction.created_by := 7;
     SalesTransaction.created_at := Some sample_now;
     SalesTransaction.updated_at := Some sample_now;
     SalesTransaction.completed_at := None;
     SalesTransaction.voided_by := None;
     SalesTransaction.voided_at := None;
     SalesTransaction.void_reason := "" |}.

Definition shop_pending : Store :=
  {| products := {[ 1 := product_A ]};
     sales_transactions := [pending_sale];
     transaction_items := [sample_item];
     inventory_movements := [];
     carts := []; cart_items := []; audit_logs := [] |}.

(** Units of [product] that the SALE movements among [mvs] take out of
    stock. *)
Definition sold_units (product : Pk) (mvs : list InventoryMovement.t) : Z :=
  Py_sum (map InventoryMovement.quantity
            (List.filter
               (fun mv => (InventoryMovement.product mv =? product)
                          && bool_decide (InventoryMovement.movement_type mv = SALE))
               mvs)).

Definition three_more_of_A : ItemData.t :=
  {| ItemData.product := 1; ItemData.quantity := 3; ItemData.unit_price := 1000;
     ItemData.discount := Some 0; ItemData.notes := "again" |}.

(** The sample sale paid with 50.00, and the shop after user 7 checked the
    sample cart out with it. *)
Definition sample_sale_with_change : SalesTransaction.t :=
  {| SalesTransaction.id := Some 1;
     SalesTransaction.transaction_number := "TXN-20240115-0001";
     SalesTransaction.subtotal := 3000;
     SalesTransaction.tax := 0;
     SalesTransaction.discount := 0;
     SalesTransaction.total_amount := 3000;
     SalesTransaction.payment_method := CASH;
     SalesTransaction.payment_reference := "";
     SalesTransaction.amount_paid := 5000;
     SalesTransaction.change_amount := 2000;
     SalesTransaction.status := COMPLETED;
     SalesTransaction.notes := "";
     SalesTransaction.customer_name := "";
     SalesTransaction.customer_phone := "";
     SalesTransaction.customer_email := "";
     SalesTransaction.created_by := 7;
     SalesTransaction.created_at := Some sample_now;
     SalesTransaction.updated_at := Some sample_now;
     SalesTransaction.completed_at := Some sample_now;
     SalesTransaction.voided_by := None;
     SalesTransaction.voided_at := None;
     SalesTransaction.void_reason := "" |}.

Definition shop_checked_out : Store :=
  {| products := {[ 1 := product_A_after_sale ]};
     sales_transactions := [sample_sale_with_change];
     transaction_items := [sample_item];
     inventory_movements := [sale_movement sample_sale_with_change sample_item];
     carts := [deactivated sample_cart]; cart_items := []; audit_logs := [] |}.

(** ** What the cart operations leave alone *)

(** The tables of products, sales, items, movements and audit entries are
    the same in [s'] as in [s]. *)
Definition same_sales (s s' : Store) : Prop :=
  products s' = products s
  /\ sales_transactions s' = sales_transactions s
  /\ transaction_items s' = transaction_items s
  /\ inventory_movements s' = inventory_movements s
  /\ audit_logs s' = audit_logs s.

(** A computation that writes the cart tables only. *)
Definition cart_only {A} (m : M A) : Prop :=
  forall s, same_sales s (snd (m s)).

Definition is_HTTP_200 (r : Response) : bool :=
  match r with
  | HTTP_200 _ => true
  | _ => false
  end.

(** The line of [product] in the user's active cart, if there is exactly
    one. *)
Definition cart_line (user product : Pk) (s : Store) : option CartItem.t :=
  match active_carts user s with
  | [cart] =>
      match cart_lines (Cart.id cart) product s with
      | [line] => Some line
      | _ => None
      end
  | _ => None
  end.

(** A second user, and a second product the cart has no line for. *)
Definition product_B : Product.t :=
  {| Product.unit_price := 250; Product.cost_price := 100;
     Product.current_stock := 8; Product.is_active := true |}.

Definition product_C : Product.t :=
  {| Product.unit_price := 400; Product.cost_price := 100;
     Product.current_stock := 8; Product.is_active := false |}.

Definition shop_with_two_products : Store :=
  with_products (fun _ => {[ 1 := product_A; 2 := product_B; 3 := product_C ]})
    shop_with_cart.

(** The sample line after one more A was added, and the repriced shop
    holding it. *)
Definition sample_line_plus_one : CartItem.t :=
  {| CartItem.id := 1; CartItem.cart := 1; CartItem.product := 1;
     CartItem.quantity := 4; CartItem.unit_price := 1000 |}.

Definition shop_repriced_added : Store :=
  with_cart_items (fun _ => [sample_line_plus_one]) shop_repriced.

(** A reason as [VoidTransactionSerializer] accepts it: not blank once
    trimmed, at most 500 characters then, and free of null characters and
    surrogates. *)
Definition usable_reason (reason : string) : Prop :=
  Py.strip reason <> ""
  /\ (Py.len (Py.strip reason) <= 500)%nat
  /\ prohibited_characters (Py.strip reason) = false.

(** ** What validation accepts *)

(** A two-decimal amount as [DecimalField(max_digits=10, decimal_places=2,
    min_value=0)] takes it. *)
Definition valid_decimal (v : Decimal) : Prop := 0 <= v <= 9999999999.


(** A request with a discount above its subtotal: three A for 30.00 with
    100.00 off, nothing paid. *)
Definition discounted_sale : TransactionData.t :=
  {| TransactionData.items := [three_of_A];
     TransactionData.payment_method := Some "CASH";
     TransactionData.payment_reference := "";
     TransactionData.amount_paid := Some 0;
     TransactionData.tax := None;
     TransactionData.discount := Some 10000;
     TransactionData.notes := "";
     TransactionData.customer_name := "";
     TransactionData.customer_phone := "";
     TransactionData.customer_email := "" |}.

(** The store after the instances [selves] were saved one after the
    other. *)
Fixpoint saved_all (now : DateTime) (selves : list SalesTransaction.t) (s : Store)
    : Store :=
  match selves with
  | [] => s
  | self :: rest => saved_all now rest (snd (SalesTransaction_save now self s))
  end.

(** [TXN-<date>-<m+1>], ..., [TXN-<date>-<m+n>], padded to four digits. *)
Definition next_numbers (date_str : string) (m : Z) (n : nat) : list string :=
  map (fun i => number_of date_str (m + Z.of_nat i)) (seq 1 n).

(** An instance that was never saved: no key, no number. *)
Definition unsaved (t : SalesTransaction.t) : Prop :=
  SalesTransaction.id t = None /\ SalesTransaction.transaction_number t = "".

(** Every character of [s] is a decimal digit. *)
Fixpoint digits_only (s : string) : bool :=
  match s with
  | EmptyString => true
  | String c s' => bool_decide (is_Some (Py.digit_of c)) && digits_only s'
  end.

Definition is_HTTP_201 (r : Response) : bool :=
  match r with
  | HTTP_201 _ => true
  | _ => false
  end.

(** U+00A0 (no-break space) and U+2003 (em space), as UTF-8 bytes, and a
    reason with one in front and the other behind. *)
Definition no_break_space : string := String "194" (String "160" "").

Definition em_space : string := String "226" (String "128" (String "131" "")).

Definition padded_reason : string := no_break_space +:+ "wrong item" +:+ em_space.

(** ** What the columns take *)

(** A [DecimalField(max_digits=10, decimal_places=2)] column takes at most
    ten digits, an integer column 32 bits, a [CharField(max_length=n)]
    column [n] characters; a serializer [CharField] refuses null
    characters and surrogates.  A row beyond these is refused when it is
    saved, by an error that is not part of this development: where a
    theorem concludes that a creation returns, it assumes a request whose
    rows fit. *)
Definition fits_max_digits (v : Decimal) : Prop :=
  -9999999999 <= v <= 9999999999.

Definition fits_text (text : string) : Prop :=
  prohibited_characters (Py.strip text) = false.

Definition fits_max_length (n : nat) (text : string) : Prop :=
  (Py.len (Py.strip text) <= n)%nat /\ fits_text text.

Definition storable_item (d : ItemData.t) : Prop :=
  ItemData.quantity d <= 2147483647
  /\ fits_max_digits (item_amount d)
  /\ fits_text (ItemData.notes d).

(** The rows a creation writes for [data] fit their columns: every line
    total, the subtotal, the total and the change; the texts. *)
Definition storable (data : TransactionData.t) : Prop :=
  Forall storable_item (TransactionData.items data)
  /\ fits_max_digits (Py_sum (map item_amount (TransactionData.items data)))
  /\ fits_max_digits (request_total data)
  /\ fits_max_digits
       (default 0 (TransactionData.amount_paid data) - request_total data)
  /\ fits_max_length 100 (TransactionData.payment_reference data)
  /\ fits_text (TransactionData.notes data)
  /\ fits_max_length 200 (TransactionData.customer_name data)
  /\ fits_max_length 20 (TransactionData.customer_phone data)
  /\ fits_max_length 254 (TransactionData.customer_email data).

(** A product given away: its catalog price is 0.00; and the same product
    once the catalog charges 12.00 for it. *)
Definition product_free : Product.t :=
  {| Product.unit_price := 0; Product.cost_price := 0;
     Product.current_stock := 5; Product.is_active := true |}.

Definition product_priced : Product.t :=
  {| Product.unit_price := 1200; Product.cost_price := 0;
     Product.current_stock := 5; Product.is_active := true |}.

Definition shop_free : Store :=
  with_products (fun _ => {[ 1 := product_free ]}) empty_store.

(** The line that adding one unit stores while the product is free, and
    the shop with it. *)
Definition free_line : CartItem.t :=
  {| CartItem.id := 1; CartItem.cart := 1; CartItem.product := 1;
     CartItem.quantity := 1; CartItem.unit_price := 0 |}.

Definition shop_free_added : Store :=
  with_cart_items (fun _ => [free_line])
    (with_carts (fun _ => [sample_cart]) shop_free).

(** The catalog price becomes 12.00 while the line is in the cart. *)
Definition set_catalog (product_id : Pk) (product : Product.t) (s : Store) : Store :=
  with_products (fun table => <[product_id := product]> table) s.

Definition shop_free_repriced : Store := set_catalog 1 product_priced shop_free_added.

Definition repriced_line : CartItem.t :=
  {| CartItem.id := 1; CartItem.cart := 1; CartItem.product := 1;
     CartItem.quantity := 2; CartItem.unit_price := 1200 |}.

Definition shop_free_updated : Store :=
  with_cart_items (fun _ => [repriced_line]) shop_free_repriced.

(** * Theorems *)

(** ** The store monad *)

Ltac run := unfold bind, ret, gets, modify, raise; simpl.

Lemma for_each_modify {A} (g : A -> Store -> Store) (xs : list A) (s : Store) :
  for_each xs (fun x => modify (g x)) s
  = (Return tt, fold_left (fun s x => g x s) xs s).
Proof.
  revert s. induction xs as [|x xs IH]; intros s; simpl; [reflexivity|].
  unfold bind at 1. unfold modify at 1. apply IH.
Qed.

Lemma atomic_raise_restores {A} (m : M A) (s s' : Store) (e : Exn) :
  atomic m s = (Raise e, s') -> s' = s.
Proof.
  unfold atomic. destruct (m s) as [[a|e'] s'']; intros H; inversion H; reflexivity.
Qed.

(** ** Completion and voiding *)

(** *** The inventory loop *)

Lemma for_each_movements {A} (f : A -> InventoryMovement.t) (xs : list A) (s : Store) :
  for_each xs (fun x => InventoryMovement_objects_create (f x)) s
  = (Return tt, record_all (map f xs) s).
Proof.
  unfold InventoryMovement_objects_create.
  rewrite (for_each_modify (fun x => record_movement (f x))).
  unfold record_all. f_equal.
  revert s. induction xs as [|x xs IH]; intros s; simpl; [reflexivity|apply IH].
Qed.

Lemma record_all_movements mvs s :
  inventory_movements (record_all mvs s) = inventory_movements s ++ mvs.
Proof.
  revert s. induction mvs as [|mv mvs IH]; intros s; simpl.
  - now rewrite app_nil_r.
  - unfold record_all in *. simpl. rewrite IH. simpl. now rewrite <- app_assoc.
Qed.

Lemma record_all_sales_transactions mvs s :
  sales_transactions (record_all mvs s) = sales_transactions s.
Proof.
  revert s. induction mvs as [|mv mvs IH]; intros s; simpl; [reflexivity|].
  unfold record_all in *. simpl. now rewrite IH.
Qed.

Lemma record_all_transaction_items mvs s :
  transaction_items (record_all mvs s) = transaction_items s.
Proof.
  revert s. induction mvs as [|mv mvs IH]; intros s; simpl; [reflexivity|].
  unfold record_all in *. simpl. now rewrite IH.
Qed.

Lemma record_all_carts mvs s :
  carts (record_all mvs s) = carts s /\ cart_items (record_all mvs s) = cart_items s
  /\ audit_logs (record_all mvs s) = audit_logs s.
Proof.
  revert s. induction mvs as [|mv mvs IH]; intros s; simpl; [auto|].
  unfold record_all in *. simpl. destruct (IH (record_movement mv s)) as (-> & -> & ->).
  auto.
Qed.

(** *** Saving a stored transaction *)

Lemma NoDup_map_eq {A B} (f : A -> B) (l : list A) (a b : A) :
  NoDup (map f l) -> In a l -> In b l -> f a = f b -> a = b.
Proof.
  induction l as [|x l IH]; simpl; [tauto|].
  intros Hnd Ha Hb Hf. apply NoDup_cons in Hnd as [Hx Hnd].
  destruct Ha as [->|Ha], Hb as [->|Hb]; auto.
  - exfalso. apply Hx. rewrite Hf. apply list_elem_of_In, in_map, Hb.
  - exfalso. apply Hx. rewrite <- Hf. apply list_elem_of_In, in_map, Ha.
Qed.

Lemma SalesTransaction_save_stored now self stored pk s :
  In stored (sales_transactions s) ->
  NoDup (map SalesTransaction.transaction_number (sales_transactions s)) ->
  SalesTransaction.id stored = Some pk ->
  SalesTransaction.id self = Some pk ->
  SalesTransaction.transaction_number self
    = SalesTransaction.transaction_number stored ->
  SalesTransaction.transaction_number self <> "" ->
  SalesTransaction_save now self s
  = (Return (updated_row now self pk), overwrite pk (updated_row now self pk) s).
Proof.
  intros Hin Hnd Hid Hself Hnum Hne.
  unfold SalesTransaction_save.
  destruct (String.eqb_spec (SalesTransaction.transaction_number self) "") as [E|_];
    [contradiction|].
  unfold Model_save. run. rewrite Hself.
  assert (Hdup : existsb
            (fun r => String.eqb (SalesTransaction.transaction_number r)
                        (SalesTransaction.transaction_number self)
                      && negb (has_pk pk r)) (sales_transactions s) = false).
  { apply not_true_is_false. intros Hex. apply existsb_exists in Hex as (r & Hr & Hc).
    apply andb_prop in Hc as [Hn Hp]. apply String.eqb_eq in Hn.
    assert (r = stored) as -> by (eapply NoDup_map_eq; eauto; congruence).
    unfold has_pk in Hp. rewrite bool_decide_eq_true_2 in Hp by exact Hid.
    discriminate. }
  rewrite Hdup.
  assert (Hex : existsb (has_pk pk) (sales_transactions s) = true).
  { apply existsb_exists. exists stored. split; [exact Hin|].
    unfold has_pk. now apply bool_decide_eq_true_2. }
  rewrite Hex. reflexivity.
Qed.

(** *** Voiding *)

Lemma void_transaction_void now self user reason s :
  SalesTransaction.status self = VOID ->
  void_transaction now self user reason s = (Return self, s).
Proof.
  intros H. unfold void_transaction.
  rewrite bool_decide_eq_true_2 by exact H. reflexivity.
Qed.

Lemma In_overwrite pk row rows stored :
  In stored rows -> SalesTransaction.id stored = Some pk ->
  In row (map (fun r => if has_pk pk r then row else r) rows).
Proof.
  intros Hin Hid. apply in_map_iff. exists stored. split; [|exact Hin].
  unfold has_pk. now rewrite bool_decide_eq_true_2.
Qed.

(** C4. Voiding a stored COMPLETED transaction appends to the ledger exactly
    one movement per item of the transaction, in item order; each is of type
    RETURN, is for the item's product, has the item's quantity (the quantity
    of the SALE movement completion wrote for that item) and carries the
    reference VOID-<transaction number>.  The instance and its stored row
    then have status VOID, the voiding user, the time and the reason. *)
Theorem C4_void_completed_restores
    (now : DateTime) (self : SalesTransaction.t) (user : Pk) (reason : string)
    (s : Store) (pk : Pk) :
  In self (sales_transactions s) ->
  NoDup (map SalesTransaction.transaction_number (sales_transactions s)) ->
  SalesTransaction.id self = Some pk ->
  SalesTransaction.transaction_number self <> "" ->
  SalesTransaction.status self = COMPLETED ->
  let items := items_all pk s in
  let emitted := map (return_movement self user reason) items in
  exists self' s',
    void_transaction now self user reason s = (Return self', s')
    /\ inventory_movements s' = inventory_movements s ++ emitted
    /\ length emitted = length items
    /\ Forall2 (fun item mv =>
                  InventoryMovement.movement_type mv = RETURN
                  /\ InventoryMovement.product mv = TransactionItem.product item
                  /\ InventoryMovement.quantity mv = TransactionItem.quantity item
                  /\ InventoryMovement.quantity mv
                     = InventoryMovement.quantity (sale_movement self item)
                  /\ InventoryMovement.reference_number mv
                     = "VOID-" +:+ SalesTransaction.transaction_number self)
               items emitted
    /\ SalesTransaction.status self' = VOID
    /\ SalesTransaction.voided_by self' = Some user
    /\ SalesTransaction.voided_at self' = Some now
    /\ SalesTransaction.void_reason self' = reason
    /\ SalesTransaction.transaction_number self'
       = SalesTransaction.transaction_number self
    /\ In self' (sales_transactions s')
    /\ transaction_items s' = transaction_items s.
Proof.
  intros Hin Hnd Hid Hne Hst items emitted.
  set (voided := set_voided user now reason self).
  exists (updated_row now voided pk),
         (overwrite pk (updated_row now voided pk) (record_all emitted s)).
  assert (Hrun : void_transaction now self user reason s
                 = (Return (updated_row now voided pk),
                    overwrite pk (updated_row now voided pk) (record_all emitted s))).
  { unfold void_transaction.
    rewrite bool_decide_eq_false_2 by (rewrite Hst; discriminate).
    rewrite bool_decide_eq_true_2 by exact Hst.
    unfold self_items. rewrite Hid.
    unfold bind at 1. unfold bind at 1. unfold gets at 1.
    rewrite for_each_movements. fold items. fold emitted.
    apply (SalesTransaction_save_stored now voided self pk).
    - now rewrite record_all_sales_transactions.
    - now rewrite record_all_sales_transactions.
    - exact Hid.
    - exact Hid.
    - reflexivity.
    - exact Hne. }
  split; [exact Hrun|].
  split; [simpl; apply record_all_movements|].
  split; [apply length_map|].
  split.
  { subst emitted. generalize items. intros l.
    induction l as [|i l IH]; simpl; constructor; [|exact IH].
    repeat split; reflexivity. }
  repeat (split; [reflexivity|]).
  split.
  - simpl. rewrite record_all_sales_transactions.
    eapply In_overwrite; eauto.
  - simpl. apply record_all_transaction_items.
Qed.

(** *** Calling twice *)

Lemma Model_save_status now self s row s' :
  Model_save now self s = (Return row, s') ->
  SalesTransaction.status row = SalesTransaction.status self.
Proof.
  unfold Model_save. run.
  destruct (SalesTransaction.id self) as [pk|].
  - destruct (existsb _ _); simpl; [discriminate|].
    destruct (existsb _ _); simpl; intros H; inversion H; reflexivity.
  - destruct (existsb _ _); simpl; [discriminate|].
    intros H; inversion H; reflexivity.
Qed.

Lemma SalesTransaction_save_status now self s row s' :
  SalesTransaction_save now self s = (Return row, s') ->
  SalesTransaction.status row = SalesTransaction.status self.
Proof.
  unfold SalesTransaction_save.
  destruct (String.eqb _ "").
  - unfold bind at 1. unfold bind at 1.
    destruct (generate_transaction_number now s) as [[n|e] s0]; [|discriminate].
    unfold ret at 1. intros H. apply Model_save_status in H. exact H.
  - unfold bind at 1. unfold ret at 1. apply Model_save_status.
Qed.

Lemma complete_transaction_completed now self s :
  SalesTransaction.status self = COMPLETED ->
  complete_transaction now self s = (Return self, s).
Proof.
  intros H. unfold complete_transaction.
  rewrite bool_decide_eq_true_2 by exact H. reflexivity.
Qed.

Lemma complete_transaction_status now self s self1 s1 :
  complete_transaction now self s = (Return self1, s1) ->
  SalesTransaction.status self1 = COMPLETED.
Proof.
  unfold complete_transaction.
  destruct (bool_decide (SalesTransaction.status self = COMPLETED)) eqn:E.
  - apply bool_decide_eq_true_1 in E. intros H; inversion H; subst. exact E.
  - unfold self_items. cbn [SalesTransaction.id set_completed].
    destruct (SalesTransaction.id self) as [pk|]; [|discriminate].
    unfold bind at 1. unfold gets at 1. unfold bind at 1.
    rewrite for_each_movements. intros H.
    apply SalesTransaction_save_status in H. exact H.
Qed.

Lemma void_transaction_status now self user reason s self1 s1 :
  void_transaction now self user reason s = (Return self1, s1) ->
  SalesTransaction.status self1 = VOID.
Proof.
  unfold void_transaction.
  destruct (bool_decide (SalesTransaction.status self = VOID)) eqn:E.
  - apply bool_decide_eq_true_1 in E. intros H; inversion H; subst. exact E.
  - unfold bind at 1.
    destruct (bool_decide (SalesTransaction.status self = COMPLETED)).
    + unfold self_items.
      destruct (SalesTransaction.id self) as [pk|]; [|discriminate].
      unfold bind at 1. unfold gets at 1. rewrite for_each_movements.
      intros H. apply SalesTransaction_save_status in H. exact H.
    + unfold ret at 1. intros H. apply SalesTransaction_save_status in H. exact H.
Qed.

(** C10. [complete_transaction] on a transaction that is already COMPLETED
    returns at once: the instance comes back as it was and the store, with
    its ledger of inventory movements, is the same.  So a second call right
    after a call that returned changes nothing: stock is not deducted
    again. *)
Theorem C10_complete_transaction_idempotent
    (now : DateTime) (self : SalesTransaction.t) (s : Store) :
  (SalesTransaction.status self = COMPLETED ->
   complete_transaction now self s = (Return self, s))
  /\ (forall self1 s1 later,
        complete_transaction now self s = (Return self1, s1) ->
        complete_transaction later self1 s1 = (Return self1, s1)).
Proof.
  split; [apply complete_transaction_completed|].
  intros self1 s1 later H. apply complete_transaction_completed.
  eapply complete_transaction_status; exact H.
Qed.

(** C5. [void_transaction] on a transaction that is already VOID returns at
    once: no field of the instance changes and the store, with its ledger of
    inventory movements, is the same.  So voiding twice does nothing the
    second time.  The view does not even reach the method: it answers 400
    and leaves the store alone. *)
Theorem C5_void_transaction_noop_when_void
    (now : DateTime) (self : SalesTransaction.t) (user : Pk) (reason : string)
    (s : Store) :
  (SalesTransaction.status self = VOID ->
   void_transaction now self user reason s = (Return self, s)
   /\ forall pk r,
        List.filter (has_pk pk) (sales_transactions s) = [self] ->
        VoidTransactionView_post now user pk r s
        = (HTTP_400 [("error", TransactionAlreadyVoided)], s))
  /\ (forall self1 s1 later user' reason',
        void_transaction now self user reason s = (Return self1, s1) ->
        void_transaction later self1 user' reason' s1 = (Return self1, s1)).
Proof.
  split.
  - intros H. split; [now apply void_transaction_void|].
    intros pk r Hget.
    unfold VoidTransactionView_post, respond, or_does_not_exist, try_except,
      SalesTransaction_objects_get.
    run. rewrite Hget. simpl.
    rewrite bool_decide_eq_true_2 by exact H. reflexivity.
  - intros self1 s1 later user' reason' H. apply void_transaction_void.
    eapply void_transaction_status; exact H.
Qed.

(** ** Creating a transaction *)

Lemma generate_transaction_number_reads now s r s0 :
  generate_transaction_number now s = (r, s0) -> s0 = s.
Proof.
  unfold generate_transaction_number. run.
  destruct (first_by_number_desc _) as [lt|]; simpl.
  - destruct (Py.int _); simpl; intros H; inversion H; reflexivity.
  - intros H; inversion H; reflexivity.
Qed.

Lemma generate_transaction_number_form now s number s0 :
  generate_transaction_number now s = (Return number, s0) ->
  exists n, number = "TXN-" +:+ strftime_Ymd now +:+ "-" +:+ Py.format_0d 4 n.
Proof.
  unfold generate_transaction_number. run.
  destruct (first_by_number_desc _) as [lt|]; simpl.
  - destruct (Py.int _) as [n|]; simpl; intros H; inversion H. eauto.
  - intros H; inversion H. eauto.
Qed.

Lemma SalesTransaction_save_update now self pk s :
  SalesTransaction.id self = Some pk ->
  SalesTransaction.transaction_number self <> "" ->
  (forall r, In r (sales_transactions s) ->
             SalesTransaction.transaction_number r
               = SalesTransaction.transaction_number self ->
             SalesTransaction.id r = Some pk) ->
  (exists r, In r (sales_transactions s) /\ SalesTransaction.id r = Some pk) ->
  SalesTransaction_save now self s
  = (Return (updated_row now self pk), overwrite pk (updated_row now self pk) s).
Proof.
  intros Hself Hne Hsame (stored & Hin & Hid).
  unfold SalesTransaction_save.
  destruct (String.eqb_spec (SalesTransaction.transaction_number self) "") as [E|_];
    [contradiction|].
  unfold Model_save. run. rewrite Hself.
  assert (Hdup : existsb
            (fun r => String.eqb (SalesTransaction.transaction_number r)
                        (SalesTransaction.transaction_number self)
                      && negb (has_pk pk r)) (sales_transactions s) = false).
  { apply not_true_is_false. intros Hex. apply existsb_exists in Hex as (r & Hr & Hc).
    apply andb_prop in Hc as [Hn Hp]. apply String.eqb_eq in Hn.
    unfold has_pk in Hp.
    rewrite bool_decide_eq_true_2 in Hp by (apply Hsame; assumption).
    discriminate. }
  rewrite Hdup.
  assert (Hex : existsb (has_pk pk) (sales_transactions s) = true).
  { apply existsb_exists. exists stored. split; [exact Hin|].
    unfold has_pk. now apply bool_decide_eq_true_2. }
  rewrite Hex. reflexivity.
Qed.

Lemma SalesTransaction_save_insert now self s row s1 :
  SalesTransaction.id self = None ->
  SalesTransaction.transaction_number self = "" ->
  SalesTransaction_save now self s = (Return row, s1) ->
  exists number,
    generate_transaction_number now s = (Return number, s)
    /\ (forall r, In r (sales_transactions s) ->
                  SalesTransaction.transaction_number r <> number)
    /\ row = set_saved (Some (next_pk (omap SalesTransaction.id (sales_transactions s))))
               (Some now) (Some now) (set_transaction_number number self)
    /\ s1 = insert_header row s.
Proof.
  intros Hid Hnum. unfold SalesTransaction_save. rewrite Hnum. simpl.
  unfold bind at 1. unfold bind at 1.
  destruct (generate_transaction_number now s) as [[number|e] s0] eqn:Hgen;
    [|discriminate].
  pose proof (generate_transaction_number_reads _ _ _ _ Hgen) as ->.
  unfold ret at 1. unfold Model_save. run. rewrite Hid.
  destruct (existsb _ (sales_transactions s)) eqn:Hex; [discriminate|].
  intros H. inversion H; subst. exists number. repeat split; try reflexivity.
  intros r Hr Heq.
  assert (existsb (fun r => String.eqb (SalesTransaction.transaction_number r) number)
                  (sales_transactions s) = true) as Hc.
  { apply existsb_exists. exists r. split; [exact Hr|]. now apply String.eqb_eq. }
  rewrite Hc in Hex. discriminate.
Qed.

Lemma is_valid_reads data s r s0 : is_valid data s = (r, s0) -> s0 = s.
Proof.
  unfold is_valid. run.
  destruct (field_errors s data); destruct (to_internal_value data);
    try (intros H; inversion H; reflexivity).
  destruct (SalesTransactionCreateSerializer_validate _);
    intros H; inversion H; reflexivity.
Qed.

Lemma is_valid_returns data s v subtotal total s0 :
  is_valid data s = (Return (v, subtotal, total), s0) ->
  field_errors s data = [] /\ to_internal_value data = Some v
  /\ subtotal = calculated_subtotal v /\ total = calculated_total v
  /\ total <= ValidatedData.amount_paid v.
Proof.
  unfold is_valid. run.
  destruct (field_errors s data); destruct (to_internal_value data) as [v'|];
    try discriminate.
  unfold SalesTransactionCreateSerializer_validate.
  destruct (ValidatedData.amount_paid v' <? _) eqn:Hlt; [discriminate|].
  intros H. inversion H; subst. apply Z.ltb_ge in Hlt.
  repeat split; auto.
Qed.

Lemma for_each_items pk items s :
  for_each items (fun d => TransactionItem_objects_create pk d) s
  = (Return tt, insert_items pk items s).
Proof.
  unfold TransactionItem_objects_create.
  now rewrite (for_each_modify (fun d => insert_item pk d)).
Qed.

Lemma insert_items_rows pk items s :
  transaction_items (insert_items pk items s)
  = transaction_items s ++ inserted_rows pk (transaction_items s) items.
Proof.
  revert s. induction items as [|d ds IH]; intros s; simpl.
  - now rewrite app_nil_r.
  - unfold insert_items in *. simpl. rewrite IH. simpl.
    now rewrite <- app_assoc.
Qed.

Lemma insert_items_sales_transactions pk items s :
  sales_transactions (insert_items pk items s) = sales_transactions s.
Proof.
  revert s. induction items as [|d ds IH]; intros s; simpl; [reflexivity|].
  unfold insert_items in *. simpl. now rewrite IH.
Qed.

Lemma insert_items_rest pk items s :
  inventory_movements (insert_items pk items s) = inventory_movements s
  /\ carts (insert_items pk items s) = carts s
  /\ cart_items (insert_items pk items s) = cart_items s
  /\ products (insert_items pk items s) = products s.
Proof.
  revert s. induction items as [|d ds IH]; intros s; simpl; [auto|].
  unfold insert_items in *. simpl.
  destruct (IH (insert_item pk d s)) as (-> & -> & -> & ->). auto.
Qed.

(** Trimming the notes of an item changes nothing else. *)
Lemma map_item_internal_value l :
  map item_amount (map item_internal_value l) = map item_amount l
  /\ map ItemData.product (map item_internal_value l) = map ItemData.product l
  /\ map ItemData.quantity (map item_internal_value l) = map ItemData.quantity l
  /\ map ItemData.unit_price (map item_internal_value l)
     = map ItemData.unit_price l
  /\ map ItemData.discount (map item_internal_value l) = map ItemData.discount l.
Proof.
  rewrite !map_map. repeat split; apply map_ext; intros d; reflexivity.
Qed.

Lemma to_internal_value_items data v :
  to_internal_value data = Some v ->
  ValidatedData.items v = map item_internal_value (TransactionData.items data).
Proof.
  unfold to_internal_value.
  destruct (TransactionData.payment_method data ≫= ChoiceField); [|discriminate].
  destruct (TransactionData.amount_paid data); [|discriminate].
  intros H; inversion H. reflexivity.
Qed.

Lemma inserted_rows_transaction pk existing items :
  Forall (fun r => TransactionItem.transaction r = pk)
         (inserted_rows pk existing items).
Proof.
  revert existing. induction items as [|d ds IH]; intros ex; simpl; constructor;
    [reflexivity|apply IH].
Qed.

Lemma inserted_rows_data pk existing items :
  Forall2 (fun d r =>
             TransactionItem.product r = ItemData.product d
             /\ TransactionItem.quantity r = ItemData.quantity d
             /\ TransactionItem.unit_price r = ItemData.unit_price d
             /\ TransactionItem.discount r = default 0 (ItemData.discount d)
             /\ TransactionItem.line_total r = line_amount r
             /\ line_amount r = item_amount d)
          items (inserted_rows pk existing items).
Proof.
  revert existing. induction items as [|d ds IH]; intros ex; simpl; constructor;
    [|apply IH].
  repeat split; reflexivity.
Qed.

Lemma inserted_rows_line_total pk existing items :
  Forall (fun r => TransactionItem.line_total r = line_amount r)
         (inserted_rows pk existing items).
Proof.
  revert existing. induction items as [|d ds IH]; intros ex; simpl; constructor;
    [reflexivity|apply IH].
Qed.

Lemma inserted_rows_amounts pk existing items :
  map line_amount (inserted_rows pk existing items) = map item_amount items.
Proof.
  revert existing. induction items as [|d ds IH]; intros ex; simpl; [reflexivity|].
  now rewrite IH.
Qed.

(** What a successful [createTransaction] did, step by step. *)
Lemma create_transaction_returns now user data s txn s' :
  create_transaction now user data s = (Return txn, s') ->
  exists v number,
    field_errors s data = [] /\ to_internal_value data = Some v
    /\ calculated_total v <= ValidatedData.amount_paid v
    /\ generate_transaction_number now s = (Return number, s)
    /\ (forall r, In r (sales_transactions s) ->
                  SalesTransaction.transaction_number r <> number)
    /\ let pk := next_pk (omap SalesTransaction.id (sales_transactions s)) in
       let header :=
         set_saved (Some pk) (Some now) (Some now)
           (set_transaction_number number
              (new_transaction user v (calculated_subtotal v) (calculated_total v))) in
       let s2 := insert_items pk (ValidatedData.items v) (insert_header header s) in
       let self := set_completed now header in
       let s3 := record_all (map (sale_movement self) (items_all pk s2)) s2 in
       txn = updated_row now self pk /\ s' = overwrite pk txn s3.
Proof.
  unfold create_transaction. unfold bind at 1.
  destruct (is_valid data s) as [[[[v subtotal] total]|e] s0] eqn:Hv; [|discriminate].
  pose proof (is_valid_reads _ _ _ _ Hv) as ->.
  apply is_valid_returns in Hv as (Hfe & Htiv & -> & -> & Hpaid).
  unfold SalesTransactionCreateSerializer_create, atomic.
  match goal with |- context [bind ?m ?k s] => destruct (bind m k s) as [[t|e] s4] eqn:Hrun end;
    [|discriminate].
  intros H. inversion H; subst t s4. clear H.
  unfold bind at 1 in Hrun.
  destruct (SalesTransaction_save now _ s) as [[header|e] s1] eqn:Hsave; [|discriminate].
  apply SalesTransaction_save_insert in Hsave as (number & Hgen & Hfresh & -> & ->);
    [|reflexivity|reflexivity].
  cbn [SalesTransaction.id set_saved] in Hrun.
  unfold bind at 1 in Hrun. rewrite for_each_items in Hrun.
  exists v, number. repeat (split; [assumption|]).
  cbv zeta.
  unfold complete_transaction in Hrun.
  rewrite bool_decide_eq_false_2 in Hrun by (simpl; discriminate).
  unfold self_items in Hrun.
  cbn [SalesTransaction.id set_saved set_completed] in Hrun.
  unfold bind at 1 in Hrun. unfold gets at 1 in Hrun.
  unfold bind at 1 in Hrun. rewrite for_each_movements in Hrun.
  set (pk := next_pk (omap SalesTransaction.id (sales_transactions s))) in *.
  set (header := set_saved (Some pk) (Some now) (Some now) _) in *.
  set (s2 := insert_items pk (ValidatedData.items v) (insert_header header s)) in *.
  set (self := set_completed now header) in *.
  set (s3 := record_all _ s2) in *.
  destruct (generate_transaction_number_form _ _ _ _ Hgen) as (n & Hn).
  rewrite (SalesTransaction_save_update now self pk s3) in Hrun.
  - inversion Hrun. split; reflexivity.
  - reflexivity.
  - simpl. rewrite Hn. discriminate.
  - intros r Hr Hnum. subst s3. rewrite record_all_sales_transactions in Hr.
    subst s2. rewrite insert_items_sales_transactions in Hr. simpl in Hr.
    apply in_app_or in Hr as [Hr|[<-|[]]]; [|reflexivity].
    exfalso. apply (Hfresh r Hr). exact Hnum.
  - exists header. split; [|reflexivity].
    subst s3. rewrite record_all_sales_transactions.
    subst s2. rewrite insert_items_sales_transactions. simpl.
    apply in_or_app. right. left. reflexivity.
Qed.

Lemma next_pk_above keys k : In k keys -> k < next_pk keys.
Proof.
  unfold next_pk. induction keys as [|x keys IH]; simpl; [tauto|].
  intros [->|Hk]; [lia|]. specialize (IH Hk). lia.
Qed.

Lemma In_omap_id rows k :
  In (Some k) (map SalesTransaction.id rows) -> In k (omap SalesTransaction.id rows).
Proof.
  intros H. apply in_map_iff in H as (r & Hr & Hin).
  apply list_elem_of_In, list_elem_of_omap. exists r.
  split; [now apply list_elem_of_In|exact Hr].
Qed.

Lemma List_filter_none {A} (f : A -> bool) l :
  Forall (fun x => f x = false) l -> List.filter f l = [].
Proof.
  induction 1 as [|x l Hx _ IH]; simpl; [reflexivity|]. now rewrite Hx.
Qed.

Lemma List_filter_every {A} (f : A -> bool) l :
  Forall (fun x => f x = true) l -> List.filter f l = l.
Proof.
  induction 1 as [|x l Hx _ IH]; simpl; [reflexivity|]. rewrite Hx. now f_equal.
Qed.

(** The items of a freshly created transaction are the rows [create]
    inserted for it. *)
Lemma items_all_created pk items header mvs row s :
  items_reference_transactions s ->
  pk = next_pk (omap SalesTransaction.id (sales_transactions s)) ->
  items_all pk (overwrite pk row
                  (record_all mvs (insert_items pk items (insert_header header s))))
  = inserted_rows pk (transaction_items s) items.
Proof.
  intros Hfk Hpk. unfold items_all. simpl.
  rewrite record_all_transaction_items, insert_items_rows. simpl.
  rewrite List.filter_app.
  rewrite (List_filter_none _ (transaction_items s)).
  - rewrite List_filter_every; [reflexivity|].
    eapply List.Forall_impl; [|apply inserted_rows_transaction].
    intros r ->. apply Z.eqb_refl.
  - eapply List.Forall_impl; [|exact Hfk]. intros i Hi. simpl in Hi.
    apply In_omap_id, next_pk_above in Hi. apply Z.eqb_neq. lia.
Qed.

(** C1. A transaction that [createTransaction] returns is stored, and its
    amounts are exact: the subtotal is the sum over its stored items of
    unit price × quantity − line discount (the line total each item
    stores), the total is subtotal + tax − discount, and the change is the
    amount paid − total. *)
Theorem C1_created_transaction_amounts
    (now : DateTime) (user : Pk) (data : TransactionData.t) (s s' : Store)
    (txn : SalesTransaction.t) :
  items_reference_transactions s ->
  create_transaction now user data s = (Return txn, s') ->
  exists pk,
    SalesTransaction.id txn = Some pk
    /\ In txn (sales_transactions s')
    /\ SalesTransaction.status txn = COMPLETED
    /\ let items := items_all pk s' in
       map line_amount items = map item_amount (TransactionData.items data)
       /\ Forall (fun i => TransactionItem.line_total i = line_amount i) items
       /\ SalesTransaction.subtotal txn = Py_sum (map line_amount items)
       /\ SalesTransaction.total_amount txn
          = SalesTransaction.subtotal txn + SalesTransaction.tax txn
            - SalesTransaction.discount txn
       /\ SalesTransaction.change_amount txn
          = SalesTransaction.amount_paid txn - SalesTransaction.total_amount txn
       /\ SalesTransaction.total_amount txn <= SalesTransaction.amount_paid txn.
Proof.
  intros Hfk Hrun.
  apply create_transaction_returns in Hrun
    as (v & number & Hfe & Htiv & Hpaid & Hgen & Hfresh & Htxn & Hs').
  set (pk := next_pk (omap SalesTransaction.id (sales_transactions s))) in *.
  exists pk. split; [subst txn; reflexivity|].
  split.
  { rewrite Hs'. simpl. rewrite record_all_sales_transactions,
      insert_items_sales_transactions. simpl.
    apply in_map_iff. eexists. split; [|apply in_or_app; right; left; reflexivity].
    unfold has_pk. simpl. now rewrite bool_decide_eq_true_2. }
  split; [subst txn; reflexivity|].
  pose proof (to_internal_value_items data v Htiv) as Hitems.
  destruct (map_item_internal_value (TransactionData.items data)) as (Hamounts & _).
  cbv zeta. rewrite Hs'. rewrite (items_all_created pk _ _ _ _ s Hfk eq_refl).
  rewrite inserted_rows_amounts, Hitems, Hamounts.
  split; [reflexivity|].
  split; [apply inserted_rows_line_total|].
  subst txn. simpl. unfold calculated_total, calculated_subtotal in *.
  rewrite Hitems, Hamounts in *. repeat split; try reflexivity. exact Hpaid.
Qed.

(** ** Rejections *)

Lemma generate_transaction_number_raises now s e s' :
  generate_transaction_number now s = (Raise e, s') -> e = ValueError.
Proof.
  unfold generate_transaction_number. run.
  destruct (first_by_number_desc _) as [lt|]; simpl; [|discriminate].
  destruct (Py.int _); simpl; [discriminate|].
  intros H; inversion H; reflexivity.
Qed.

Lemma Model_save_raises now self s e s' :
  Model_save now self s = (Raise e, s') -> e = IntegrityError.
Proof.
  unfold Model_save. run.
  destruct (SalesTransaction.id self) as [pk|].
  - destruct (existsb _ _); simpl; [intros H; inversion H; reflexivity|].
    destruct (existsb _ _); simpl; discriminate.
  - destruct (existsb _ _); simpl; [intros H; inversion H; reflexivity|].
    discriminate.
Qed.

Lemma SalesTransaction_save_raises now self s e s' :
  SalesTransaction_save now self s = (Raise e, s') ->
  e = ValueError \/ e = IntegrityError.
Proof.
  unfold SalesTransaction_save.
  destruct (String.eqb _ "").
  - unfold bind at 1. unfold bind at 1.
    destruct (generate_transaction_number now s) as [[n|e0] s0] eqn:Hgen.
    + unfold ret at 1. intros H. right. eapply Model_save_raises; exact H.
    + intros H; inversion H; subst. left.
      eapply generate_transaction_number_raises; exact Hgen.
  - unfold bind at 1. unfold ret at 1. intros H. right.
    eapply Model_save_raises; exact H.
Qed.

Lemma complete_transaction_raises now self s e s' :
  complete_transaction now self s = (Raise e, s') ->
  e = ValueError \/ e = IntegrityError.
Proof.
  unfold complete_transaction.
  destruct (bool_decide _); [discriminate|].
  unfold self_items. cbn [SalesTransaction.id set_completed].
  destruct (SalesTransaction.id self) as [pk|].
  - unfold bind at 1. unfold gets at 1. unfold bind at 1.
    rewrite for_each_movements. apply SalesTransaction_save_raises.
  - unfold bind at 1. unfold raise at 1. intros H; inversion H; auto.
Qed.

Lemma create_raises now user vd s e s' :
  SalesTransactionCreateSerializer_create now user vd s = (Raise e, s') ->
  s' = s /\ (e = ValueError \/ e = IntegrityError).
Proof.
  intros H. split; [eapply atomic_raise_restores; exact H|].
  unfold SalesTransactionCreateSerializer_create, atomic in H.
  destruct vd as [[v subtotal] total].
  match type of H with
  | context [bind ?m ?k s] => destruct (bind m k s) as [[t|e0] s4] eqn:Hrun
  end; [discriminate|].
  inversion H; subst e0. clear H.
  unfold bind at 1 in Hrun.
  destruct (SalesTransaction_save now _ s) as [[header|e1] s1] eqn:Hsave.
  - destruct (SalesTransaction.id header) as [pk|].
    + unfold bind at 1 in Hrun. rewrite for_each_items in Hrun.
      eapply complete_transaction_raises; exact Hrun.
    + inversion Hrun; auto.
  - inversion Hrun; subst. eapply SalesTransaction_save_raises; exact Hsave.
Qed.

(** Whatever makes [createTransaction] raise, the store is the one it
    started from. *)
Lemma create_transaction_raise_restores now user data s e s' :
  create_transaction now user data s = (Raise e, s') -> s' = s.
Proof.
  unfold create_transaction. unfold bind at 1.
  destruct (is_valid data s) as [[vd|e0] s0] eqn:Hv.
  - pose proof (is_valid_reads _ _ _ _ Hv) as ->. apply create_raises.
  - pose proof (is_valid_reads _ _ _ _ Hv) as ->. intros H; inversion H; reflexivity.
Qed.

Lemma field_errors_to_internal_value s data :
  field_errors s data = [] -> exists v, to_internal_value data = Some v.
Proof.
  unfold field_errors, to_internal_value, required_decimal.
  intros H. apply app_eq_nil in H as [_ H]. apply app_eq_nil in H as [Hm H].
  apply app_eq_nil in H as [Hp _].
  destruct (TransactionData.payment_method data) as [m|]; [|discriminate]. simpl.
  destruct (ChoiceField m); [|discriminate].
  destruct (TransactionData.amount_paid data); [|discriminate]. eauto.
Qed.

Lemma create_transaction_field_errors now user data s :
  field_errors s data <> [] ->
  create_transaction now user data s
  = (Raise (ValidationError (field_errors s data)), s).
Proof.
  intros H. unfold create_transaction, is_valid. run.
  destruct (field_errors s data); [contradiction|]. reflexivity.
Qed.

Lemma item_errors_field_errors s data d :
  In d (TransactionData.items data) -> item_errors s d <> [] ->
  field_errors s data <> [].
Proof.
  intros Hin Hd H. unfold field_errors in H. apply app_eq_nil in H as [H _].
  unfold items_errors in H.
  destruct (flat_map (item_errors s) (TransactionData.items data)) eqn:Hfm;
    [|discriminate].
  apply Hd. destruct (item_errors s d) as [|x l] eqn:E; [reflexivity|].
  assert (In x (flat_map (item_errors s) (TransactionData.items data))) as Hx.
  { apply in_flat_map. exists d. split; [exact Hin|]. rewrite E. now left. }
  rewrite Hfm in Hx. destruct Hx.
Qed.

Lemma create_transaction_insufficient_payment now user data s v :
  field_errors s data = [] -> to_internal_value data = Some v ->
  ValidatedData.amount_paid v < calculated_total v ->
  create_transaction now user data s
  = (Raise (insufficient_payment (calculated_total v)), s).
Proof.
  intros Hfe Htiv Hlt. unfold create_transaction, is_valid. run.
  rewrite Hfe, Htiv. unfold SalesTransactionCreateSerializer_validate.
  fold (calculated_subtotal v). fold (calculated_total v).
  apply Z.ltb_lt in Hlt. rewrite Hlt. reflexivity.
Qed.



(** ** Checkout *)

Lemma Cart_objects_get_one user cart s :
  active_carts user s = [cart] -> Cart_objects_get user s = (Return cart, s).
Proof. intros H. unfold Cart_objects_get. run. rewrite H. reflexivity. Qed.

Lemma CheckoutView_post_empty now user data cart s :
  active_carts user s = [cart] ->
  cart_items_all (Cart.id cart) s = [] ->
  CheckoutView_post now user data s = (HTTP_400 [("error", CartIsEmpty)], s).
Proof.
  intros Hc Hl. unfold CheckoutView_post, respond, or_does_not_exist, try_except.
  unfold bind at 1. unfold bind at 1. rewrite (Cart_objects_get_one _ _ _ Hc).
  run. rewrite Hl. reflexivity.
Qed.

Lemma CheckoutView_post_raise now user data cart s e s' :
  active_carts user s = [cart] ->
  cart_items_all (Cart.id cart) s <> [] ->
  create_transaction now user
    (checkout_request (cart_items_all (Cart.id cart) s) data) s = (Raise e, s') ->
  CheckoutView_post now user data s
  = (match e with
     | ValidationError errors => HTTP_400 errors
     | _ => HTTP_500 e
     end, s).
Proof.
  intros Hc Hl Hrun.
  pose proof (create_transaction_raise_restores _ _ _ _ _ _ Hrun) as ->.
  unfold CheckoutView_post, respond, or_does_not_exist, try_except.
  unfold bind at 1. unfold bind at 1. rewrite (Cart_objects_get_one _ _ _ Hc).
  unfold ret at 1. unfold bind at 1. unfold gets at 1.
  destruct (cart_items_all (Cart.id cart) s) as [|l ls] eqn:El; [contradiction|].
  unfold bind at 1. unfold checkout_request in Hrun. rewrite Hrun.
  destruct e; reflexivity.
Qed.

Lemma CheckoutView_post_return now user data cart s txn s1 :
  active_carts user s = [cart] ->
  cart_items_all (Cart.id cart) s <> [] ->
  create_transaction now user
    (checkout_request (cart_items_all (Cart.id cart) s) data) s = (Return txn, s1) ->
  CheckoutView_post now user data s
  = (HTTP_201 (TransactionPayload txn), consume_cart cart s1).
Proof.
  intros Hc Hl Hrun.
  unfold CheckoutView_post, respond, or_does_not_exist, try_except.
  unfold bind at 1. unfold bind at 1. rewrite (Cart_objects_get_one _ _ _ Hc).
  unfold ret at 1. unfold bind at 1. unfold gets at 1.
  destruct (cart_items_all (Cart.id cart) s) as [|l ls] eqn:El; [contradiction|].
  unfold bind at 1. unfold checkout_request in Hrun. rewrite Hrun.
  reflexivity.
Qed.

(** C3. If validation fails for a line of the request, [createTransaction]
    raises a validation error and the store is the one before the call: no
    header, no item, no inventory movement was written.  The checkout view
    then answers 400 and the store, with the caller's cart and its lines, is
    unchanged.  More generally any exception out of [createTransaction]
    leaves the store as it was. *)
Theorem C3_creation_is_all_or_nothing
    (now : DateTime) (user : Pk) (s : Store) (d : ItemData.t) :
  item_errors s d <> [] ->
  (forall data,
      In d (TransactionData.items data) ->
      exists errors,
        create_transaction now user data s = (Raise (ValidationError errors), s))
  /\ (forall data cart,
        active_carts user s = [cart] ->
        In d (map checkout_item (cart_items_all (Cart.id cart) s)) ->
        exists errors, CheckoutView_post now user data s = (HTTP_400 errors, s))
  /\ (forall data e s',
        create_transaction now user data s = (Raise e, s') -> s' = s).
Proof.
  intros Hd. split; [|split].
  - intros data Hin. eexists. apply create_transaction_field_errors.
    eapply item_errors_field_errors; eauto.
  - intros data cart Hc Hin.
    assert (Hne : cart_items_all (Cart.id cart) s <> []).
    { intros E. rewrite E in Hin. destruct Hin. }
    eexists.
    rewrite (CheckoutView_post_raise now user data cart s
               (ValidationError
                  (field_errors s
                     (checkout_request (cart_items_all (Cart.id cart) s) data))) s);
      [reflexivity|assumption|assumption|].
    apply create_transaction_field_errors.
    eapply item_errors_field_errors; [|exact Hd]. exact Hin.
  - intros data e s'. apply create_transaction_raise_restores.
Qed.

Lemma item_errors_over_stock s d product :
  products s !! ItemData.product d = Some product ->
  Product.current_stock product < ItemData.quantity d ->
  item_errors s d <> [].
Proof.
  intros Hp Hlt. unfold item_errors.
  destruct (item_field_errors s d) eqn:E; [|discriminate].
  rewrite Hp. unfold TransactionItemCreateSerializer_validate.
  apply Z.ltb_lt in Hlt. rewrite Hlt. discriminate.
Qed.

Lemma to_internal_value_amounts data v :
  to_internal_value data = Some v ->
  TransactionData.amount_paid data = Some (ValidatedData.amount_paid v)
  /\ calculated_total v = request_total data
  /\ ValidatedData.items v = map item_internal_value (TransactionData.items data).
Proof.
  intros Hv. pose proof (to_internal_value_items data v Hv) as Hitems.
  destruct (map_item_internal_value (TransactionData.items data)) as (Hamounts & _).
  unfold calculated_total, calculated_subtotal, request_total.
  rewrite Hitems, Hamounts. revert Hv. unfold to_internal_value.
  destruct (TransactionData.payment_method data ≫= ChoiceField); [|discriminate].
  destruct (TransactionData.amount_paid data); [|discriminate].
  intros H; inversion H. repeat split.
Qed.


Lemma create_transaction_other_tables now user data s txn s' :
  create_transaction now user data s = (Return txn, s') ->
  carts s' = carts s /\ cart_items s' = cart_items s.
Proof.
  intros H. apply create_transaction_returns in H
    as (v & number & _ & _ & _ & _ & _ & _ & ->).
  simpl.
  match goal with
  | |- context [record_all ?m ?x] => destruct (record_all_carts m x) as (-> & -> & _)
  end.
  match goal with
  | |- context [insert_items ?pk ?i ?x] =>
      destruct (insert_items_rest pk i x) as (_ & -> & -> & _)
  end.
  split; reflexivity.
Qed.

Lemma consume_cart_lines cart s :
  cart_items_all (Cart.id cart) (consume_cart cart s) = [].
Proof.
  unfold cart_items_all, consume_cart. simpl.
  induction (cart_items s) as [|i l IH]; simpl; [reflexivity|].
  destruct (CartItem.cart i =? Cart.id cart) eqn:E; simpl; [exact IH|].
  rewrite E. exact IH.
Qed.

Lemma consume_cart_inactive user cart s :
  active_carts user s = [cart] ->
  active_carts user (consume_cart cart s) = []
  /\ In (deactivated cart) (carts (consume_cart cart s)).
Proof.
  intros Hc. unfold active_carts, consume_cart in *. simpl.
  assert (Hin : In cart (carts s)).
  { assert (In cart (List.filter
                       (fun c => (Cart.user c =? user) && Cart.is_active c) (carts s)))
      as H by (rewrite Hc; now left).
    now apply List.filter_In in H. }
  split.
  - apply List_filter_none. apply Forall_forall. intros c Hmap.
    apply list_elem_of_In, in_map_iff in Hmap as (c0 & <- & Hc0).
    destruct (Cart.id c0 =? Cart.id cart) eqn:E; simpl.
    + apply andb_false_r.
    + destruct ((Cart.user c0 =? user) && Cart.is_active c0) eqn:Ea; [|reflexivity].
      assert (In c0 (List.filter
                       (fun c => (Cart.user c =? user) && Cart.is_active c) (carts s)))
        as H by (apply List.filter_In; auto).
      rewrite Hc in H. destruct H as [->|[]]. rewrite Z.eqb_refl in E. discriminate.
  - apply in_map_iff. exists cart. rewrite Z.eqb_refl. auto.
Qed.

Lemma inserted_rows_unit_price pk existing items :
  map TransactionItem.unit_price (inserted_rows pk existing items)
  = map ItemData.unit_price items
  /\ map TransactionItem.quantity (inserted_rows pk existing items)
     = map ItemData.quantity items
  /\ map TransactionItem.product (inserted_rows pk existing items)
     = map ItemData.product items.
Proof.
  revert existing. induction items as [|d ds IH]; intros ex; simpl; [auto|].
  destruct (IH (ex ++ [item_row (next_pk (map TransactionItem.id ex)) pk d]))
    as (-> & -> & ->).
  auto.
Qed.

(** What the checkout does with the user's active cart [cart]: if it has
    no line, checkout answers 400 "Cart is empty" and changes nothing.  Otherwise the request
    handed to [createTransaction] has one item per cart line, in order, with
    the line's product, quantity and stored unit price (the product table
    is not consulted for the price).  When creation returns, the answer is
    201, the items stored for the transaction carry the cart lines' unit
    prices, the cart has no line left and is stored with
    [is_active = False], and the user has no active cart. *)
Theorem CheckoutView_post_projects_lines
    (now : DateTime) (user : Pk) (data : CheckoutData.t) (cart : Cart.t)
    (s : Store) :
  active_carts user s = [cart] ->
  let lines := cart_items_all (Cart.id cart) s in
  let request := checkout_request lines data in
  (lines = [] ->
   CheckoutView_post now user data s = (HTTP_400 [("error", CartIsEmpty)], s))
  /\ (lines <> [] ->
      map ItemData.product (TransactionData.items request)
        = map CartItem.product lines
      /\ map ItemData.quantity (TransactionData.items request)
         = map CartItem.quantity lines
      /\ map ItemData.unit_price (TransactionData.items request)
         = map CartItem.unit_price lines
      /\ forall txn s1,
           create_transaction now user request s = (Return txn, s1) ->
           let s' := consume_cart cart s1 in
           CheckoutView_post now user data s
             = (HTTP_201 (TransactionPayload txn), s')
           /\ cart_items_all (Cart.id cart) s' = []
           /\ In (deactivated cart) (carts s')
           /\ active_carts user s' = []
           /\ (items_reference_transactions s ->
               exists pk,
                 SalesTransaction.id txn = Some pk
                 /\ map TransactionItem.unit_price (items_all pk s')
                    = map CartItem.unit_price lines)).
Proof.
  intros Hc lines request. split.
  - intros Hl. eapply CheckoutView_post_empty; eauto.
  - intros Hl.
    assert (Hproj : forall l,
               map ItemData.product (map checkout_item l) = map CartItem.product l
               /\ map ItemData.quantity (map checkout_item l) = map CartItem.quantity l
               /\ map ItemData.unit_price (map checkout_item l)
                  = map CartItem.unit_price l).
    { induction l as [|i l (IH1 & IH2 & IH3)]; simpl; [auto|].
      rewrite IH1, IH2, IH3. auto. }
    destruct (Hproj lines) as (H1 & H2 & H3).
    repeat (split; [assumption|]).
    intros txn s1 Hrun s'.
    split; [now apply CheckoutView_post_return|].
    split; [apply consume_cart_lines|].
    destruct (create_transaction_other_tables _ _ _ _ _ _ Hrun) as (Hcarts & _).
    assert (Hc1 : active_carts user s1 = [cart])
      by (unfold active_carts in *; now rewrite Hcarts).
    destruct (consume_cart_inactive user cart s1 Hc1) as (Hnone & Hin).
    repeat (split; [assumption|]).
    intros Hfk.
    apply create_transaction_returns in Hrun
      as (v & number & _ & Htiv & _ & _ & _ & Htxn & Hs1).
    exists (next_pk (omap SalesTransaction.id (sales_transactions s))).
    split; [subst txn; reflexivity|].
    subst s'. unfold items_all, consume_cart. simpl.
    change (List.filter _ (transaction_items s1))
      with (items_all (next_pk (omap SalesTransaction.id (sales_transactions s))) s1).
    rewrite Hs1, (items_all_created _ _ _ _ _ s Hfk eq_refl).
    destruct (to_internal_value_amounts _ _ Htiv) as (_ & _ & ->).
    destruct (inserted_rows_unit_price
                (next_pk (omap SalesTransaction.id (sales_transactions s)))
                (transaction_items s)
                (map item_internal_value (TransactionData.items request)))
      as (-> & _).
    destruct (map_item_internal_value (TransactionData.items request))
      as (_ & _ & _ & -> & _).
    exact H3.
Qed.

(** ** The cart *)

Lemma at_most_one {A} (l : list A) :
  (length l <= 1)%nat -> l = [] \/ exists x, l = [x].
Proof.
  destruct l as [|x [|y l]]; simpl; intros H; [auto|eauto|lia].
Qed.

Lemma AddToCartSerializer_is_valid_active product_id quantity product s :
  products s !! product_id = Some product ->
  Product.is_active product = true ->
  1 <= quantity ->
  AddToCartSerializer_is_valid product_id quantity s
  = (if Product.current_stock product <? quantity
     then Raise (ValidationError
                   [("quantity", InsufficientStock (Product.current_stock product))])
     else Return tt, s).
Proof.
  intros Hp Ha Hq. unfold AddToCartSerializer_is_valid,
    AddToCartSerializer_validate_product_id, AddToCartSerializer_validate. run.
  rewrite Hp, Ha. simpl.
  destruct (quantity <? 1) eqn:E; [apply Z.ltb_lt in E; lia|]. simpl.
  rewrite Hp.
  destruct (Product.current_stock product <? quantity); reflexivity.
Qed.

Lemma CartItem_save_stored line s product :
  In line (cart_items s) \/ existsb (fun i => CartItem.id i =? CartItem.id line)
                              (cart_items s) = true ->
  products s !! CartItem.product line = Some product ->
  forall q,
    CartItem_save (with_quantity q line) s
    = (Return (saved_line q product line), replace_line (saved_line q product line) s).
Proof.
  intros Hin Hp q. unfold CartItem_save, saved_line, replace_line.
  assert (Hex : existsb (fun i => CartItem.id i =? CartItem.id line) (cart_items s)
                = true).
  { destruct Hin as [Hin|Hex]; [|exact Hex].
    apply existsb_exists. exists line. split; [exact Hin|apply Z.eqb_refl]. }
  cbv zeta.
  destruct (CartItem.unit_price (with_quantity q line) =? 0) eqn:E.
  - unfold bind at 1. unfold bind at 1. unfold Product_objects_get.
    unfold bind at 1. unfold gets at 1.
    cbn [CartItem.product with_quantity]. rewrite Hp.
    run. rewrite Hex. reflexivity.
  - run. rewrite Hex. reflexivity.
Qed.

Lemma filter_replace {A} (P : A -> bool) (f : A -> A) (l : list A) :
  (forall x, In x l -> P (f x) = P x) ->
  List.filter P (map f l) = map f (List.filter P l).
Proof.
  induction l as [|x l IH]; simpl; intros H; [reflexivity|].
  rewrite (H x) by auto. destruct (P x); simpl; rewrite IH; auto.
Qed.

Lemma next_pk_fresh {A} (key : A -> Pk) (rows : list A) :
  existsb (fun r => key r =? next_pk (map key rows)) rows = false.
Proof.
  apply not_true_is_false. intros H. apply existsb_exists in H as (r & Hr & E).
  apply Z.eqb_eq in E. pose proof (next_pk_above (map key rows) (key r)) as Hlt.
  rewrite <- E in Hlt. specialize (Hlt (in_map key rows r Hr)). lia.
Qed.

Lemma cart_lines_In cart product s line :
  In line (cart_lines cart product s) ->
  In line (cart_items s) /\ CartItem.cart line = cart
  /\ CartItem.product line = product.
Proof.
  intros H. apply List.filter_In in H as [Hin Hcond].
  apply andb_prop in Hcond as [H1 H2]. apply Z.eqb_eq in H1, H2. auto.
Qed.

(** Adding to a line the cart already has. *)
Lemma AddToCartView_post_existing now user product_id quantity s cart line product :
  active_carts user s = [cart] ->
  cart_lines (Cart.id cart) product_id s = [line] ->
  products s !! product_id = Some product ->
  Product.is_active product = true ->
  1 <= quantity ->
  quantity <= Product.current_stock product ->
  let new_quantity := CartItem.quantity line + quantity in
  AddToCartView_post now user product_id quantity s
  = if Product.current_stock product <? new_quantity then
      (HTTP_400 [("error", InsufficientStock (Product.current_stock product))], s)
    else
      let s' := replace_line (saved_line new_quantity product line) s in
      (HTTP_200 (CartPayload cart (cart_items_all (Cart.id cart) s')), s').
Proof.
  intros Hc Hl Hp Ha Hq Hstock new_quantity.
  destruct (cart_lines_In (Cart.id cart) product_id s line) as (Hin & Hcart & Hprod);
    [rewrite Hl; now left|].
  unfold AddToCartView_post, respond.
  unfold bind at 1.
  rewrite (AddToCartSerializer_is_valid_active _ _ _ _ Hp Ha Hq).
  destruct (Product.current_stock product <? quantity) eqn:E;
    [apply Z.ltb_lt in E; lia|].
  unfold bind at 1. unfold Cart_objects_get_or_create, try_except.
  rewrite (Cart_objects_get_one _ _ _ Hc).
  unfold bind at 1. unfold Product_objects_get. unfold bind at 1. unfold gets at 1.
  rewrite Hp. unfold ret at 1.
  unfold bind at 1. unfold CartItem_objects_get_or_create, try_except.
  unfold bind at 1. unfold gets at 1. rewrite Hl.
  unfold bind at 1. unfold get_one, ret at 1. unfold ret at 1.
  cbn [negb]. fold new_quantity.
  destruct (Product.current_stock product <? new_quantity); [reflexivity|].
  unfold bind at 1.
  rewrite (CartItem_save_stored line s product (or_introl Hin))
    by (rewrite Hprod; exact Hp).
  unfold bind at 1. unfold CartSerializer_data. run. reflexivity.
Qed.

Lemma CartItem_objects_get_or_create_new cart product_id quantity product s :
  cart_lines (Cart.id cart) product_id s = [] ->
  products s !! product_id = Some product ->
  let line := new_line (Cart.id cart) product_id quantity
                (Product.unit_price product) s in
  CartItem_objects_get_or_create cart product_id quantity (Product.unit_price product) s
  = (Return (line, true), insert_line line s).
Proof.
  intros Hl Hp line.
  unfold CartItem_objects_get_or_create, try_except.
  unfold bind at 1. unfold gets at 1. rewrite Hl.
  unfold bind at 1. unfold get_one, raise at 1.
  unfold bind at 1. unfold gets at 1. unfold bind at 1.
  fold (new_line (Cart.id cart) product_id quantity (Product.unit_price product) s).
  fold line. unfold CartItem_save.
  pose proof (next_pk_fresh CartItem.id (cart_items s)) as Hfresh.
  destruct (CartItem.unit_price line =? 0) eqn:E.
  - unfold bind at 1. unfold bind at 1. unfold Product_objects_get.
    unfold bind at 1. unfold gets at 1. cbn [CartItem.product line new_line].
    rewrite Hp. run. rewrite Hfresh. simpl. subst line. unfold new_line in *.
    simpl in E. apply Z.eqb_eq in E. rewrite E. reflexivity.
  - run. rewrite Hfresh. reflexivity.
Qed.

(** Adding a product the active cart has no line for. *)
Lemma AddToCartView_post_new_line now user product_id quantity s cart product :
  active_carts user s = [cart] ->
  cart_lines (Cart.id cart) product_id s = [] ->
  products s !! product_id = Some product ->
  Product.is_active product = true ->
  1 <= quantity ->
  quantity <= Product.current_stock product ->
  let s' := insert_line (new_line (Cart.id cart) product_id quantity
                           (Product.unit_price product) s) s in
  AddToCartView_post now user product_id quantity s
  = (HTTP_200 (CartPayload cart (cart_items_all (Cart.id cart) s')), s').
Proof.
  intros Hc Hl Hp Ha Hq Hstock s'.
  unfold AddToCartView_post, respond.
  unfold bind at 1.
  rewrite (AddToCartSerializer_is_valid_active _ _ _ _ Hp Ha Hq).
  destruct (Product.current_stock product <? quantity) eqn:E;
    [apply Z.ltb_lt in E; lia|].
  unfold bind at 1. unfold Cart_objects_get_or_create, try_except.
  rewrite (Cart_objects_get_one _ _ _ Hc).
  unfold bind at 1. unfold Product_objects_get. unfold bind at 1. unfold gets at 1.
  rewrite Hp. unfold ret at 1.
  unfold bind at 1.
  rewrite (CartItem_objects_get_or_create_new cart product_id quantity product s Hl Hp).
  cbn [negb]. unfold CartSerializer_data. run. reflexivity.
Qed.

(** Adding when the user has no active cart: a cart is created first. *)
Lemma AddToCartView_post_new_cart now user product_id quantity s product :
  Forall (fun i => In (CartItem.cart i) (map Cart.id (carts s))) (cart_items s) ->
  active_carts user s = [] ->
  session_id_free now user s ->
  products s !! product_id = Some product ->
  Product.is_active product = true ->
  1 <= quantity ->
  quantity <= Product.current_stock product ->
  let cart := new_cart now user s in
  let s1 := insert_cart cart s in
  let s' := insert_line (new_line (Cart.id cart) product_id quantity
                           (Product.unit_price product) s1) s1 in
  AddToCartView_post now user product_id quantity s
  = (HTTP_200 (CartPayload cart (cart_items_all (Cart.id cart) s')), s').
Proof.
  intros Hfk Hc Hfree Hp Ha Hq Hstock cart s1 s'.
  assert (Hl : cart_lines (Cart.id cart) product_id s1 = []).
  { unfold cart_lines. simpl. apply List_filter_none.
    eapply List.Forall_impl; [|exact Hfk]. intros i Hi. simpl in Hi.
    apply next_pk_above in Hi.
    destruct (CartItem.cart i =? next_pk (map Cart.id (carts s))) eqn:E;
      [apply Z.eqb_eq in E; lia|reflexivity]. }
  unfold AddToCartView_post, respond.
  unfold bind at 1.
  rewrite (AddToCartSerializer_is_valid_active _ _ _ _ Hp Ha Hq).
  destruct (Product.current_stock product <? quantity) eqn:E;
    [apply Z.ltb_lt in E; lia|].
  unfold bind at 1. unfold Cart_objects_get_or_create, try_except.
  unfold Cart_objects_get. unfold bind at 1. unfold gets at 1. rewrite Hc.
  unfold get_one, raise at 1. unfold bind at 1. unfold gets at 1.
  unfold session_id_free in Hfree. rewrite Hfree.
  unfold bind at 1. unfold modify at 1. unfold ret at 1.
  fold (new_cart now user s). fold cart. fold (insert_cart cart s). fold s1.
  unfold bind at 1. unfold Product_objects_get. unfold bind at 1. unfold gets at 1.
  change (products s1) with (products s). rewrite Hp. unfold ret at 1.
  unfold bind at 1.
  rewrite (CartItem_objects_get_or_create_new cart product_id quantity product s1 Hl Hp).
  cbn [negb]. unfold CartSerializer_data. run. reflexivity.
Qed.

Lemma saved_line_fields q product line :
  CartItem.id (saved_line q product line) = CartItem.id line
  /\ CartItem.cart (saved_line q product line) = CartItem.cart line
  /\ CartItem.product (saved_line q product line) = CartItem.product line
  /\ CartItem.quantity (saved_line q product line) = q.
Proof.
  unfold saved_line. cbv zeta.
  destruct (CartItem.unit_price (with_quantity q line) =? 0); repeat split.
Qed.

(** A later save keeps the unit price the line was created with, unless
    that price is zero: [CartItem.save] then takes the product's price. *)
Lemma saved_line_unit_price q product line :
  CartItem.unit_price line <> 0 ->
  CartItem.unit_price (saved_line q product line) = CartItem.unit_price line.
Proof.
  intros H. unfold saved_line. cbv zeta. cbn [CartItem.unit_price with_quantity].
  destruct (CartItem.unit_price line =? 0) eqn:E; [|reflexivity].
  apply Z.eqb_eq in E. contradiction.
Qed.

Lemma filter_replace_line (P : CartItem.t -> bool) line line' s :
  NoDup (map CartItem.id (cart_items s)) ->
  In line (cart_items s) ->
  CartItem.id line' = CartItem.id line ->
  P line' = P line ->
  List.filter P (cart_items (replace_line line' s))
  = map (fun i => if CartItem.id i =? CartItem.id line' then line' else i)
        (List.filter P (cart_items s)).
Proof.
  intros Hnd Hin Hid HP. unfold replace_line. simpl.
  apply filter_replace. intros x Hx.
  destruct (CartItem.id x =? CartItem.id line') eqn:E; [|reflexivity].
  apply Z.eqb_eq in E. rewrite Hid in E.
  assert (x = line) as -> by (eapply NoDup_map_eq; eauto).
  exact HP.
Qed.







Lemma filter_by_key {A} (key : A -> Pk) (rows : list A) (r : A) :
  NoDup (map key rows) -> In r rows ->
  List.filter (fun x => key x =? key r) rows = [r].
Proof.
  induction rows as [|x rows IH]; simpl; [tauto|].
  intros Hnd Hin. apply NoDup_cons in Hnd as [Hx Hnd].
  destruct Hin as [->|Hin].
  - rewrite Z.eqb_refl. f_equal. apply List_filter_none.
    apply List.Forall_forall. intros y Hy.
    destruct (key y =? key r) eqn:E; [|reflexivity].
    apply Z.eqb_eq in E. exfalso. apply Hx. rewrite <- E.
    apply list_elem_of_In, in_map, Hy.
  - destruct (key x =? key r) eqn:E; [|auto].
    apply Z.eqb_eq in E. exfalso. apply Hx. rewrite E.
    apply list_elem_of_In, in_map, Hin.
Qed.


(** Comparing and converting numbers that are integers. *)
Lemma lt_inject_Z a b : PyValue.lt (inject_Z a) (inject_Z b) = (a <? b).
Proof.
  unfold PyValue.lt, Qle_bool. simpl. rewrite !Z.mul_1_r.
  symmetry. apply Z.ltb_antisym.
Qed.

Lemma int_inject_Z n : PyValue.int (inject_Z n) = n.
Proof. unfold PyValue.int. simpl. apply Z.quot_1_r. Qed.

(** A number that is not below 1 is stored as an integer of at least 1. *)
Lemma int_at_least_1 x : PyValue.lt x (inject_Z 1) = false -> 1 <= PyValue.int x.
Proof.
  unfold PyValue.lt, Qle_bool, PyValue.int. simpl. rewrite Z.mul_1_r, Z.mul_1_l.
  intros H. apply negb_false_iff, Z.leb_le in H.
  rewrite Z.quot_div_nonneg by lia.
  apply Z.div_le_lower_bound; lia.
Qed.

(** The update view on a line it finds, for a posted number that is not
    below 1. *)
Lemma UpdateCartItemView_patch_number user pk quantity x item product cart s :
  user_cart_items pk user s = [item] ->
  In item (cart_items s) ->
  List.filter (fun c => Cart.id c =? CartItem.cart item) (carts s) = [cart] ->
  products s !! CartItem.product item = Some product ->
  PyValue.truth quantity = true ->
  PyValue.number quantity = Some x ->
  PyValue.lt x (inject_Z 1) = false ->
  UpdateCartItemView_patch user pk quantity s
  = if PyValue.lt (inject_Z (Product.current_stock product)) x then
      (HTTP_400 [("error", InsufficientStock (Product.current_stock product))], s)
    else
      let s' := replace_line (saved_line (PyValue.int x) product item) s in
      (HTTP_200 (CartPayload cart (cart_items_all (Cart.id cart) s')), s').
Proof.
  intros Hfound Hin Hcart Hp Htruth Hnum Hq.
  unfold UpdateCartItemView_patch, respond, or_does_not_exist, try_except,
    CartItem_objects_get.
  unfold bind at 1. unfold bind at 1. unfold bind at 1. unfold gets at 1.
  fold (user_cart_items pk user s). rewrite Hfound.
  unfold get_one, ret at 1. unfold ret at 1.
  rewrite Htruth. cbn [negb]. unfold less_than_int, int_less_than,
    IntegerField_get_prep_value. rewrite Hnum.
  unfold bind at 1. unfold ret at 1. rewrite Hq.
  unfold bind at 1.
  unfold Product_objects_get. unfold bind at 1. unfold gets at 1. rewrite Hp.
  unfold ret at 1. unfold bind at 1. unfold ret at 1.
  destruct (PyValue.lt (inject_Z (Product.current_stock product)) x); [reflexivity|].
  unfold bind at 1. unfold ret at 1. unfold bind at 1.
  rewrite (CartItem_save_stored item s product (or_introl Hin) Hp).
  unfold bind at 1. unfold gets at 1.
  change (carts (replace_line (saved_line (PyValue.int x) product item) s))
    with (carts s).
  rewrite Hcart.
  unfold bind at 1. unfold get_one, ret at 1.
  unfold CartSerializer_data. run. reflexivity.
Qed.

(** The update view on a line it finds, for an integer of at least 1. *)
Lemma UpdateCartItemView_patch_found user pk quantity item product cart s :
  user_cart_items pk user s = [item] ->
  In item (cart_items s) ->
  List.filter (fun c => Cart.id c =? CartItem.cart item) (carts s) = [cart] ->
  products s !! CartItem.product item = Some product ->
  1 <= quantity ->
  UpdateCartItemView_patch user pk (JInt quantity) s
  = if Product.current_stock product <? quantity then
      (HTTP_400 [("error", InsufficientStock (Product.current_stock product))], s)
    else
      let s' := replace_line (saved_line quantity product item) s in
      (HTTP_200 (CartPayload cart (cart_items_all (Cart.id cart) s')), s').
Proof.
  intros Hfound Hin Hcart Hp Hq.
  rewrite (UpdateCartItemView_patch_number user pk (JInt quantity)
             (inject_Z quantity) item product cart s Hfound Hin Hcart Hp).
  - now rewrite lt_inject_Z, int_inject_Z.
  - simpl. apply negb_true_iff, Z.eqb_neq. lia.
  - reflexivity.
  - rewrite lt_inject_Z. apply Z.ltb_ge. lia.
Qed.


(** ** Profit *)

Lemma item_profit_current s item product :
  products s !! TransactionItem.product item = Some product ->
  item_profit s item
  = Some ((TransactionItem.unit_price item - Product.cost_price product)
          * TransactionItem.quantity item).
Proof. intros H. unfold item_profit. now rewrite H. Qed.

Lemma item_profit_set_cost_price s product_id product c item v :
  products s !! product_id = Some product ->
  item_profit s item = Some v ->
  item_profit (set_cost_price product_id c s) item
  = Some (v - (c - Product.cost_price product)
              * (if TransactionItem.product item =? product_id
                 then TransactionItem.quantity item else 0)).
Proof.
  intros Hp. unfold item_profit, set_cost_price. simpl.
  rewrite lookup_alter.
  destruct (decide (product_id = TransactionItem.product item)) as [<-|Hne].
  - rewrite Hp. simpl. rewrite Z.eqb_refl. intros H; inversion H. f_equal. lia.
  - destruct (products s !! TransactionItem.product item); [|discriminate].
    assert ((TransactionItem.product item =? product_id) = false) as ->
      by (apply Z.eqb_neq; congruence).
    intros H; inversion H. f_equal. lia.
Qed.

Lemma profit_loop_acc s items acc k :
  profit_loop s items (acc + k) = Z.add k <$> profit_loop s items acc.
Proof.
  revert acc. induction items as [|i items IH]; intros acc; simpl.
  - f_equal. lia.
  - destruct (item_profit s i) as [p|]; [|reflexivity].
    replace (acc + k + p) with (acc + p + k) by lia. apply IH.
Qed.

Lemma profit_loop_set_cost_price s product_id product c items acc v :
  products s !! product_id = Some product ->
  profit_loop s items acc = Some v ->
  profit_loop (set_cost_price product_id c s) items acc
  = Some (v - (c - Product.cost_price product) * units_of product_id items).
Proof.
  intros Hp. revert acc. induction items as [|i items IH]; intros acc; simpl.
  - intros H; inversion H. f_equal. lia.
  - destruct (item_profit s i) as [p|] eqn:Ei; [|discriminate].
    rewrite (item_profit_set_cost_price s product_id product c i p Hp Ei).
    intros H. apply IH in H.
    set (k := (c - Product.cost_price product)
              * (if TransactionItem.product i =? product_id
                 then TransactionItem.quantity i else 0)) in *.
    replace (acc + (p - k)) with (acc + p + (- k)) by lia.
    rewrite profit_loop_acc, H. simpl. f_equal. lia.
Qed.

Lemma profit_loop_defined s items acc :
  Forall (fun i => is_Some (products s !! TransactionItem.product i)) items ->
  is_Some (profit_loop s items acc).
Proof.
  intros H. revert acc. induction H as [|i items [p Hp] _ IH]; intros acc; simpl.
  - eauto.
  - unfold item_profit. rewrite Hp. apply IH.
Qed.

Lemma profit_loop_sum s items acc :
  Forall (fun i => is_Some (products s !! TransactionItem.product i)) items ->
  profit_loop s items acc = Some (fold_left Z.add (map (profit_term s) items) acc).
Proof.
  intros H. revert acc. induction H as [|i items [p Hp] _ IH]; intros acc; simpl.
  - reflexivity.
  - assert (Hterm : profit_term s i
                    = (TransactionItem.unit_price i - Product.cost_price p)
                      * TransactionItem.quantity i)
      by (unfold profit_term; rewrite Hp; reflexivity).
    unfold item_profit. rewrite Hp, Hterm. apply IH.
Qed.

Lemma units_of_positive product_id items item :
  Forall (fun i => 1 <= TransactionItem.quantity i) items ->
  In item items -> TransactionItem.product item = product_id ->
  1 <= units_of product_id items.
Proof.
  intros Hq Hin Hprod.
  assert (Hnn : forall l, Forall (fun i => 1 <= TransactionItem.quantity i) l ->
                          0 <= units_of product_id l).
  { induction 1 as [|x l Hx _ IHl]; simpl; [lia|].
    destruct (TransactionItem.product x =? product_id); lia. }
  induction Hq as [|x l Hx Hl IH]; simpl; [destruct Hin|].
  destruct Hin as [->|Hin].
  - rewrite Hprod, Z.eqb_refl. specialize (Hnn l Hl). lia.
  - specialize (IH Hin). destruct (TransactionItem.product x =? product_id); lia.
Qed.

(** C9. Profit is computed when it is read, from the cost price the
    product has then: an item's profit is (unit price − current cost price)
    × quantity and a transaction's profit is the sum of that over its
    items, before and after a change of the catalog.  So a
    change of a product's cost price by [c − cost] changes the profit
    reported for any stored transaction by −(c − cost) × the units of that
    product in it, and the figure does change when the transaction contains
    the product and the cost price is a different one. *)
Theorem C9_profit_uses_current_cost_price
    (s : Store) (pk product_id : Pk) (product : Product.t) (c : Decimal) :
  products s !! product_id = Some product ->
  Forall (fun i => is_Some (products s !! TransactionItem.product i)) (items_all pk s) ->
  Forall (fun i => 1 <= TransactionItem.quantity i) (items_all pk s) ->
  let s' := set_cost_price product_id c s in
  (forall item,
      TransactionItem.product item = product_id ->
      TransactionItem_profit s item
        = Some ((TransactionItem.unit_price item - Product.cost_price product)
                * TransactionItem.quantity item)
      /\ TransactionItem_profit s' item
         = Some ((TransactionItem.unit_price item - c)
                 * TransactionItem.quantity item))
  /\ SalesTransaction_profit s pk
     = Some (Py_sum (map (profit_term s) (items_all pk s)))
  /\ SalesTransaction_profit s' pk
     = Some (Py_sum (map (profit_term s') (items_all pk s')))
  /\ exists v,
       SalesTransaction_profit s pk = Some v
       /\ SalesTransaction_profit s' pk
          = Some (v - (c - Product.cost_price product)
                      * units_of product_id (items_all pk s))
       /\ ((exists item, In item (items_all pk s)
                         /\ TransactionItem.product item = product_id) ->
           c <> Product.cost_price product ->
           SalesTransaction_profit s' pk <> SalesTransaction_profit s pk).
Proof.
  intros Hp Hex Hq s'. split.
  - intros item Hprod. unfold TransactionItem_profit. split.
    + apply item_profit_current. now rewrite Hprod.
    + subst s'. unfold item_profit, set_cost_price. simpl.
      rewrite Hprod, lookup_alter_eq, Hp. reflexivity.
  - split; [apply profit_loop_sum; exact Hex|].
    split.
    { apply profit_loop_sum. subst s'.
      change (items_all pk (set_cost_price product_id c s)) with (items_all pk s).
      eapply List.Forall_impl; [|exact Hex]. intros i [p Hi].
      unfold set_cost_price. simpl. rewrite lookup_alter.
      destruct (decide (product_id = TransactionItem.product i)) as [E|E].
      - rewrite Hp. simpl. eauto.
      - rewrite Hi. eauto. }
    destruct (profit_loop_defined s (items_all pk s) 0 Hex) as [v Hv].
    exists v. unfold SalesTransaction_profit. subst s'.
    change (items_all pk (set_cost_price product_id c s)) with (items_all pk s).
    split; [exact Hv|].
    rewrite (profit_loop_set_cost_price s product_id product c _ 0 v Hp Hv).
    split; [reflexivity|].
    intros (item & Hin & Hprod) Hne. rewrite Hv. intros H. inversion H as [H0].
    pose proof (units_of_positive product_id _ item Hq Hin Hprod) as Hu.
    assert ((c - Product.cost_price product) * units_of product_id (items_all pk s) = 0)
      as Hz by lia.
    apply Z.mul_eq_0 in Hz. lia.
Qed.

(** ** Transaction numbers *)

Lemma in_range n k : In k (range n) <-> 0 <= k < n.
Proof.
  unfold range. rewrite in_map_iff. split.
  - intros (i & <- & Hi). apply in_seq in Hi. lia.
  - intros Hk. exists (Z.to_nat k). split; [lia|]. apply in_seq. lia.
Qed.

Lemma four_digit_checked : forallb four_digit_check (range 10001) = true.
Proof. vm_compute. reflexivity. Qed.

Lemma four_digit_facts k :
  0 <= k <= 10000 ->
  Py.split "-" (Py.format_0d 4 k) = [Py.format_0d 4 k]
  /\ Py.int (Py.format_0d 4 k) = Some k
  /\ (k < 9999 ->
      String.compare (Py.format_0d 4 k) (Py.format_0d 4 (k + 1)) = Lt).
Proof.
  intros Hk. pose proof four_digit_checked as H.
  rewrite forallb_forall in H. specialize (H k).
  assert (Hin : In k (range 10001)) by (apply in_range; lia).
  specialize (H Hin). unfold four_digit_check in H. cbv zeta in H.
  destruct (Py.split "-" (Py.format_0d 4 k)) as [|segment [|]]; try discriminate.
  destruct (Py.int (Py.format_0d 4 k)) as [v|]; [|discriminate].
  apply andb_prop in H as [H Hnext]. apply andb_prop in H as [Hseg Hv].
  apply String.eqb_eq in Hseg. apply Z.eqb_eq in Hv. subst.
  repeat split. intros Hlt. apply Z.ltb_lt in Hlt. rewrite Hlt in Hnext.
  destruct (String.compare _ _); congruence.
Qed.

Lemma compare_lt_leb a b : String.compare a b = Lt -> String.leb a b = true.
Proof. unfold String.leb. now intros ->. Qed.

Lemma compare_lt_trans a b c :
  String.compare a b = Lt -> String.compare b c = Lt -> String.compare a c = Lt.
Proof.
  intros Hab Hbc.
  assert (Hle : String.le a c).
  { transitivity b; unfold String.le; [rewrite (compare_lt_leb _ _ Hab)
                                      |rewrite (compare_lt_leb _ _ Hbc)]; exact I. }
  unfold String.le, String.leb in Hle.
  destruct (String.compare a c) eqn:E; [|reflexivity|destruct Hle].
  apply String.compare_eq_iff in E. subst c.
  rewrite String.compare_antisym, Hab in Hbc. discriminate.
Qed.

Lemma four_digit_order j k :
  0 <= j -> j < k -> k <= 9999 ->
  String.compare (Py.format_0d 4 j) (Py.format_0d 4 k) = Lt.
Proof.
  intros Hj Hjk Hk.
  replace k with (j + 1 + Z.of_nat (Z.to_nat (k - j - 1))) in * by lia.
  induction (Z.to_nat (k - j - 1)) as [|n IH].
  - rewrite Z.add_0_r. apply four_digit_facts; lia.
  - eapply compare_lt_trans; [apply IH; lia|].
    replace (j + 1 + Z.of_nat (S n)) with (j + 1 + Z.of_nat n + 1) by lia.
    apply four_digit_facts; lia.
Qed.

Lemma compare_common_prefix p a b :
  String.compare (p +:+ a) (p +:+ b) = String.compare a b.
Proof.
  induction p as [|c p IH]; simpl; [reflexivity|].
  unfold Ascii.compare. rewrite N.compare_refl. exact IH.
Qed.

Lemma startswith_append p x : Py.startswith (p +:+ x) p = true.
Proof.
  unfold Py.startswith. induction p as [|c p IH]; simpl.
  - destruct x; reflexivity.
  - destruct (ascii_dec c c); [exact IH|contradiction].
Qed.

Lemma split_nonempty sep s : Py.split sep s <> [].
Proof.
  destruct s as [|c s]; simpl; [discriminate|].
  destruct (Ascii.eqb c sep); [discriminate|].
  destruct (Py.split sep s); discriminate.
Qed.

Lemma last_split_cons sep c s :
  (exists seg rest, Py.split sep s = seg :: rest /\ rest <> []) \/ Ascii.eqb c sep = true ->
  List.last (Py.split sep (String c s)) "" = List.last (Py.split sep s) "".
Proof.
  intros H. simpl. destruct (Ascii.eqb c sep) eqn:E.
  - pose proof (split_nonempty sep s) as Hne.
    destruct (Py.split sep s); [contradiction|reflexivity].
  - destruct H as [(seg & rest & -> & Hrest)|H]; [|discriminate].
    destruct rest; [contradiction|reflexivity].
Qed.

Lemma split_after_sep sep a b :
  exists seg rest,
    Py.split sep (a +:+ String sep b) = seg :: rest /\ rest <> []
    /\ List.last (Py.split sep (a +:+ String sep b)) "" = List.last (Py.split sep b) "".
Proof.
  induction a as [|c a (seg & rest & Hsplit & Hrest & Hlast)].
  - change ("" +:+ String sep b) with (String sep b). simpl.
    rewrite Ascii.eqb_refl. pose proof (split_nonempty sep b) as Hne.
    eexists _, _. split; [reflexivity|]. split; [exact Hne|].
    destruct (Py.split sep b); [contradiction|reflexivity].
  - change (String c a +:+ String sep b) with (String c (a +:+ String sep b)).
    rewrite last_split_cons by (left; eauto). rewrite Hlast.
    simpl. destruct (Ascii.eqb c sep).
    + eexists _, _. split; [reflexivity|]. split; [|reflexivity].
      rewrite Hsplit. discriminate.
    + rewrite Hsplit. eexists _, _. split; [reflexivity|]. split; [exact Hrest|].
      reflexivity.
Qed.

Lemma number_of_split date_str k :
  number_of date_str k = ("TXN-" +:+ date_str) +:+ String "-" (Py.format_0d 4 k).
Proof.
  unfold number_of. generalize (Py.format_0d 4 k). intros t.
  change ("-" +:+ t) with (String "-" t).
  induction date_str as [|c d IH]; [reflexivity|].
  change ("TXN-" +:+ String c d +:+ String "-" t)
    with (String "T" (String "X" (String "N" (String "-"
            (String c (d +:+ String "-" t)))))).
  change (("TXN-" +:+ String c d) +:+ String "-" t)
    with (String "T" (String "X" (String "N" (String "-"
            (String c (d +:+ String "-" t)))))).
  reflexivity.
Qed.

Lemma sequence_of_number_of date_str k :
  0 <= k <= 10000 -> sequence_of (number_of date_str k) = Some k.
Proof.
  intros Hk. unfold sequence_of. rewrite number_of_split.
  destruct (split_after_sep "-" ("TXN-" +:+ date_str) (Py.format_0d 4 k))
    as (_ & _ & _ & _ & ->).
  destruct (four_digit_facts k Hk) as (-> & Hint & _). exact Hint.
Qed.

Lemma number_of_order date_str j k :
  0 <= j -> j < k -> k <= 9999 ->
  String.compare (number_of date_str j) (number_of date_str k) = Lt.
Proof.
  intros Hj Hjk Hk. rewrite !number_of_split, compare_common_prefix.
  change (String "-" ?t) with ("-" +:+ t).
  rewrite (compare_common_prefix "-"). now apply four_digit_order.
Qed.

Lemma startswith_number_of date_str k :
  Py.startswith (number_of date_str k) ("TXN-" +:+ date_str) = true.
Proof. rewrite number_of_split. apply startswith_append. Qed.

Lemma first_by_number_desc_greatest rows r0 :
  In r0 rows ->
  exists m,
    first_by_number_desc rows = Some m /\ In m rows
    /\ forall r, In r rows ->
         String.le (SalesTransaction.transaction_number r)
                   (SalesTransaction.transaction_number m).
Proof.
  revert r0. induction rows as [|x rows IH]; intros r0 Hin; [destruct Hin|].
  simpl. destruct rows as [|y rows].
  - exists x. simpl. split; [reflexivity|]. split; [now left|].
    intros r [<-|[]]. reflexivity.
  - destruct (IH y (or_introl eq_refl)) as (b & Hb & Hbin & Hmax).
    rewrite Hb.
    destruct (String.ltb (SalesTransaction.transaction_number x)
                         (SalesTransaction.transaction_number b)) eqn:E.
    + exists b. split; [reflexivity|]. split; [now right|].
      intros r [<-|Hr]; [|now apply Hmax].
      unfold String.ltb in E. unfold String.le, String.leb.
      destruct (String.compare _ _); try discriminate. exact I.
    + exists x. split; [reflexivity|]. split; [now left|].
      assert (Hbx : String.le (SalesTransaction.transaction_number b)
                              (SalesTransaction.transaction_number x)).
      { unfold String.ltb in E. unfold String.le, String.leb.
        rewrite String.compare_antisym.
        destruct (String.compare _ _); try discriminate; exact I. }
      intros r [<-|Hr]; [reflexivity|].
      transitivity (SalesTransaction.transaction_number b); [now apply Hmax|exact Hbx].
Qed.

Lemma fold_max_greatest xs k :
  0 <= k -> In k xs -> (forall x, In x xs -> x <= k) ->
  fold_right Z.max 0 xs = k.
Proof.
  intros Hk Hin Hmax.
  assert (Hle : fold_right Z.max 0 xs <= k).
  { clear Hin. induction xs as [|x xs IH]; simpl; [lia|].
    specialize (Hmax x (or_introl eq_refl)) as Hx.
    assert (fold_right Z.max 0 xs <= k) by (apply IH; intros; apply Hmax; now right).
    lia. }
  assert (Hge : k <= fold_right Z.max 0 xs).
  { clear Hmax Hle. induction xs as [|x xs IH]; simpl; [destruct Hin|].
    destruct Hin as [->|Hin]; [lia|]. specialize (IH Hin). lia. }
  lia.
Qed.

Lemma number_of_le_sequence date_str j k :
  1 <= j <= 9999 -> 1 <= k <= 9999 ->
  String.le (number_of date_str j) (number_of date_str k) -> j <= k.
Proof.
  intros Hj Hk Hle. destruct (Z.le_gt_cases j k) as [H|H]; [exact H|].
  exfalso. pose proof (number_of_order date_str k j) as Hlt.
  unfold String.le, String.leb in Hle.
  rewrite String.compare_antisym, Hlt in Hle by lia. exact Hle.
Qed.

(** Within a day whose sequences have at most four digits, the generated
    number is the greatest sequence of the day plus one, padded to four
    digits. *)
Lemma generate_transaction_number_next now s :
  four_digit_day now s ->
  generate_transaction_number now s
  = (Return (number_of (strftime_Ymd now) (max_sequence now s + 1)), s).
Proof.
  intros Hday. unfold generate_transaction_number.
  unfold bind at 1. unfold gets at 1. fold (todays now s).
  unfold four_digit_day in Hday. rewrite List.Forall_forall in Hday.
  unfold max_sequence.
  destruct (todays now s) as [|r0 rows] eqn:Et; [reflexivity|].
  destruct (first_by_number_desc_greatest (r0 :: rows) r0 (or_introl eq_refl))
    as (m & -> & Hm & Hmax).
  destruct (Hday m Hm) as (km & Hkm & Hnum).
  assert (Hseq : sequence_of (SalesTransaction.transaction_number m) = Some km)
    by (rewrite Hnum; apply sequence_of_number_of; lia).
  unfold sequence_of in Hseq. unfold bind at 1. rewrite Hseq.
  unfold ret at 1. unfold ret.
  replace (fold_right Z.max 0 _) with km; [reflexivity|].
  symmetry. apply fold_max_greatest; [lia| |].
  - apply list_elem_of_In, list_elem_of_omap. exists m.
    split; [now apply list_elem_of_In|]. unfold sequence_of. exact Hseq.
  - intros x Hx. apply list_elem_of_In, list_elem_of_omap in Hx as (r & Hr & Hx).
    apply list_elem_of_In in Hr.
    destruct (Hday r Hr) as (kr & Hkr & Hnumr).
    rewrite Hnumr, sequence_of_number_of in Hx by lia. inversion Hx; subst x.
    apply (number_of_le_sequence (strftime_Ymd now)); [lia|lia|].
    rewrite <- Hnum, <- Hnumr. now apply Hmax.
Qed.

Lemma fold_max_ge xs x : In x xs -> x <= fold_right Z.max 0 xs.
Proof.
  induction xs as [|y xs IH]; simpl; [tauto|].
  intros [->|Hin]; [lia|]. specialize (IH Hin). lia.
Qed.

Lemma todays_sequence_bound now s r :
  four_digit_day now s -> In r (todays now s) ->
  exists k, 1 <= k <= 9999 /\ k <= max_sequence now s
            /\ SalesTransaction.transaction_number r
               = number_of (strftime_Ymd now) k.
Proof.
  intros Hday Hr. unfold four_digit_day in Hday. rewrite List.Forall_forall in Hday.
  destruct (Hday r Hr) as (k & Hk & Hnum). exists k. repeat split; try lia; [|exact Hnum].
  unfold max_sequence. apply fold_max_ge.
  apply list_elem_of_In, list_elem_of_omap. exists r.
  split; [now apply list_elem_of_In|].
  rewrite Hnum. apply sequence_of_number_of. lia.
Qed.

Lemma max_sequence_bounds now s :
  four_digit_day now s -> 0 <= max_sequence now s <= 9999.
Proof.
  intros Hday. unfold max_sequence.
  assert (H : forall x,
             In x (omap (fun r => sequence_of (SalesTransaction.transaction_number r))
                        (todays now s)) -> 0 <= x <= 9999).
  { intros x Hx. apply list_elem_of_In, list_elem_of_omap in Hx as (r & Hr & Hx).
    apply list_elem_of_In in Hr.
    destruct (todays_sequence_bound now s r Hday Hr) as (k & Hk & _ & Hnum).
    rewrite Hnum, sequence_of_number_of in Hx by lia. inversion Hx. lia. }
  induction (omap _ (todays now s)) as [|x xs IH]; simpl; [lia|].
  pose proof (H x (or_introl eq_refl)).
  assert (0 <= fold_right Z.max 0 xs <= 9999) by (apply IH; intros; apply H; now right).
  lia.
Qed.

(** The generated number is new: no stored transaction has it. *)
Lemma generated_number_unused now s r :
  four_digit_day now s -> In r (sales_transactions s) ->
  SalesTransaction.transaction_number r
  <> number_of (strftime_Ymd now) (max_sequence now s + 1).
Proof.
  intros Hday Hr Heq.
  pose proof (max_sequence_bounds now s Hday) as Hb.
  assert (Ht : In r (todays now s)).
  { apply List.filter_In. split; [exact Hr|]. rewrite Heq.
    apply startswith_number_of. }
  destruct (todays_sequence_bound now s r Hday Ht) as (k & Hk & Hle & Hnum).
  rewrite Hnum in Heq. apply (f_equal sequence_of) in Heq.
  rewrite !sequence_of_number_of in Heq by lia. inversion Heq. lia.
Qed.

(** Numbering while the sequences of the day have at most four digits: the
    generated number is TXN-<date>-<greatest sequence + 1, zero padded to
    four digits>, it is TXN-<date>-0001 on a day without transactions, no
    stored transaction has it, and its sequence is above every sequence of
    the day. *)
Lemma transaction_numbers_within_a_day now s :
  four_digit_day now s ->
  let number := number_of (strftime_Ymd now) (max_sequence now s + 1) in
  generate_transaction_number now s = (Return number, s)
  /\ (todays now s = [] -> number = "TXN-" +:+ strftime_Ymd now +:+ "-0001")
  /\ (forall r, In r (sales_transactions s) ->
                SalesTransaction.transaction_number r <> number)
  /\ sequence_of number = Some (max_sequence now s + 1)
  /\ (forall r k, In r (todays now s) ->
                  sequence_of (SalesTransaction.transaction_number r) = Some k ->
                  k < max_sequence now s + 1).
Proof.
  intros Hday number. pose proof (max_sequence_bounds now s Hday) as Hb.
  split; [now apply generate_transaction_number_next|].
  split; [intros Ht; subst number; unfold max_sequence; rewrite Ht; reflexivity|].
  split; [intros r Hr; now apply generated_number_unused|].
  split; [apply sequence_of_number_of; lia|].
  intros r k Hr Hk.
  destruct (todays_sequence_bound now s r Hday Hr) as (k' & Hk' & Hle & Hnum).
  rewrite Hnum, sequence_of_number_of in Hk by lia. inversion Hk. lia.
Qed.

(** Saving a new transaction within such a day. *)
Lemma SalesTransaction_save_fresh now s :
  four_digit_day now s ->
  let row :=
    set_saved (Some (next_pk (omap SalesTransaction.id (sales_transactions s))))
      (Some now) (Some now)
      (set_transaction_number
         (number_of (strftime_Ymd now) (max_sequence now s + 1)) fresh_transaction) in
  SalesTransaction_save now fresh_transaction s = (Return row, insert_header row s).
Proof.
  intros Hday row. unfold SalesTransaction_save.
  change (String.eqb (SalesTransaction.transaction_number fresh_transaction) "")
    with true. cbv iota.
  unfold bind at 1. unfold bind at 1.
  rewrite (generate_transaction_number_next now s Hday).
  unfold ret at 1. unfold Model_save. unfold bind at 1. unfold gets at 1.
  cbn [SalesTransaction.id SalesTransaction.transaction_number
       set_transaction_number fresh_transaction new_transaction].
  assert (Hnew : existsb
                   (fun r => String.eqb (SalesTransaction.transaction_number r)
                               (number_of (strftime_Ymd now) (max_sequence now s + 1)))
                   (sales_transactions s) = false).
  { apply not_true_is_false. intros H. apply existsb_exists in H as (r & Hr & E).
    apply String.eqb_eq in E. exact (generated_number_unused now s r Hday Hr E). }
  rewrite Hnew. reflexivity.
Qed.

(** *** A day of sequential creations *)

Lemma first_sequences_S n :
  first_sequences (S n) = first_sequences n ++ [Z.of_nat n + 1].
Proof.
  unfold first_sequences. rewrite seq_S, map_app. simpl. do 2 f_equal. lia.
Qed.

Lemma In_first_sequences n k : In k (first_sequences n) <-> 1 <= k <= Z.of_nat n.
Proof.
  unfold first_sequences. rewrite in_map_iff. split.
  - intros (i & <- & Hi). apply in_seq in Hi. lia.
  - intros Hk. exists (Z.to_nat k). split; [lia|]. apply in_seq. lia.
Qed.

Lemma fold_max_first_sequences n :
  fold_right Z.max 0 (first_sequences n) = Z.of_nat n.
Proof.
  destruct n as [|n]; [reflexivity|].
  apply fold_max_greatest; [lia| |].
  - apply In_first_sequences. lia.
  - intros x Hx. apply In_first_sequences in Hx. lia.
Qed.

Lemma omap_sequence_of date_str rows ks :
  Forall (fun k => 0 <= k <= 10000) ks ->
  map SalesTransaction.transaction_number rows = map (number_of date_str) ks ->
  omap (fun r => sequence_of (SalesTransaction.transaction_number r)) rows = ks.
Proof.
  intros Hks. revert rows. induction Hks as [|k ks Hk _ IH]; intros rows Hmap.
  - destruct rows; [reflexivity|discriminate].
  - destruct rows as [|r rows]; [discriminate|]. simpl in Hmap.
    inversion Hmap as [[Hr Hrows]]. simpl.
    rewrite Hr, sequence_of_number_of by exact Hk. f_equal. now apply IH.
Qed.

Lemma numbered_day now s n :
  Z.of_nat n <= 10000 ->
  map SalesTransaction.transaction_number (todays now s)
  = map (number_of (strftime_Ymd now)) (first_sequences n) ->
  max_sequence now s = Z.of_nat n
  /\ (Z.of_nat n <= 9999 -> four_digit_day now s).
Proof.
  intros Hn Hmap. split.
  - unfold max_sequence.
    rewrite (omap_sequence_of (strftime_Ymd now) _ (first_sequences n)); [| |exact Hmap].
    + apply fold_max_first_sequences.
    + apply List.Forall_forall. intros k Hk. apply In_first_sequences in Hk. lia.
  - intros Hn'. unfold four_digit_day. apply List.Forall_forall. intros r Hr.
    assert (In (SalesTransaction.transaction_number r)
               (map (number_of (strftime_Ymd now)) (first_sequences n))) as Hin
      by (rewrite <- Hmap; now apply in_map).
    apply in_map_iff in Hin as (k & Hk & Hin). apply In_first_sequences in Hin.
    exists k. split; [lia|now symmetry].
Qed.

Lemma todays_insert_header now row s :
  Py.startswith (SalesTransaction.transaction_number row)
    ("TXN-" +:+ strftime_Ymd now) = true ->
  todays now (insert_header row s) = todays now s ++ [row].
Proof.
  intros H. unfold todays, insert_header. simpl.
  rewrite List.filter_app. simpl. now rewrite H.
Qed.

(** [n] sequential creations on a day that had none give the numbers
    0001, 0002, ... in this order, up to 10000. *)
Lemma history_numbers now s n :
  todays now s = [] ->
  Z.of_nat n <= 10000 ->
  map SalesTransaction.transaction_number (todays now (history now n s))
  = map (number_of (strftime_Ymd now)) (first_sequences n).
Proof.
  intros Hs. induction n as [|n IH]; intros Hn.
  - simpl. now rewrite Hs.
  - cbn [history]. specialize (IH ltac:(lia)).
    destruct (numbered_day now (history now n s) n ltac:(lia) IH) as (Hmax & Hday).
    specialize (Hday ltac:(lia)).
    rewrite (SalesTransaction_save_fresh now _ Hday). cbv zeta. simpl snd.
    rewrite todays_insert_header by apply startswith_number_of.
    rewrite map_app, IH, first_sequences_S, map_app, Hmax. reflexivity.
Qed.

Lemma ten_thousand_before_9999 :
  String.compare (Py.format_0d 4 10000) (Py.format_0d 4 9999) = Lt.
Proof. vm_compute. reflexivity. Qed.

(** C2. The claim fails at the ten-thousand-and-first creation of a day.
    After 10000
    sequential creations on a day that had no transaction, the day holds
    the numbers 0001 to 10000 and its greatest sequence is 10000; the
    number generated next is again TXN-<date>-10000, not the greatest
    sequence plus one: in string order 9999 comes last.  That number is
    taken, so the save raises [IntegrityError] and writes nothing. *)
Theorem C2_number_repeats_after_ten_thousand
    (now : DateTime) (s : Store) (n : nat) :
  todays now s = [] ->
  Z.of_nat n = 10000 ->
  let full := history now n s in
  map SalesTransaction.transaction_number (todays now full)
    = map (number_of (strftime_Ymd now)) (first_sequences n)
  /\ max_sequence now full = 10000
  /\ generate_transaction_number now full
     = (Return (number_of (strftime_Ymd now) 10000), full)
  /\ number_of (strftime_Ymd now) 10000
     <> number_of (strftime_Ymd now) (max_sequence now full + 1)
  /\ In (number_of (strftime_Ymd now) 10000)
        (map SalesTransaction.transaction_number (sales_transactions full))
  /\ SalesTransaction_save now fresh_transaction full = (Raise IntegrityError, full).
Proof.
  intros Hs Hn full.
  pose proof (history_numbers now s n Hs ltac:(lia)) as Hnum.
  fold full in Hnum.
  destruct (numbered_day now full n ltac:(lia) Hnum) as (Hmax & _).
  rewrite Hn in Hmax.
  assert (Hin : forall k, 1 <= k <= 10000 ->
                  exists r, In r (todays now full)
                            /\ SalesTransaction.transaction_number r
                               = number_of (strftime_Ymd now) k).
  { intros k Hk.
    assert (In (number_of (strftime_Ymd now) k)
               (map SalesTransaction.transaction_number (todays now full))) as H.
    { rewrite Hnum. apply in_map, In_first_sequences. lia. }
    apply in_map_iff in H as (r & Hr & H). eauto. }
  assert (Hall : forall r, In r (todays now full) ->
                   String.le (SalesTransaction.transaction_number r)
                             (number_of (strftime_Ymd now) 9999)).
  { intros r Hr.
    assert (In (SalesTransaction.transaction_number r)
               (map (number_of (strftime_Ymd now)) (first_sequences n)))
      as H by (rewrite <- Hnum; now apply in_map).
    apply in_map_iff in H as (k & <- & Hk). apply In_first_sequences in Hk.
    destruct (Z.lt_trichotomy k 9999) as [Hlt|[->|Hgt]].
    - unfold String.le, String.leb. rewrite number_of_order by lia. exact I.
    - reflexivity.
    - replace k with 10000 by lia. unfold String.le, String.leb.
      rewrite !number_of_split, compare_common_prefix.
      change (String "-" ?t) with ("-" +:+ t).
      rewrite (compare_common_prefix "-"), ten_thousand_before_9999. exact I. }
  assert (Hgen : generate_transaction_number now full
                 = (Return (number_of (strftime_Ymd now) 10000), full)).
  { unfold generate_transaction_number.
    unfold bind at 1. unfold gets at 1. fold (todays now full).
    destruct (Hin 9999 ltac:(lia)) as (r9999 & Hr & Hn9999).
    destruct (first_by_number_desc_greatest (todays now full) r9999 Hr)
      as (m & -> & Hm & Hge).
    assert (Hmnum : SalesTransaction.transaction_number m
                    = number_of (strftime_Ymd now) 9999).
    { apply (anti_symm String.le); [now apply Hall|].
      rewrite <- Hn9999. now apply Hge. }
    unfold bind at 1.
    fold (sequence_of (SalesTransaction.transaction_number m)).
    rewrite Hmnum, sequence_of_number_of by lia. reflexivity. }
  split; [exact Hnum|]. split; [exact Hmax|]. split; [exact Hgen|].
  destruct (Hin 10000 ltac:(lia)) as (r & Hr & Hrnum).
  assert (Hstored : In r (sales_transactions full))
    by (apply List.filter_In in Hr; tauto).
  split.
  { rewrite Hmax. intros H. rewrite !number_of_split in H.
    apply (inj (String.app _)) in H. revert H. vm_compute. discriminate. }
  split; [rewrite <- Hrnum; now apply in_map|].
  unfold SalesTransaction_save.
  change (String.eqb (SalesTransaction.transaction_number fresh_transaction) "")
    with true. cbv iota.
  unfold bind at 1. unfold bind at 1. rewrite Hgen.
  unfold ret at 1. unfold Model_save. unfold bind at 1. unfold gets at 1.
  cbn [SalesTransaction.id SalesTransaction.transaction_number
       set_transaction_number fresh_transaction new_transaction].
  assert (Hdup : existsb
                   (fun r => String.eqb (SalesTransaction.transaction_number r)
                               (number_of (strftime_Ymd now) 10000))
                   (sales_transactions full) = true).
  { apply existsb_exists. exists r. split; [exact Hstored|]. now apply String.eqb_eq. }
  rewrite Hdup. reflexivity.
Qed.

(** ** Completion and voiding of a stored transaction *)

Lemma record_all_products mvs s :
  products (record_all mvs s) = apply_movements mvs (products s).
Proof.
  revert s. induction mvs as [|mv mvs IH]; intros s; simpl; [reflexivity|].
  unfold record_all in *. simpl. now rewrite IH.
Qed.

(** X1. [complete_transaction] on a stored transaction whose status is not
    COMPLETED (PENDING, but VOID and REFUNDED as well: the method has no
    other guard) appends to the ledger exactly one movement per item, in
    item order; each is of type SALE, is for the item's product and
    quantity, carries the transaction number as reference and the
    transaction's key and creator.  The product table is the one the
    inventory application makes of these movements, the instance and its
    stored row are COMPLETED with the completion time, and the items are
    untouched. *)
Theorem complete_transaction_emits_sales
    (now : DateTime) (self : SalesTransaction.t) (s : Store) (pk : Pk) :
  In self (sales_transactions s) ->
  NoDup (map SalesTransaction.transaction_number (sales_transactions s)) ->
  SalesTransaction.id self = Some pk ->
  SalesTransaction.transaction_number self <> "" ->
  SalesTransaction.status self <> COMPLETED ->
  let items := items_all pk s in
  let emitted := map (sale_movement (set_completed now self)) items in
  exists self' s',
    complete_transaction now self s = (Return self', s')
    /\ inventory_movements s' = inventory_movements s ++ emitted
    /\ Forall2 (fun item mv =>
                  InventoryMovement.movement_type mv = SALE
                  /\ InventoryMovement.product mv = TransactionItem.product item
                  /\ InventoryMovement.quantity mv = TransactionItem.quantity item
                  /\ InventoryMovement.reference_number mv
                     = SalesTransaction.transaction_number self
                  /\ InventoryMovement.transaction_id mv = Some pk
                  /\ InventoryMovement.created_by mv = SalesTransaction.created_by self)
               items emitted
    /\ products s' = apply_movements emitted (products s)
    /\ SalesTransaction.status self' = COMPLETED
    /\ SalesTransaction.completed_at self' = Some now
    /\ SalesTransaction.transaction_number self'
       = SalesTransaction.transaction_number self
    /\ In self' (sales_transactions s')
    /\ length (sales_transactions s') = length (sales_transactions s)
    /\ transaction_items s' = transaction_items s.
Proof.
  intros Hin Hnd Hid Hne Hst items emitted.
  set (completed := set_completed now self) in *.
  exists (updated_row now completed pk),
         (overwrite pk (updated_row now completed pk) (record_all emitted s)).
  assert (Hrun : complete_transaction now self s
                 = (Return (updated_row now completed pk),
                    overwrite pk (updated_row now completed pk) (record_all emitted s))).
  { unfold complete_transaction.
    rewrite bool_decide_eq_false_2 by exact Hst.
    fold completed. unfold self_items.
    replace (SalesTransaction.id completed) with (Some pk) by (symmetry; exact Hid).
    unfold bind at 1. unfold gets at 1. unfold bind at 1.
    rewrite for_each_movements. fold items. fold emitted.
    apply (SalesTransaction_save_stored now completed self pk).
    - now rewrite record_all_sales_transactions.
    - now rewrite record_all_sales_transactions.
    - exact Hid.
    - exact Hid.
    - reflexivity.
    - exact Hne. }
  split; [exact Hrun|].
  split; [simpl; apply record_all_movements|].
  split.
  { subst emitted. generalize items. intros l.
    induction l as [|i l IH]; simpl; constructor; [|exact IH].
    repeat split; try reflexivity. simpl. exact Hid. }
  split; [simpl; apply record_all_products|].
  repeat (split; [reflexivity|]).
  split; [|split].
  - simpl. rewrite record_all_sales_transactions. eapply In_overwrite; eauto.
  - simpl. rewrite length_map, record_all_sales_transactions. reflexivity.
  - simpl. apply record_all_transaction_items.
Qed.

(** X2. [void_transaction] on a stored transaction that is neither VOID nor
    COMPLETED (PENDING or REFUNDED) restores nothing: the ledger of
    inventory movements and the product table are the same; only the
    transaction's row changes, to VOID with the voiding user, the time and
    the reason. *)
Theorem void_transaction_not_completed
    (now : DateTime) (self : SalesTransaction.t) (user : Pk) (reason : string)
    (s : Store) (pk : Pk) :
  In self (sales_transactions s) ->
  NoDup (map SalesTransaction.transaction_number (sales_transactions s)) ->
  SalesTransaction.id self = Some pk ->
  SalesTransaction.transaction_number self <> "" ->
  SalesTransaction.status self = PENDING \/ SalesTransaction.status self = REFUNDED ->
  exists self' s',
    void_transaction now self user reason s = (Return self', s')
    /\ inventory_movements s' = inventory_movements s
    /\ products s' = products s
    /\ transaction_items s' = transaction_items s
    /\ SalesTransaction.status self' = VOID
    /\ SalesTransaction.voided_by self' = Some user
    /\ SalesTransaction.voided_at self' = Some now
    /\ SalesTransaction.void_reason self' = reason
    /\ In self' (sales_transactions s')
    /\ forall r, In r (sales_transactions s') ->
                 r = self' \/ (In r (sales_transactions s)
                               /\ SalesTransaction.id r <> Some pk).
Proof.
  intros Hin Hnd Hid Hne Hst.
  set (voided := set_voided user now reason self).
  exists (updated_row now voided pk), (overwrite pk (updated_row now voided pk) s).
  assert (Hrun : void_transaction now self user reason s
                 = (Return (updated_row now voided pk),
                    overwrite pk (updated_row now voided pk) s)).
  { unfold void_transaction.
    rewrite bool_decide_eq_false_2 by (destruct Hst as [-> | ->]; discriminate).
    rewrite bool_decide_eq_false_2 by (destruct Hst as [-> | ->]; discriminate).
    unfold bind at 1. unfold ret at 1.
    apply (SalesTransaction_save_stored now voided self pk); auto. }
  split; [exact Hrun|].
  repeat (split; [reflexivity|]).
  split.
  - simpl. eapply In_overwrite; eauto.
  - intros r Hr. simpl in Hr. apply in_map_iff in Hr as (r0 & Hr0 & Hin0).
    destruct (has_pk pk r0) eqn:E.
    + left. now symmetry.
    + right. subst r0. split; [exact Hin0|].
      unfold has_pk in E. now apply bool_decide_eq_false_1 in E.
Qed.

(** ** Creation: when it succeeds and what it appends *)

Lemma SalesTransaction_save_new now self s :
  four_digit_day now s ->
  SalesTransaction.id self = None ->
  SalesTransaction.transaction_number self = "" ->
  let row :=
    set_saved (Some (next_pk (omap SalesTransaction.id (sales_transactions s))))
      (Some now) (Some now)
      (set_transaction_number
         (number_of (strftime_Ymd now) (max_sequence now s + 1)) self) in
  SalesTransaction_save now self s = (Return row, insert_header row s).
Proof.
  intros Hday Hid Hnum row. unfold SalesTransaction_save.
  rewrite Hnum. change (String.eqb "" "") with true. cbv iota.
  unfold bind at 1. unfold bind at 1.
  rewrite (generate_transaction_number_next now s Hday).
  unfold ret at 1. unfold Model_save. unfold bind at 1. unfold gets at 1.
  cbn [SalesTransaction.id SalesTransaction.transaction_number
       set_transaction_number].
  rewrite Hid.
  assert (Hnew : existsb
                   (fun r => String.eqb (SalesTransaction.transaction_number r)
                               (number_of (strftime_Ymd now) (max_sequence now s + 1)))
                   (sales_transactions s) = false).
  { apply not_true_is_false. intros H. apply existsb_exists in H as (r & Hr & E).
    apply String.eqb_eq in E. exact (generated_number_unused now s r Hday Hr E). }
  rewrite Hnew. reflexivity.
Qed.

(** [createTransaction] on a request that passes validation, step by
    step. *)
Lemma create_transaction_runs now user data s v :
  field_errors s data = [] ->
  to_internal_value data = Some v ->
  calculated_total v <= ValidatedData.amount_paid v ->
  four_digit_day now s ->
  let pk := next_pk (omap SalesTransaction.id (sales_transactions s)) in
  let number := number_of (strftime_Ymd now) (max_sequence now s + 1) in
  let header :=
    set_saved (Some pk) (Some now) (Some now)
      (set_transaction_number number
         (new_transaction user v (calculated_subtotal v) (calculated_total v))) in
  let s2 := insert_items pk (ValidatedData.items v) (insert_header header s) in
  let self := set_completed now header in
  let s3 := record_all (map (sale_movement self) (items_all pk s2)) s2 in
  let txn := updated_row now self pk in
  create_transaction now user data s = (Return txn, overwrite pk txn s3).
Proof.
  intros Hfe Htiv Hpaid Hday pk number header s2 self s3 txn.
  unfold create_transaction, is_valid.
  unfold bind at 1. unfold bind at 1. unfold gets at 1.
  rewrite Hfe, Htiv. unfold SalesTransactionCreateSerializer_validate.
  fold (calculated_subtotal v). fold (calculated_total v).
  apply Z.ltb_ge in Hpaid. rewrite Hpaid. unfold ret at 1.
  unfold SalesTransactionCreateSerializer_create, atomic.
  unfold bind at 1.
  rewrite (SalesTransaction_save_new now
             (new_transaction user v (calculated_subtotal v) (calculated_total v))
             s Hday eq_refl eq_refl).
  cbv zeta. fold pk. fold number. fold header.
  change (SalesTransaction.id header) with (Some pk). cbv iota beta.
  unfold bind at 1. rewrite for_each_items. fold s2.
  unfold complete_transaction.
  rewrite bool_decide_eq_false_2 by (simpl; discriminate).
  fold self. unfold self_items.
  change (SalesTransaction.id self) with (Some pk). cbv iota beta.
  unfold bind at 1. unfold gets at 1.
  unfold bind at 1. rewrite for_each_movements. fold s3.
  rewrite (SalesTransaction_save_update now self pk s3).
  - reflexivity.
  - reflexivity.
  - simpl. unfold number. rewrite number_of_split. discriminate.
  - intros r Hr Hnum. subst s3. rewrite record_all_sales_transactions in Hr.
    subst s2. rewrite insert_items_sales_transactions in Hr. simpl in Hr.
    apply in_app_or in Hr as [Hr|[<-|[]]]; [|reflexivity].
    exfalso. exact (generated_number_unused now s r Hday Hr Hnum).
  - exists header. split; [|reflexivity].
    subst s3. rewrite record_all_sales_transactions.
    subst s2. rewrite insert_items_sales_transactions. simpl.
    apply in_or_app. right. left. reflexivity.
Qed.

Lemma insert_items_audit_logs pk items s :
  audit_logs (insert_items pk items s) = audit_logs s.
Proof.
  revert s. induction items as [|d ds IH]; intros s; simpl; [reflexivity|].
  unfold insert_items in *. simpl. now rewrite IH.
Qed.

Lemma overwrite_fresh pk row rows header :
  pk = next_pk (omap SalesTransaction.id rows) ->
  SalesTransaction.id header = Some pk ->
  map (fun r => if has_pk pk r then row else r) (rows ++ [header]) = rows ++ [row].
Proof.
  intros Hpk Hid. rewrite map_app. simpl. f_equal.
  - rewrite <- (map_id rows) at 2. apply map_ext_in. intros r Hr.
    unfold has_pk. rewrite bool_decide_eq_false_2; [reflexivity|].
    intros Hk. assert (In pk (omap SalesTransaction.id rows)) as Hin.
    { apply In_omap_id. rewrite <- Hk. now apply in_map. }
    apply next_pk_above in Hin. lia.
  - unfold has_pk. now rewrite bool_decide_eq_true_2.
Qed.

Lemma sale_movements_of_lines txn pk existing items :
  Forall2 (fun d mv =>
             InventoryMovement.movement_type mv = SALE
             /\ InventoryMovement.product mv = ItemData.product d
             /\ InventoryMovement.quantity mv = ItemData.quantity d
             /\ InventoryMovement.reference_number mv
                = SalesTransaction.transaction_number txn)
          items (map (sale_movement txn) (inserted_rows pk existing items)).
Proof.
  revert existing. induction items as [|d ds IH]; intros ex; simpl; constructor;
    [|apply IH].
  repeat split; reflexivity.
Qed.

Lemma sale_movements_of_validated_lines txn pk existing items :
  Forall2 (fun d mv =>
             InventoryMovement.movement_type mv = SALE
             /\ InventoryMovement.product mv = ItemData.product d
             /\ InventoryMovement.quantity mv = ItemData.quantity d
             /\ InventoryMovement.reference_number mv
                = SalesTransaction.transaction_number txn)
          items
          (map (sale_movement txn)
             (inserted_rows pk existing (map item_internal_value items))).
Proof.
  revert existing. induction items as [|d ds IH]; intros ex; simpl; constructor;
    [|apply IH].
  repeat split; reflexivity.
Qed.

Lemma items_reference_transactions_created pk items header s row mvs :
  items_reference_transactions s ->
  SalesTransaction.id row = Some pk ->
  sales_transactions (overwrite pk row
                        (record_all mvs (insert_items pk items (insert_header header s))))
  = sales_transactions s ++ [row] ->
  items_reference_transactions
    (overwrite pk row (record_all mvs (insert_items pk items (insert_header header s)))).
Proof.
  intros Hfk Hid Hrows. unfold items_reference_transactions. rewrite Hrows.
  simpl. rewrite record_all_transaction_items, insert_items_rows. simpl.
  apply Forall_app. split.
  - eapply List.Forall_impl; [|exact Hfk]. intros i Hi. simpl in Hi.
    rewrite map_app. apply in_or_app. now left.
  - eapply List.Forall_impl; [|apply inserted_rows_transaction].
    intros i Hi. simpl in Hi. rewrite Hi, map_app. apply in_or_app. right.
    simpl. left. exact Hid.
Qed.

(** The tables after a creation that returned. *)
Lemma create_transaction_tables now user data s txn s' :
  items_reference_transactions s ->
  create_transaction now user data s = (Return txn, s') ->
  let pk := next_pk (omap SalesTransaction.id (sales_transactions s)) in
  let rows := inserted_rows pk (transaction_items s) (map item_internal_value (TransactionData.items data)) in
  let emitted := map (sale_movement txn) rows in
  SalesTransaction.id txn = Some pk
  /\ sales_transactions s' = sales_transactions s ++ [txn]
  /\ transaction_items s' = transaction_items s ++ rows
  /\ items_all pk s' = rows
  /\ inventory_movements s' = inventory_movements s ++ emitted
  /\ products s' = apply_movements emitted (products s)
  /\ carts s' = carts s /\ cart_items s' = cart_items s
  /\ audit_logs s' = audit_logs s
  /\ items_reference_transactions s'.
Proof.
  intros Hfk Hrun pk rows emitted.
  apply create_transaction_returns in Hrun
    as (v & number & _ & Htiv & _ & _ & _ & Hshape).
  cbv zeta in Hshape. fold pk in Hshape. destruct Hshape as (Htxn & Hs').
  destruct (to_internal_value_amounts _ _ Htiv) as (_ & _ & Hitems).
  rewrite Hitems in *.
  set (header := set_saved (Some pk) (Some now) (Some now) _) in *.
  set (self := set_completed now header) in *.
  set (s2 := insert_items pk (map item_internal_value (TransactionData.items data)) (insert_header header s)) in *.
  assert (Hall : items_all pk s2 = rows).
  { unfold items_all, s2. rewrite insert_items_rows. simpl.
    rewrite List.filter_app, (List_filter_none _ (transaction_items s)).
    - rewrite List_filter_every; [reflexivity|].
      eapply List.Forall_impl; [|apply inserted_rows_transaction].
      intros r ->. apply Z.eqb_refl.
    - eapply List.Forall_impl; [|exact Hfk]. intros i Hi. simpl in Hi.
      apply In_omap_id, next_pk_above in Hi. apply Z.eqb_neq. fold pk. lia. }
  rewrite Hall in Hs'.
  assert (Hmv : map (sale_movement self) rows = emitted).
  { unfold emitted. apply map_ext. intros i. subst txn. reflexivity. }
  rewrite Hmv in Hs'.
  assert (Hid : SalesTransaction.id txn = Some pk) by (subst txn; reflexivity).
  assert (Hrows : sales_transactions s' = sales_transactions s ++ [txn]).
  { subst s'. simpl. rewrite record_all_sales_transactions.
    unfold s2. rewrite insert_items_sales_transactions. simpl.
    apply (overwrite_fresh pk txn (sales_transactions s) header); reflexivity. }
  split; [exact Hid|]. split; [exact Hrows|].
  split.
  { subst s'. simpl. rewrite record_all_transaction_items. unfold s2.
    rewrite insert_items_rows. reflexivity. }
  split.
  { subst s'. apply items_all_created; [exact Hfk|reflexivity]. }
  split.
  { subst s'. simpl. rewrite record_all_movements. unfold s2.
    destruct (insert_items_rest pk (map item_internal_value (TransactionData.items data)) (insert_header header s))
      as (-> & _). reflexivity. }
  split.
  { subst s'. simpl. rewrite record_all_products. unfold s2.
    destruct (insert_items_rest pk (map item_internal_value (TransactionData.items data)) (insert_header header s))
      as (_ & _ & _ & ->). reflexivity. }
  destruct (record_all_carts emitted s2) as (Hc & Hci & Ha).
  destruct (insert_items_rest pk (map item_internal_value (TransactionData.items data)) (insert_header header s))
    as (_ & Hc2 & Hci2 & _).
  split; [subst s'; simpl; rewrite Hc; unfold s2; rewrite Hc2; reflexivity|].
  split; [subst s'; simpl; rewrite Hci; unfold s2; rewrite Hci2; reflexivity|].
  split.
  { subst s'. simpl. rewrite Ha. unfold s2. now rewrite insert_items_audit_logs. }
  subst s'. apply items_reference_transactions_created; [exact Hfk|exact Hid|].
  exact Hrows.
Qed.

(** X3. [createTransaction] returns whenever the request passes field
    validation, the amount paid covers subtotal + tax − discount and the
    rows to write fit their columns (line totals, subtotal, total and
    change of at most ten digits, texts within their widths), on a day
    whose numbers so far have sequences of at most four digits.  The
    transaction it returns is COMPLETED, carries the day's next number, the
    requesting user, the amount paid, the total of the request and the
    change, and is the last row of the table. *)
Theorem create_transaction_succeeds
    (now : DateTime) (user : Pk) (data : TransactionData.t) (s : Store)
    (paid : Decimal) :
  field_errors s data = [] ->
  TransactionData.amount_paid data = Some paid ->
  request_total data <= paid ->
  storable data ->
  four_digit_day now s ->
  exists txn s',
    create_transaction now user data s = (Return txn, s')
    /\ SalesTransaction.status txn = COMPLETED
    /\ SalesTransaction.completed_at txn = Some now
    /\ SalesTransaction.transaction_number txn
       = number_of (strftime_Ymd now) (max_sequence now s + 1)
    /\ SalesTransaction.created_by txn = user
    /\ SalesTransaction.amount_paid txn = paid
    /\ SalesTransaction.total_amount txn = request_total data
    /\ SalesTransaction.change_amount txn = paid - request_total data
    /\ In txn (sales_transactions s').
Proof.
  intros Hfe Hpaid Hle _ Hday.
  destruct (field_errors_to_internal_value _ _ Hfe) as (v & Htiv).
  destruct (to_internal_value_amounts _ _ Htiv) as (Hp & Htotal & _).
  rewrite Hpaid in Hp. inversion Hp as [Hp']. clear Hp.
  assert (Hok : calculated_total v <= ValidatedData.amount_paid v)
    by (rewrite Htotal, <- Hp'; exact Hle).
  eexists _, _. split;
    [exact (create_transaction_runs now user data s v Hfe Htiv Hok Hday)|].
  cbn [SalesTransaction.status SalesTransaction.completed_at
       SalesTransaction.transaction_number SalesTransaction.created_by
       SalesTransaction.amount_paid SalesTransaction.total_amount
       SalesTransaction.change_amount updated_row set_saved set_completed
       set_transaction_number new_transaction].
  rewrite Htotal, <- Hp'. repeat (split; [reflexivity|]).
  simpl. rewrite record_all_sales_transactions, insert_items_sales_transactions.
  simpl. eapply In_overwrite; [apply in_or_app; right; left; reflexivity|].
  reflexivity.
Qed.

(** X4. A creation that returns only appends: the transaction is added at
    the end of its table and no stored transaction changes; the items
    added are the new transaction's items, one per line of the request;
    the ledger gains one SALE movement per line, in order, for the line's
    product and quantity and with the new number as reference; the product
    table is what the inventory application makes of these movements;
    carts are untouched; and stored items still reference stored
    transactions. *)
Theorem create_transaction_appends
    (now : DateTime) (user : Pk) (data : TransactionData.t) (s s' : Store)
    (txn : SalesTransaction.t) :
  items_reference_transactions s ->
  create_transaction now user data s = (Return txn, s') ->
  exists pk,
    SalesTransaction.id txn = Some pk
    /\ sales_transactions s' = sales_transactions s ++ [txn]
    /\ transaction_items s' = transaction_items s ++ items_all pk s'
    /\ items_all pk s = []
    /\ length (items_all pk s') = length (TransactionData.items data)
    /\ inventory_movements s'
       = inventory_movements s ++ map (sale_movement txn) (items_all pk s')
    /\ Forall2 (fun d mv =>
                  InventoryMovement.movement_type mv = SALE
                  /\ InventoryMovement.product mv = ItemData.product d
                  /\ InventoryMovement.quantity mv = ItemData.quantity d
                  /\ InventoryMovement.reference_number mv
                     = SalesTransaction.transaction_number txn)
               (TransactionData.items data)
               (map (sale_movement txn) (items_all pk s'))
    /\ products s'
       = apply_movements (map (sale_movement txn) (items_all pk s')) (products s)
    /\ carts s' = carts s /\ cart_items s' = cart_items s
    /\ items_reference_transactions s'.
Proof.
  intros Hfk Hrun.
  destruct (create_transaction_tables now user data s txn s' Hfk Hrun)
    as (Hid & Hrows & Hitems & Hall & Hmv & Hp & Hc & Hci & _ & Hfk').
  exists (next_pk (omap SalesTransaction.id (sales_transactions s))).
  rewrite Hall. repeat (split; [assumption|]).
  split.
  { unfold items_all. apply List_filter_none.
    eapply List.Forall_impl; [|exact Hfk]. intros i Hi. simpl in Hi.
    apply In_omap_id, next_pk_above in Hi. apply Z.eqb_neq. lia. }
  split.
  { pose proof (inserted_rows_data
                  (next_pk (omap SalesTransaction.id (sales_transactions s)))
                  (transaction_items s)
                  (map item_internal_value (TransactionData.items data))) as H.
    apply Forall2_length in H. rewrite length_map in H. now symmetry. }
  split; [exact Hmv|].
  split; [apply sale_movements_of_validated_lines|].
  repeat (split; [assumption|]). exact Hfk'.
Qed.

(** X5. Stock is checked line by line, never per product: a request with
    two lines for the same product, each within the product's stock but
    together above it, passes validation; when its rows fit their columns
    the creation returns and the ledger gains SALE movements for that
    product that take more units out of stock than the product had. *)
Theorem duplicate_lines_oversell
    (now : DateTime) (user : Pk) (data : TransactionData.t) (s : Store)
    (d1 d2 : ItemData.t) (product : Product.t) (paid : Decimal) :
  items_reference_transactions s ->
  four_digit_day now s ->
  field_errors s data = [] ->
  storable data ->
  TransactionData.items data = [d1; d2] ->
  ItemData.product d2 = ItemData.product d1 ->
  products s !! ItemData.product d1 = Some product ->
  Product.current_stock product < ItemData.quantity d1 + ItemData.quantity d2 ->
  TransactionData.amount_paid data = Some paid ->
  request_total data <= paid ->
  ItemData.quantity d1 <= Product.current_stock product
  /\ ItemData.quantity d2 <= Product.current_stock product
  /\ exists txn s' mv1 mv2,
       create_transaction now user data s = (Return txn, s')
       /\ inventory_movements s' = inventory_movements s ++ [mv1; mv2]
       /\ sold_units (ItemData.product d1) [mv1; mv2]
          = ItemData.quantity d1 + ItemData.quantity d2
       /\ Product.current_stock product
          < sold_units (ItemData.product d1) [mv1; mv2].
Proof.
  intros Hfk Hday Hfe _ Hitems Hsame Hp Hover Hpaid Hle.
  assert (Hline : forall d, In d (TransactionData.items data) ->
                            ItemData.product d = ItemData.product d1 ->
                            ItemData.quantity d <= Product.current_stock product).
  { intros d Hd Hprod. apply Z.nlt_ge. intros Hlt.
    apply (item_errors_field_errors s data d Hd); [|exact Hfe].
    apply (item_errors_over_stock s d product); [rewrite Hprod; exact Hp|exact Hlt]. }
  split; [apply Hline; [rewrite Hitems; now left|reflexivity]|].
  split; [apply Hline; [rewrite Hitems; right; now left|exact Hsame]|].
  destruct (field_errors_to_internal_value _ _ Hfe) as (v & Htiv).
  destruct (to_internal_value_amounts _ _ Htiv) as (Hpv & Htotal & _).
  rewrite Hpaid in Hpv. inversion Hpv as [Hp']. clear Hpv.
  assert (Hok : calculated_total v <= ValidatedData.amount_paid v)
    by (rewrite Htotal, <- Hp'; exact Hle).
  pose proof (create_transaction_runs now user data s v Hfe Htiv Hok Hday) as Hrun.
  cbv zeta in Hrun.
  destruct (create_transaction_tables now user data s _ _ Hfk Hrun)
    as (_ & _ & _ & _ & Hmv & _).
  rewrite Hitems in Hmv. cbn [inserted_rows map] in Hmv.
  eexists _, _, _, _. split; [exact Hrun|]. split; [exact Hmv|].
  assert (Hsold : forall mv1 mv2,
             InventoryMovement.product mv1 = ItemData.product d1 ->
             InventoryMovement.product mv2 = ItemData.product d1 ->
             InventoryMovement.movement_type mv1 = SALE ->
             InventoryMovement.movement_type mv2 = SALE ->
             sold_units (ItemData.product d1) [mv1; mv2]
             = InventoryMovement.quantity mv1 + InventoryMovement.quantity mv2).
  { intros mv1 mv2 H1 H2 H3 H4. unfold sold_units. simpl.
    rewrite H1, H2, H3, H4, Z.eqb_refl. simpl. unfold Py_sum. simpl. lia. }
  rewrite Hsold by (try reflexivity; simpl; exact Hsame).
  simpl. split; [reflexivity|exact Hover].
Qed.

(** ** Counts and totals *)

Lemma fold_left_add l a : fold_left Z.add l a = a + fold_right Z.add 0 l.
Proof.
  revert a. induction l as [|x l IH]; intros a; simpl; [lia|]. rewrite IH. lia.
Qed.

Lemma Py_sum_fold_right l : Py_sum l = fold_right Z.add 0 l.
Proof. unfold Py_sum. rewrite fold_left_add. lia. Qed.

Lemma Py_sum_app l1 l2 : Py_sum (l1 ++ l2) = Py_sum l1 + Py_sum l2.
Proof.
  rewrite !Py_sum_fold_right. induction l1 as [|x l1 IH]; simpl; lia.
Qed.

(** [aggregate(Sum(...)) or 0] is the plain sum: 0 over no rows. *)
Lemma or_0_aggregate_Sum l : or_0 (aggregate_Sum l) = Py_sum l.
Proof.
  rewrite Py_sum_fold_right. destruct l as [|x l]; [reflexivity|].
  unfold aggregate_Sum, or_0.
  destruct (fold_right Z.add 0 (x :: l) =? 0) eqn:E; [|reflexivity].
  apply Z.eqb_eq in E. now rewrite E.
Qed.

(** ** Checkout, case by case *)

Lemma CheckoutView_post_no_cart now user data s :
  active_carts user s = [] ->
  CheckoutView_post now user data s = (HTTP_404 NoActiveCartFound, s).
Proof.
  intros Hc. unfold CheckoutView_post, respond, or_does_not_exist, try_except,
    Cart_objects_get.
  unfold bind at 1. unfold bind at 1. unfold bind at 1. unfold gets at 1.
  rewrite Hc. reflexivity.
Qed.

Lemma CheckoutView_post_many_carts now user data s c1 c2 cs :
  active_carts user s = c1 :: c2 :: cs ->
  CheckoutView_post now user data s = (HTTP_500 MultipleObjectsReturned, s).
Proof.
  intros Hc. unfold CheckoutView_post, respond, or_does_not_exist, try_except,
    Cart_objects_get.
  unfold bind at 1. unfold bind at 1. unfold bind at 1. unfold gets at 1.
  rewrite Hc. reflexivity.
Qed.

(** A checkout that answers 201 went through the user's one active cart
    and a creation that returned. *)
Lemma CheckoutView_post_created now user data s txn s' :
  CheckoutView_post now user data s = (HTTP_201 (TransactionPayload txn), s') ->
  exists cart s1,
    active_carts user s = [cart]
    /\ cart_items_all (Cart.id cart) s <> []
    /\ create_transaction now user
         (checkout_request (cart_items_all (Cart.id cart) s) data) s
       = (Return txn, s1)
    /\ s' = consume_cart cart s1.
Proof.
  intros H. destruct (active_carts user s) as [|cart [|c2 cs]] eqn:Hc.
  - rewrite (CheckoutView_post_no_cart now user data s Hc) in H. discriminate.
  - exists cart.
    destruct (cart_items_all (Cart.id cart) s) as [|l ls] eqn:El.
    { rewrite (CheckoutView_post_empty now user data cart s Hc El) in H.
      discriminate. }
    assert (Hne : cart_items_all (Cart.id cart) s <> []) by (rewrite El; discriminate).
    rewrite <- El.
    destruct (create_transaction now user
                (checkout_request (cart_items_all (Cart.id cart) s) data) s)
      as [[t|e] s1] eqn:Hrun.
    + rewrite (CheckoutView_post_return now user data cart s t s1 Hc Hne Hrun) in H.
      inversion H; subst. exists s1. auto.
    + rewrite (CheckoutView_post_raise now user data cart s e s1 Hc Hne Hrun) in H.
      destruct e; discriminate.
  - rewrite (CheckoutView_post_many_carts now user data s _ _ _ Hc) in H.
    discriminate.
Qed.

Lemma item_amount_checkout_item lines :
  map item_amount (map checkout_item lines) = map line_total_of lines.
Proof.
  induction lines as [|l ls IH]; simpl; [reflexivity|]. rewrite IH. f_equal.
  unfold item_amount, line_total_of, CartItem_line_total. simpl. lia.
Qed.

(** X6. A checkout that answers 201 charges what the cart showed: the
    transaction's subtotal is the cart's subtotal before the checkout
    (the sum of unit price × quantity over its lines), its total is that
    subtotal plus the tax and minus the discount of the request (0 when
    absent), its change is the amount paid minus the total, and its item
    count is the cart's item count.  Afterwards the cart shows no item and
    a subtotal of 0. *)
Theorem checkout_charges_cart_totals
    (now : DateTime) (user : Pk) (data : CheckoutData.t) (s s' : Store)
    (txn : SalesTransaction.t) :
  items_reference_transactions s ->
  CheckoutView_post now user data s = (HTTP_201 (TransactionPayload txn), s') ->
  exists cart pk paid,
    active_carts user s = [cart]
    /\ SalesTransaction.id txn = Some pk
    /\ CheckoutData.amount_paid data = Some paid
    /\ SalesTransaction.subtotal txn = Cart_subtotal s (Cart.id cart)
    /\ SalesTransaction.total_amount txn
       = Cart_subtotal s (Cart.id cart) + default 0 (CheckoutData.tax data)
         - default 0 (CheckoutData.discount data)
    /\ SalesTransaction.change_amount txn = paid - SalesTransaction.total_amount txn
    /\ 0 <= SalesTransaction.change_amount txn
    /\ SalesTransaction_item_count s' pk = Cart_item_count s (Cart.id cart)
    /\ Cart_item_count s' (Cart.id cart) = 0
    /\ Cart_subtotal s' (Cart.id cart) = 0.
Proof.
  intros Hfk H.
  apply CheckoutView_post_created in H as (cart & s1 & Hc & Hne & Hrun & ->).
  set (lines := cart_items_all (Cart.id cart) s) in *.
  destruct (create_transaction_tables now user _ s txn s1 Hfk Hrun)
    as (Hid & _ & _ & Hall & _).
  apply create_transaction_returns in Hrun
    as (v & number & _ & Htiv & Hpaid & _ & _ & Hshape).
  cbv zeta in Hshape. destruct Hshape as (Htxn & _).
  destruct (to_internal_value_amounts _ _ Htiv) as (Hp & _ & Hitems).
  assert (Hsub : calculated_subtotal v = Cart_subtotal s (Cart.id cart)).
  { unfold calculated_subtotal, Cart_subtotal. rewrite Hitems. fold lines.
    destruct (map_item_internal_value
                (TransactionData.items (checkout_request lines data))) as (-> & _).
    unfold checkout_request, checkout_transaction_data. simpl.
    now rewrite item_amount_checkout_item. }
  assert (Htax : ValidatedData.tax v = default 0 (CheckoutData.tax data)
                 /\ ValidatedData.discount v = default 0 (CheckoutData.discount data)).
  { revert Htiv. unfold to_internal_value, checkout_request, checkout_transaction_data.
    simpl. destruct (CheckoutData.payment_method data ≫= ChoiceField); [|discriminate].
    destruct (CheckoutData.amount_paid data); [|discriminate].
    intros Hv; inversion Hv. split; reflexivity. }
  destruct Htax as (Htax & Hdisc).
  exists cart, (next_pk (omap SalesTransaction.id (sales_transactions s))),
         (ValidatedData.amount_paid v).
  split; [exact Hc|]. split; [exact Hid|]. split; [exact Hp|].
  assert (Htotal : SalesTransaction.total_amount txn = calculated_total v)
    by (subst txn; reflexivity).
  assert (Hchange : SalesTransaction.change_amount txn
                    = ValidatedData.amount_paid v - calculated_total v)
    by (subst txn; reflexivity).
  split; [subst txn; exact Hsub|].
  split; [rewrite Htotal; unfold calculated_total; now rewrite Hsub, Htax, Hdisc|].
  split; [rewrite Hchange, Htotal; reflexivity|].
  split; [rewrite Hchange; lia|].
  split.
  { unfold SalesTransaction_item_count, Cart_item_count. fold lines.
    replace (items_all _ (consume_cart cart s1)) with
      (items_all (next_pk (omap SalesTransaction.id (sales_transactions s))) s1)
      by reflexivity.
    rewrite Hall.
    destruct (inserted_rows_unit_price
                (next_pk (omap SalesTransaction.id (sales_transactions s)))
                (transaction_items s)
                (map item_internal_value
                   (TransactionData.items (checkout_request lines data))))
      as (_ & -> & _).
    destruct (map_item_internal_value
                (TransactionData.items (checkout_request lines data)))
      as (_ & _ & -> & _).
    unfold checkout_request, checkout_transaction_data. simpl.
    rewrite map_map. reflexivity. }
  unfold Cart_item_count, Cart_subtotal. rewrite consume_cart_lines.
  split; reflexivity.
Qed.

(** ** The cart operations write the cart tables only *)

Lemma same_sales_refl s : same_sales s s.
Proof. repeat split. Qed.

Lemma same_sales_trans s1 s2 s3 :
  same_sales s1 s2 -> same_sales s2 s3 -> same_sales s1 s3.
Proof.
  intros (H1 & H2 & H3 & H4 & H5) (K1 & K2 & K3 & K4 & K5).
  repeat split; congruence.
Qed.

Lemma cart_only_ret {A} (a : A) : cart_only (ret a).
Proof. intros s. apply same_sales_refl. Qed.

Lemma cart_only_raise {A} (e : Exn) : cart_only (@raise A e).
Proof. intros s. apply same_sales_refl. Qed.

Lemma cart_only_gets {A} (f : Store -> A) : cart_only (gets f).
Proof. intros s. apply same_sales_refl. Qed.

Lemma cart_only_get_one {A} (rows : list A) : cart_only (get_one rows).
Proof. intros s. destruct rows as [|r [|r' rows]]; apply same_sales_refl. Qed.

Lemma cart_only_with_carts f : cart_only (modify (with_carts f)).
Proof. intros s. repeat split. Qed.

Lemma cart_only_with_cart_items f : cart_only (modify (with_cart_items f)).
Proof. intros s. repeat split. Qed.

Lemma cart_only_bind {A B} (m : M A) (k : A -> M B) :
  cart_only m -> (forall a, cart_only (k a)) -> cart_only (bind m k).
Proof.
  intros Hm Hk s. unfold bind. specialize (Hm s).
  destruct (m s) as [[a|e] s1]; simpl in *; [|exact Hm].
  eapply same_sales_trans; [exact Hm|apply Hk].
Qed.

Lemma cart_only_try_except {A} (m : M A) (h : Exn -> option (M A)) :
  cart_only m -> (forall e handler, h e = Some handler -> cart_only handler) ->
  cart_only (try_except m h).
Proof.
  intros Hm Hh s. unfold try_except. specialize (Hm s).
  destruct (m s) as [[a|e] s1]; simpl in *; [exact Hm|].
  destruct (h e) as [handler|] eqn:E; [|exact Hm].
  eapply same_sales_trans; [exact Hm|]. exact (Hh e handler E s1).
Qed.

Lemma snd_respond (m : M Response) s : snd (respond m s) = snd (m s).
Proof. unfold respond. destruct (m s) as [[r|[]] s']; reflexivity. Qed.

Ltac cart_only_step :=
  lazymatch goal with
  | |- cart_only (bind _ _) => apply cart_only_bind; [|intros]
  | |- cart_only (ret _) => apply cart_only_ret
  | |- cart_only (raise _) => apply cart_only_raise
  | |- cart_only (gets _) => apply cart_only_gets
  | |- cart_only (get_one _) => apply cart_only_get_one
  | |- cart_only (modify (with_carts _)) => apply cart_only_with_carts
  | |- cart_only (modify (with_cart_items _)) => apply cart_only_with_cart_items
  | |- cart_only (try_except _ _) =>
      apply cart_only_try_except;
      [|let e := fresh "e" in let h := fresh "h" in let E := fresh "E" in
        intros e h E; destruct e; inversion E; subst h; clear E]
  | |- cart_only (match ?x with _ => _ end) => destruct x
  end.

Lemma cart_only_Product_objects_get product_id :
  cart_only (Product_objects_get product_id).
Proof. unfold Product_objects_get. repeat cart_only_step. Qed.

Lemma cart_only_CartItem_save self : cart_only (CartItem_save self).
Proof.
  unfold CartItem_save. apply cart_only_bind; [|intros; repeat cart_only_step].
  destruct (CartItem.unit_price self =? 0); [|apply cart_only_ret].
  apply cart_only_bind; [apply cart_only_Product_objects_get|intros].
  apply cart_only_ret.
Qed.

Lemma cart_only_Cart_objects_get user : cart_only (Cart_objects_get user).
Proof. unfold Cart_objects_get. repeat cart_only_step. Qed.

Lemma cart_only_Cart_objects_get_or_create now user :
  cart_only (Cart_objects_get_or_create now user).
Proof.
  unfold Cart_objects_get_or_create. apply cart_only_try_except.
  - apply cart_only_Cart_objects_get.
  - intros e h E. destruct e; inversion E; subst h. repeat cart_only_step.
Qed.

Lemma cart_only_CartItem_objects_get user pk : cart_only (CartItem_objects_get pk user).
Proof. unfold CartItem_objects_get. repeat cart_only_step. Qed.

Lemma cart_only_CartItem_objects_get_or_create cart product quantity unit_price :
  cart_only (CartItem_objects_get_or_create cart product quantity unit_price).
Proof.
  unfold CartItem_objects_get_or_create. apply cart_only_try_except.
  - repeat cart_only_step.
  - intros e h E. destruct e; inversion E; subst h.
    apply cart_only_bind; [apply cart_only_gets|intros].
    apply cart_only_bind; [apply cart_only_CartItem_save|intros].
    apply cart_only_ret.
Qed.

Lemma cart_only_or_does_not_exist {A} (m : M A) :
  cart_only m -> cart_only (or_does_not_exist m).
Proof.
  intros Hm. unfold or_does_not_exist. apply cart_only_try_except.
  - apply cart_only_bind; [exact Hm|intros; apply cart_only_ret].
  - intros e h E. destruct e; inversion E; subst h. apply cart_only_ret.
Qed.

Lemma cart_only_AddToCartSerializer_is_valid product_id quantity :
  cart_only (AddToCartSerializer_is_valid product_id quantity).
Proof.
  intros s. unfold AddToCartSerializer_is_valid, bind, gets, ret, raise.
  destruct (_ ++ _); simpl; [|apply same_sales_refl].
  destruct (AddToCartSerializer_validate s product_id quantity);
    apply same_sales_refl.
Qed.

Lemma cart_only_number {A} (value : JSON) (k : Q -> A) :
  cart_only (match PyValue.number value with
             | Some x => ret (k x)
             | None => raise TypeError
             end).
Proof.
  destruct (PyValue.number value); [apply cart_only_ret|apply cart_only_raise].
Qed.

Lemma cart_only_CartSerializer_data cart : cart_only (CartSerializer_data cart).
Proof. unfold CartSerializer_data. repeat cart_only_step. Qed.

Lemma cart_only_Cart_clear cart : cart_only (Cart_clear cart).
Proof. unfold Cart_clear. apply cart_only_with_cart_items. Qed.

(** X7. No cart operation touches stock or sales: showing the cart,
    clearing it, adding to it, updating a line and removing a line leave
    the product table (so nothing is reserved), the transactions, their
    items, the ledger of inventory movements and the audit log exactly as
    they were, whatever the request and whatever the answer. *)
Theorem cart_views_write_cart_tables_only
    (now : DateTime) (user product_id pk : Pk) (quantity : Z) (q : JSON)
    (s : Store) :
  same_sales s (snd (CartView_get now user s))
  /\ same_sales s (snd (CartView_delete user s))
  /\ same_sales s (snd (AddToCartView_post now user product_id quantity s))
  /\ same_sales s (snd (UpdateCartItemView_patch user pk q s))
  /\ same_sales s (snd (RemoveCartItemView_delete user pk s)).
Proof.
  split; [|split; [|split; [|split]]].
  - unfold CartView_get. rewrite snd_respond.
    apply cart_only_bind; [apply cart_only_Cart_objects_get_or_create|intros].
    apply cart_only_bind; [apply cart_only_CartSerializer_data|intros].
    apply cart_only_ret.
  - unfold CartView_delete. rewrite snd_respond.
    apply cart_only_bind;
      [apply cart_only_or_does_not_exist, cart_only_Cart_objects_get|intros found].
    destruct found; [|apply cart_only_ret].
    apply cart_only_bind; [apply cart_only_Cart_clear|intros; apply cart_only_ret].
  - unfold AddToCartView_post. rewrite snd_respond.
    apply cart_only_bind; [apply cart_only_AddToCartSerializer_is_valid|intros _].
    apply cart_only_bind; [apply cart_only_Cart_objects_get_or_create|intros cart].
    apply cart_only_bind; [apply cart_only_Product_objects_get|intros product].
    apply cart_only_bind;
      [apply cart_only_CartItem_objects_get_or_create|intros [cart_item created]].
    destruct (negb created).
    + destruct (Product.current_stock product <? _); [apply cart_only_ret|].
      apply cart_only_bind; [apply cart_only_CartItem_save|intros].
      apply cart_only_bind; [apply cart_only_CartSerializer_data|intros].
      apply cart_only_ret.
    + apply cart_only_bind; [apply cart_only_CartSerializer_data|intros].
      apply cart_only_ret.
  - unfold UpdateCartItemView_patch. rewrite snd_respond.
    apply cart_only_bind;
      [apply cart_only_or_does_not_exist, cart_only_CartItem_objects_get
      |intros found].
    destruct found as [cart_item|]; [|apply cart_only_ret].
    apply cart_only_bind.
    { destruct (negb (PyValue.truth q)); [apply cart_only_ret|].
      apply cart_only_number. }
    intros invalid. destruct invalid; [apply cart_only_ret|].
    apply cart_only_bind; [apply cart_only_Product_objects_get|intros product].
    apply cart_only_bind; [apply cart_only_number|intros short].
    destruct short; [apply cart_only_ret|].
    apply cart_only_bind; [apply cart_only_number|intros stored].
    apply cart_only_bind; [apply cart_only_CartItem_save|intros].
    apply cart_only_bind; [apply cart_only_gets|intros].
    apply cart_only_bind; [apply cart_only_get_one|intros].
    apply cart_only_bind; [apply cart_only_CartSerializer_data|intros].
    apply cart_only_ret.
  - unfold RemoveCartItemView_delete. rewrite snd_respond.
    apply cart_only_bind;
      [apply cart_only_or_does_not_exist, cart_only_CartItem_objects_get
      |intros found].
    destruct found as [cart_item|]; [|apply cart_only_ret].
    apply cart_only_bind; [apply cart_only_gets|intros].
    apply cart_only_bind; [apply cart_only_get_one|intros].
    apply cart_only_bind; [apply cart_only_with_cart_items|intros].
    apply cart_only_bind; [apply cart_only_CartSerializer_data|intros].
    apply cart_only_ret.
Qed.

(** ** Integrity of the cart tables under the store updates *)

Lemma length_filter_le {A} (f : A -> bool) l :
  (length (List.filter f l) <= length l)%nat.
Proof. induction l as [|x l IH]; simpl; [lia|]. destruct (f x); simpl; lia. Qed.

Lemma NoDup_map_filter {A} (key : A -> Pk) (f : A -> bool) l :
  NoDup (map key l) -> NoDup (map key (List.filter f l)).
Proof.
  induction l as [|x l IH]; simpl; [auto|].
  intros Hnd. apply NoDup_cons in Hnd as [Hx Hnd].
  destruct (f x); simpl; [|auto]. apply NoDup_cons. split; [|auto].
  intros Hin. apply Hx. apply list_elem_of_In in Hin. apply list_elem_of_In.
  apply in_map_iff in Hin as (y & Hy & Hin). apply List.filter_In in Hin as [Hin _].
  rewrite <- Hy. now apply in_map.
Qed.

Lemma NoDup_snoc_fresh keys : NoDup keys -> NoDup (keys ++ [next_pk keys]).
Proof.
  intros Hnd. apply NoDup_app. split; [exact Hnd|]. split; [|apply NoDup_singleton].
  intros k Hk Hin. apply list_elem_of_In in Hk, Hin. destruct Hin as [<-|[]].
  apply next_pk_above in Hk. lia.
Qed.

Lemma Forall_filter {A} (P : A -> Prop) (f : A -> bool) l :
  Forall P l -> Forall P (List.filter f l).
Proof.
  intros H. apply List.Forall_forall. intros x Hx.
  apply List.filter_In in Hx as [Hx _]. rewrite List.Forall_forall in H. auto.
Qed.

(** Deleting lines keeps the cart tables sound. *)
Lemma cart_integrity_remove_lines (keep : CartItem.t -> bool) s :
  cart_integrity s -> cart_integrity (with_cart_items (List.filter keep) s).
Proof.
  intros [H1 H2 H3 H4 H5 H6]. constructor; simpl.
  - exact H1.
  - intros cart product. unfold cart_lines. simpl.
    specialize (H2 cart product). unfold cart_lines in H2.
    etransitivity; [|exact H2]. clear.
    induction (cart_items s) as [|x l IH]; simpl; [lia|].
    destruct (keep x); simpl; destruct (_ && _); simpl; lia.
  - exact H3.
  - now apply NoDup_map_filter.
  - now apply Forall_filter.
  - now apply Forall_filter.
Qed.

(** A new line for a product the cart has no line for. *)
Lemma cart_integrity_insert_line cart product q price s :
  cart_integrity s ->
  In cart (map Cart.id (carts s)) ->
  cart_lines cart product s = [] ->
  1 <= q ->
  cart_integrity (insert_line (new_line cart product q price s) s).
Proof.
  intros [H1 H2 H3 H4 H5 H6] Hcart Hl Hq. constructor; simpl.
  - exact H1.
  - intros c p. unfold cart_lines. simpl. rewrite List.filter_app, length_app.
    fold (cart_lines c p s). simpl.
    destruct ((cart =? c) && (product =? p)) eqn:E; simpl; [|specialize (H2 c p); lia].
    apply andb_prop in E as [Ec Ep]. apply Z.eqb_eq in Ec, Ep. subst c p.
    rewrite Hl. simpl. lia.
  - exact H3.
  - rewrite map_app. simpl. now apply NoDup_snoc_fresh.
  - apply Forall_app. split; [exact H5|]. constructor; [exact Hcart|constructor].
  - apply Forall_app. split; [exact H6|]. constructor; [exact Hq|constructor].
Qed.

(** A new active cart for a user who has none. *)
Lemma cart_integrity_insert_cart now user s :
  cart_integrity s ->
  active_carts user s = [] ->
  cart_integrity (insert_cart (new_cart now user s) s).
Proof.
  intros [H1 H2 H3 H4 H5 H6] Hc. constructor; simpl.
  - intros u. unfold active_carts. simpl. rewrite List.filter_app, length_app.
    fold (active_carts u s). simpl.
    destruct (user =? u) eqn:E; simpl; [|specialize (H1 u); lia].
    apply Z.eqb_eq in E. subst u. rewrite Hc. simpl. lia.
  - exact H2.
  - rewrite map_app. simpl. now apply NoDup_snoc_fresh.
  - exact H4.
  - eapply List.Forall_impl; [|exact H5]. intros i Hi. simpl in Hi.
    rewrite map_app. apply in_or_app. now left.
  - exact H6.
Qed.

(** A stored line overwritten by a row with the same key, cart and
    product. *)
Lemma cart_integrity_replace_line line line' s :
  cart_integrity s ->
  In line (cart_items s) ->
  CartItem.id line' = CartItem.id line ->
  CartItem.cart line' = CartItem.cart line ->
  CartItem.product line' = CartItem.product line ->
  1 <= CartItem.quantity line' ->
  cart_integrity (replace_line line' s).
Proof.
  intros [H1 H2 H3 H4 H5 H6] Hin Hid Hcart Hprod Hq.
  assert (Hkeys : map CartItem.id (cart_items (replace_line line' s))
                  = map CartItem.id (cart_items s)).
  { unfold replace_line. simpl. rewrite map_map. apply map_ext. intros i.
    destruct (CartItem.id i =? CartItem.id line') eqn:E; [|reflexivity].
    apply Z.eqb_eq in E. now symmetry. }
  constructor.
  - exact H1.
  - intros c p. unfold cart_lines.
    rewrite (filter_replace_line _ line line' s H4 Hin Hid)
      by (rewrite Hcart, Hprod; reflexivity).
    rewrite length_map. apply H2.
  - exact H3.
  - rewrite Hkeys. exact H4.
  - unfold replace_line. simpl. apply List.Forall_forall. intros i Hi.
    apply in_map_iff in Hi as (i0 & <- & Hi0).
    rewrite List.Forall_forall in H5.
    destruct (CartItem.id i0 =? CartItem.id line'); [rewrite Hcart|]; auto.
  - unfold replace_line. simpl. apply List.Forall_forall. intros i Hi.
    apply in_map_iff in Hi as (i0 & <- & Hi0).
    rewrite List.Forall_forall in H6.
    destruct (CartItem.id i0 =? CartItem.id line'); auto.
Qed.

(** The cart consumed by a checkout. *)
Lemma cart_integrity_consume_cart cart s :
  cart_integrity s -> cart_integrity (consume_cart cart s).
Proof.
  intros Hwf.
  pose proof (cart_integrity_remove_lines
                (fun i => negb (CartItem.cart i =? Cart.id cart)) s Hwf)
    as [H1 H2 H3 H4 H5 H6].
  assert (Hkeys : forall l,
             map Cart.id (map (fun c => if Cart.id c =? Cart.id cart
                                        then deactivated cart else c) l)
             = map Cart.id l).
  { intros l. rewrite map_map. apply map_ext. intros c.
    destruct (Cart.id c =? Cart.id cart) eqn:E; [|reflexivity].
    apply Z.eqb_eq in E. now symmetry. }
  constructor; unfold consume_cart; simpl in *.
  - intros u. specialize (H1 u). unfold active_carts in *. simpl in *.
    etransitivity; [|exact H1]. clear.
    induction (carts s) as [|c l IH]; simpl; [lia|].
    destruct (Cart.id c =? Cart.id cart); simpl.
    + rewrite andb_false_r. destruct (_ && _); simpl; lia.
    + destruct (_ && _); simpl; lia.
  - exact H2.
  - rewrite Hkeys. exact H3.
  - exact H4.
  - rewrite Hkeys. exact H5.
  - exact H6.
Qed.

Lemma cart_integrity_same_carts s s' :
  carts s' = carts s -> cart_items s' = cart_items s ->
  cart_integrity s -> cart_integrity s'.
Proof.
  intros Hc Hi [H1 H2 H3 H4 H5 H6].
  constructor; unfold active_carts, cart_lines in *; rewrite ?Hc, ?Hi; assumption.
Qed.

(** ** The cart views, case by case *)

Lemma Cart_objects_get_or_create_cases now user s :
  Cart_objects_get_or_create now user s
  = match active_carts user s with
    | [] =>
        if existsb (fun c => session_id_eqb (Cart.session_id c) (user, now)) (carts s)
        then (Raise IntegrityError, s)
        else (Return (new_cart now user s), insert_cart (new_cart now user s) s)
    | [cart] => (Return cart, s)
    | _ => (Raise MultipleObjectsReturned, s)
    end.
Proof.
  unfold Cart_objects_get_or_create, try_except, Cart_objects_get.
  unfold bind at 1. unfold gets at 1.
  destruct (active_carts user s) as [|cart [|c2 cs]]; try reflexivity.
  unfold get_one, raise at 1. unfold bind at 1. unfold gets at 1.
  destruct (existsb _ (carts s)); reflexivity.
Qed.

Lemma AddToCartSerializer_is_valid_cases product_id quantity s :
  (exists errors,
      AddToCartSerializer_is_valid product_id quantity s
      = (Raise (ValidationError errors), s)
      /\ errors <> [])
  \/ (AddToCartSerializer_is_valid product_id quantity s = (Return tt, s)
      /\ exists product,
           products s !! product_id = Some product
           /\ Product.is_active product = true
           /\ 1 <= quantity
           /\ quantity <= Product.current_stock product).
Proof.
  destruct (products s !! product_id) as [product|] eqn:Hp.
  - destruct (Product.is_active product) eqn:Ha.
    + destruct (Z.lt_ge_cases quantity 1) as [Hq|Hq].
      * left. unfold AddToCartSerializer_is_valid,
          AddToCartSerializer_validate_product_id, failed. run.
        rewrite Hp, Ha. apply Z.ltb_lt in Hq. rewrite Hq. simpl.
        eexists. split; [reflexivity|discriminate].
      * rewrite (AddToCartSerializer_is_valid_active _ _ _ _ Hp Ha) by lia.
        destruct (Product.current_stock product <? quantity) eqn:Hs.
        -- left. eexists. split; [reflexivity|discriminate].
        -- right. split; [reflexivity|]. exists product.
           apply Z.ltb_ge in Hs. repeat split; auto; lia.
    + left. unfold AddToCartSerializer_is_valid,
        AddToCartSerializer_validate_product_id, failed. run.
      rewrite Hp, Ha. simpl. eexists. split; [reflexivity|discriminate].
  - left. unfold AddToCartSerializer_is_valid,
      AddToCartSerializer_validate_product_id, failed. run.
    rewrite Hp. simpl. eexists. split; [reflexivity|discriminate].
Qed.

Lemma AddToCartView_post_invalid now user product_id quantity s errors :
  AddToCartSerializer_is_valid product_id quantity s
  = (Raise (ValidationError errors), s) ->
  AddToCartView_post now user product_id quantity s = (HTTP_400 errors, s).
Proof.
  intros H. unfold AddToCartView_post, respond. unfold bind at 1. now rewrite H.
Qed.

(** Every way [AddToCartView.post] can leave the store, for sound cart
    tables. *)
Lemma AddToCartView_post_cases now user product_id quantity s :
  cart_integrity s ->
  (exists r, AddToCartView_post now user product_id quantity s = (r, s)
             /\ is_HTTP_200 r = false)
  \/ exists product,
       products s !! product_id = Some product
       /\ Product.is_active product = true
       /\ 1 <= quantity <= Product.current_stock product
       /\ ((exists cart,
              active_carts user s = [cart]
              /\ cart_lines (Cart.id cart) product_id s = []
              /\ AddToCartView_post now user product_id quantity s
                 = (let s' := insert_line (new_line (Cart.id cart) product_id quantity
                                             (Product.unit_price product) s) s in
                    (HTTP_200 (CartPayload cart (cart_items_all (Cart.id cart) s')), s')))
           \/ (active_carts user s = []
               /\ session_id_free now user s
               /\ AddToCartView_post now user product_id quantity s
                  = (let cart := new_cart now user s in
                     let s1 := insert_cart cart s in
                     let s' := insert_line (new_line (Cart.id cart) product_id quantity
                                              (Product.unit_price product) s1) s1 in
                     (HTTP_200 (CartPayload cart (cart_items_all (Cart.id cart) s')), s')))
           \/ (exists cart line,
                 active_carts user s = [cart]
                 /\ cart_lines (Cart.id cart) product_id s = [line]
                 /\ CartItem.quantity line + quantity <= Product.current_stock product
                 /\ AddToCartView_post now user product_id quantity s
                    = (let s' := replace_line
                                   (saved_line (CartItem.quantity line + quantity)
                                      product line) s in
                       (HTTP_200 (CartPayload cart (cart_items_all (Cart.id cart) s')),
                        s')))).
Proof.
  intros Hwf.
  destruct (AddToCartSerializer_is_valid_cases product_id quantity s)
    as [(errors & Hv & _)|(Hv & product & Hp & Ha & Hq & Hstock)].
  { left. rewrite (AddToCartView_post_invalid _ _ _ _ _ _ Hv). eauto. }
  destruct (at_most_one _ (one_active_cart s Hwf user)) as [Hc|(cart & Hc)].
  - destruct (existsb (fun c => session_id_eqb (Cart.session_id c) (user, now))
                (carts s)) eqn:Hfree.
    + left. unfold AddToCartView_post, respond. unfold bind at 1. rewrite Hv.
      unfold bind at 1. rewrite Cart_objects_get_or_create_cases, Hc, Hfree.
      eauto.
    + right. exists product. repeat (split; [assumption|]). split; [lia|].
      right. left. split; [exact Hc|]. split; [exact Hfree|].
      apply AddToCartView_post_new_cart; auto.
      exact (lines_reference_carts s Hwf).
  - destruct (at_most_one _ (one_line_per_product s Hwf (Cart.id cart) product_id))
      as [Hl|(line & Hl)].
    + right. exists product. repeat (split; [assumption|]). split; [lia|].
      left. exists cart. split; [exact Hc|]. split; [exact Hl|].
      apply AddToCartView_post_new_line; auto.
    + pose proof (AddToCartView_post_existing now user product_id quantity s cart line
                    product Hc Hl Hp Ha Hq Hstock) as Hrun.
      cbv zeta in Hrun.
      destruct (Product.current_stock product <? CartItem.quantity line + quantity)
        eqn:E.
      * left. rewrite Hrun. eauto.
      * right. exists product. repeat (split; [assumption|]). split; [lia|].
        right. right. exists cart, line. apply Z.ltb_ge in E. auto.
Qed.

Lemma active_cart_stored user cart s :
  active_carts user s = [cart] ->
  In cart (carts s) /\ Cart.user cart = user /\ Cart.is_active cart = true.
Proof.
  intros Hc.
  assert (In cart (active_carts user s)) as H by (rewrite Hc; now left).
  apply List.filter_In in H as [Hin Hcond]. apply andb_prop in Hcond as [Hu Ha].
  apply Z.eqb_eq in Hu. auto.
Qed.

Lemma AddToCartView_post_keeps_integrity now user product_id quantity s :
  cart_integrity s ->
  cart_integrity (snd (AddToCartView_post now user product_id quantity s)).
Proof.
  intros Hwf.
  destruct (AddToCartView_post_cases now user product_id quantity s Hwf)
    as [(r & -> & _)|(product & Hp & Ha & Hq & Hcase)]; [exact Hwf|].
  destruct Hcase as [(cart & Hc & Hl & ->)|[(Hc & Hfree & ->)|(cart & line & Hc & Hl & Hfit & ->)]];
    cbv zeta; cbn [snd].
  - apply cart_integrity_insert_line; auto; [|lia].
    apply in_map. now apply (active_cart_stored user).
  - set (s1 := insert_cart (new_cart now user s) s).
    assert (Hwf1 : cart_integrity s1) by now apply cart_integrity_insert_cart.
    apply cart_integrity_insert_line; auto; [| |lia].
    + unfold s1, insert_cart. simpl. rewrite map_app. apply in_or_app. right.
      now left.
    + unfold cart_lines. simpl. apply List_filter_none.
      eapply List.Forall_impl; [|exact (lines_reference_carts s Hwf)].
      intros i Hi. simpl in Hi. apply next_pk_above in Hi.
      destruct (CartItem.cart i =? next_pk (map Cart.id (carts s))) eqn:E;
        [apply Z.eqb_eq in E; lia|reflexivity].
  - destruct (cart_lines_In (Cart.id cart) product_id s line) as (Hin & _);
      [rewrite Hl; now left|].
    destruct (saved_line_fields (CartItem.quantity line + quantity) product line)
      as (Hid & Hcart & Hprod & Hqty).
    apply (cart_integrity_replace_line line); auto.
    rewrite Hqty.
    pose proof (line_quantities s Hwf) as Hqs. rewrite List.Forall_forall in Hqs.
    specialize (Hqs line Hin). lia.
Qed.

Lemma CartView_get_cases now user s :
  CartView_get now user s
  = match active_carts user s with
    | [] =>
        if existsb (fun c => session_id_eqb (Cart.session_id c) (user, now)) (carts s)
        then (HTTP_500 IntegrityError, s)
        else
          let cart := new_cart now user s in
          let s' := insert_cart cart s in
          (HTTP_200 (CartPayload cart (cart_items_all (Cart.id cart) s')), s')
    | [cart] => (HTTP_200 (CartPayload cart (cart_items_all (Cart.id cart) s)), s)
    | _ => (HTTP_500 MultipleObjectsReturned, s)
    end.
Proof.
  unfold CartView_get, respond. unfold bind at 1.
  rewrite Cart_objects_get_or_create_cases.
  destruct (active_carts user s) as [|cart [|c2 cs]]; try reflexivity.
  destruct (existsb _ (carts s)); reflexivity.
Qed.

Lemma CartView_delete_cases user s :
  CartView_delete user s
  = match active_carts user s with
    | [] => (HTTP_200 MessagePayload, s)
    | [cart] =>
        (HTTP_200 MessagePayload,
         with_cart_items
           (List.filter (fun i => negb (CartItem.cart i =? Cart.id cart))) s)
    | _ => (HTTP_500 MultipleObjectsReturned, s)
    end.
Proof.
  unfold CartView_delete, respond, or_does_not_exist, try_except, Cart_objects_get.
  unfold bind at 1. unfold bind at 1. unfold bind at 1. unfold gets at 1.
  destruct (active_carts user s) as [|cart [|c2 cs]]; reflexivity.
Qed.

Lemma UpdateCartItemView_patch_not_found user pk q s :
  user_cart_items pk user s = [] ->
  UpdateCartItemView_patch user pk q s = (HTTP_404 CartItemNotFound, s).
Proof.
  intros H. unfold UpdateCartItemView_patch, respond, or_does_not_exist, try_except,
    CartItem_objects_get.
  unfold bind at 1. unfold bind at 1. unfold bind at 1. unfold gets at 1.
  fold (user_cart_items pk user s). rewrite H. reflexivity.
Qed.

Lemma UpdateCartItemView_patch_many user pk q s i1 i2 rest :
  user_cart_items pk user s = i1 :: i2 :: rest ->
  UpdateCartItemView_patch user pk q s = (HTTP_500 MultipleObjectsReturned, s).
Proof.
  intros H. unfold UpdateCartItemView_patch, respond, or_does_not_exist, try_except,
    CartItem_objects_get.
  unfold bind at 1. unfold bind at 1. unfold bind at 1. unfold gets at 1.
  fold (user_cart_items pk user s). rewrite H. reflexivity.
Qed.

(** The update view on a line it finds, whatever was posted as the
    quantity. *)
Lemma UpdateCartItemView_patch_one user pk q item s :
  user_cart_items pk user s = [item] ->
  UpdateCartItemView_patch user pk q s
  = if negb (PyValue.truth q) then (HTTP_400 [("error", InvalidQuantity)], s)
    else
      match PyValue.number q with
      | None => (HTTP_500 TypeError, s)
      | Some x =>
          if PyValue.lt x (inject_Z 1)
          then (HTTP_400 [("error", InvalidQuantity)], s)
          else
            match products s !! CartItem.product item with
            | None => (HTTP_500 DoesNotExist, s)
            | Some product =>
                if PyValue.lt (inject_Z (Product.current_stock product)) x then
                  (HTTP_400
                     [("error", InsufficientStock (Product.current_stock product))],
                   s)
                else UpdateCartItemView_patch user pk q s
            end
      end.
Proof.
  intros H.
  destruct (negb (PyValue.truth q)) eqn:Et;
    [|destruct (PyValue.number q) as [x|] eqn:En;
      [destruct (PyValue.lt x (inject_Z 1)) eqn:E1;
       [|destruct (products s !! CartItem.product item) as [product|] eqn:Hp;
         [destruct (PyValue.lt (inject_Z (Product.current_stock product)) x) eqn:Es;
          [|reflexivity]|]]|]];
    unfold UpdateCartItemView_patch, respond, or_does_not_exist, try_except,
      CartItem_objects_get;
    unfold bind at 1; unfold bind at 1; unfold bind at 1; unfold gets at 1;
    fold (user_cart_items pk user s); rewrite H;
    unfold get_one, ret at 1; unfold ret at 1; rewrite Et;
    unfold less_than_int, int_less_than; try rewrite En;
    unfold bind at 1; unfold ret at 1; try reflexivity.
  - rewrite E1. reflexivity.
  - rewrite E1. unfold bind at 1. unfold Product_objects_get.
    unfold bind at 1. unfold gets at 1. rewrite Hp. unfold ret at 1.
    unfold bind at 1. unfold ret at 1. rewrite Es. reflexivity.
  - rewrite E1. unfold bind at 1. unfold Product_objects_get.
    unfold bind at 1. unfold gets at 1. rewrite Hp. reflexivity.
Qed.

Lemma RemoveCartItemView_delete_not_found user pk s :
  user_cart_items pk user s = [] ->
  RemoveCartItemView_delete user pk s = (HTTP_404 CartItemNotFound, s).
Proof.
  intros H. unfold RemoveCartItemView_delete, respond, or_does_not_exist, try_except,
    CartItem_objects_get.
  unfold bind at 1. unfold bind at 1. unfold bind at 1. unfold gets at 1.
  fold (user_cart_items pk user s). rewrite H. reflexivity.
Qed.

Lemma RemoveCartItemView_delete_many user pk s i1 i2 rest :
  user_cart_items pk user s = i1 :: i2 :: rest ->
  RemoveCartItemView_delete user pk s = (HTTP_500 MultipleObjectsReturned, s).
Proof.
  intros H. unfold RemoveCartItemView_delete, respond, or_does_not_exist, try_except,
    CartItem_objects_get.
  unfold bind at 1. unfold bind at 1. unfold bind at 1. unfold gets at 1.
  fold (user_cart_items pk user s). rewrite H. reflexivity.
Qed.

(** The store after [cart_item.delete()]. *)
Lemma RemoveCartItemView_delete_found user pk item cart s :
  user_cart_items pk user s = [item] ->
  List.filter (fun c => Cart.id c =? CartItem.cart item) (carts s) = [cart] ->
  RemoveCartItemView_delete user pk s
  = (let s' := with_cart_items
                 (List.filter (fun i => negb (CartItem.id i =? CartItem.id item))) s in
     (HTTP_200 (CartPayload cart (cart_items_all (Cart.id cart) s')), s')).
Proof.
  intros H Hcart. unfold RemoveCartItemView_delete, respond, or_does_not_exist,
    try_except, CartItem_objects_get.
  unfold bind at 1. unfold bind at 1. unfold bind at 1. unfold gets at 1.
  fold (user_cart_items pk user s). rewrite H.
  unfold get_one, ret at 1. unfold ret at 1.
  unfold bind at 1. unfold gets at 1. rewrite Hcart.
  unfold bind at 1. unfold ret at 1.
  unfold CartSerializer_data. run. reflexivity.
Qed.

(** The cart of a line found through the user's active carts, for sound
    cart tables. *)
Lemma user_cart_item_cart pk user s item :
  cart_integrity s ->
  user_cart_items pk user s = [item] ->
  In item (cart_items s) /\ CartItem.id item = pk
  /\ exists cart,
       active_carts user s = [cart]
       /\ Cart.id cart = CartItem.cart item
       /\ List.filter (fun c => Cart.id c =? CartItem.cart item) (carts s) = [cart].
Proof.
  intros Hwf H.
  assert (Hin : In item (user_cart_items pk user s)) by (rewrite H; now left).
  apply List.filter_In in Hin as [Hin Hcond].
  apply andb_prop in Hcond as [Hid Hex]. apply Z.eqb_eq in Hid.
  apply existsb_exists in Hex as (cart & Hc & E). apply Z.eqb_eq in E.
  split; [exact Hin|]. split; [exact Hid|]. exists cart.
  destruct (at_most_one _ (one_active_cart s Hwf user)) as [Hn|(c & Hone)];
    [rewrite Hn in Hc; destruct Hc|].
  rewrite Hone in Hc. destruct Hc as [->|[]].
  split; [exact Hone|]. split; [exact E|].
  rewrite <- E. apply filter_by_key; [exact (unique_cart_pks s Hwf)|].
  now apply (active_cart_stored user).
Qed.

Lemma UpdateCartItemView_patch_keeps_integrity user pk q s :
  cart_integrity s ->
  cart_integrity (snd (UpdateCartItemView_patch user pk q s)).
Proof.
  intros Hwf.
  destruct (user_cart_items pk user s) as [|item [|i2 rest]] eqn:Hfound.
  - now rewrite UpdateCartItemView_patch_not_found.
  - rewrite (UpdateCartItemView_patch_one user pk q item s Hfound).
    destruct (negb (PyValue.truth q)) eqn:Et; [exact Hwf|].
    destruct (PyValue.number q) as [x|] eqn:En; [|exact Hwf].
    destruct (PyValue.lt x (inject_Z 1)) eqn:E1; [exact Hwf|].
    destruct (products s !! CartItem.product item) as [product|] eqn:Hp; [|exact Hwf].
    destruct (PyValue.lt (inject_Z (Product.current_stock product)) x) eqn:Es;
      [exact Hwf|].
    destruct (user_cart_item_cart pk user s item Hwf Hfound)
      as (Hin & _ & cart & _ & _ & Hcart).
    apply negb_false_iff in Et.
    rewrite (UpdateCartItemView_patch_number user pk q x item product cart s
               Hfound Hin Hcart Hp Et En E1), Es.
    cbv zeta. cbn [snd].
    destruct (saved_line_fields (PyValue.int x) product item)
      as (Hid & Hc & Hpr & Hqty).
    apply (cart_integrity_replace_line item); auto.
    rewrite Hqty. now apply int_at_least_1.
  - now rewrite (UpdateCartItemView_patch_many user pk q s _ _ _ Hfound).
Qed.

Lemma RemoveCartItemView_delete_keeps_integrity user pk s :
  cart_integrity s ->
  cart_integrity (snd (RemoveCartItemView_delete user pk s)).
Proof.
  intros Hwf.
  destruct (user_cart_items pk user s) as [|item [|i2 rest]] eqn:Hfound.
  - now rewrite RemoveCartItemView_delete_not_found.
  - destruct (user_cart_item_cart pk user s item Hwf Hfound)
      as (_ & _ & cart & _ & _ & Hcart).
    rewrite (RemoveCartItemView_delete_found user pk item cart s Hfound Hcart).
    cbv zeta. cbn [snd]. now apply cart_integrity_remove_lines.
  - now rewrite (RemoveCartItemView_delete_many user pk s _ _ _ Hfound).
Qed.

(** X8. The cart views keep the cart tables sound: if users have at most
    one active cart each, carts at most one line per product, keys are
    unique, lines reference stored carts and quantities are at least 1,
    then the same holds after showing the cart (which may create it),
    clearing it, adding to it, updating a line and removing a line,
    whatever the request and the answer. *)
Theorem cart_views_keep_cart_integrity
    (now : DateTime) (user product_id pk : Pk) (quantity : Z) (q : JSON)
    (s : Store) :
  cart_integrity s ->
  cart_integrity (snd (CartView_get now user s))
  /\ cart_integrity (snd (CartView_delete user s))
  /\ cart_integrity (snd (AddToCartView_post now user product_id quantity s))
  /\ cart_integrity (snd (UpdateCartItemView_patch user pk q s))
  /\ cart_integrity (snd (RemoveCartItemView_delete user pk s)).
Proof.
  intros Hwf. split; [|split; [|split; [|split]]].
  - rewrite CartView_get_cases.
    destruct (active_carts user s) as [|cart [|c2 cs]] eqn:Hc; try exact Hwf.
    destruct (existsb _ (carts s)); [exact Hwf|].
    cbv zeta. cbn [snd]. now apply cart_integrity_insert_cart.
  - rewrite CartView_delete_cases.
    destruct (active_carts user s) as [|cart [|c2 cs]]; try exact Hwf.
    cbn [snd]. now apply cart_integrity_remove_lines.
  - now apply AddToCartView_post_keeps_integrity.
  - now apply UpdateCartItemView_patch_keeps_integrity.
  - now apply RemoveCartItemView_delete_keeps_integrity.
Qed.

Lemma SalesTransactionListCreateView_post_carts now user data s :
  carts (snd (SalesTransactionListCreateView_post now user data s)) = carts s
  /\ cart_items (snd (SalesTransactionListCreateView_post now user data s))
     = cart_items s.
Proof.
  unfold SalesTransactionListCreateView_post, respond, bind.
  destruct (create_transaction now user data s) as [[txn|e] s1] eqn:Hrun.
  - destruct (create_transaction_other_tables _ _ _ _ _ _ Hrun) as (Hc & Hi).
    unfold create_audit_log, modify, ret. simpl. auto.
  - apply create_transaction_raise_restores in Hrun as ->.
    destruct e; simpl; auto.
Qed.

(** X9. Selling keeps the cart tables sound as well: after a checkout,
    whatever its answer, and after a creation through the transaction
    view, users still have at most one active cart each, carts at most one
    line per product, keys are unique, lines reference stored carts and
    quantities are at least 1.  The transaction view leaves both cart
    tables as they were. *)
Theorem sales_views_keep_cart_integrity
    (now : DateTime) (user : Pk) (cdata : CheckoutData.t)
    (data : TransactionData.t) (s : Store) :
  cart_integrity s ->
  cart_integrity (snd (CheckoutView_post now user cdata s))
  /\ cart_integrity (snd (SalesTransactionListCreateView_post now user data s))
  /\ carts (snd (SalesTransactionListCreateView_post now user data s)) = carts s
  /\ cart_items (snd (SalesTransactionListCreateView_post now user data s))
     = cart_items s.
Proof.
  intros Hwf.
  destruct (SalesTransactionListCreateView_post_carts now user data s) as (Hc & Hi).
  split; [|split; [eapply cart_integrity_same_carts; eauto|auto]].
  destruct (active_carts user s) as [|cart [|c2 cs]] eqn:Ha.
  - now rewrite CheckoutView_post_no_cart.
  - destruct (cart_items_all (Cart.id cart) s) as [|l ls] eqn:El.
    { now rewrite (CheckoutView_post_empty now user cdata cart s Ha El). }
    assert (Hne : cart_items_all (Cart.id cart) s <> []) by (rewrite El; discriminate).
    destruct (create_transaction now user
                (checkout_request (cart_items_all (Cart.id cart) s) cdata) s)
      as [[t|e] s1] eqn:Hrun.
    + rewrite (CheckoutView_post_return now user cdata cart s t s1 Ha Hne Hrun).
      cbn [snd]. apply cart_integrity_consume_cart.
      destruct (create_transaction_other_tables _ _ _ _ _ _ Hrun) as (Hc1 & Hi1).
      eapply cart_integrity_same_carts; eauto.
    + now rewrite (CheckoutView_post_raise now user cdata cart s e s1 Ha Hne Hrun).
  - now rewrite (CheckoutView_post_many_carts now user cdata s _ _ _ Ha).
Qed.

(** ** Lines of other carts *)

Lemma user_cart_items_foreign pk user s :
  (forall item cart,
      In item (cart_items s) -> CartItem.id item = pk ->
      In cart (carts s) -> Cart.id cart = CartItem.cart item ->
      Cart.user cart <> user \/ Cart.is_active cart = false) ->
  user_cart_items pk user s = [].
Proof.
  intros H. unfold user_cart_items. apply List_filter_none.
  apply List.Forall_forall. intros item Hitem.
  destruct (CartItem.id item =? pk) eqn:Eid; [|reflexivity]. simpl.
  apply Z.eqb_eq in Eid. apply not_true_is_false. intros Hex.
  apply existsb_exists in Hex as (cart & Hc & E). apply Z.eqb_eq in E.
  apply List.filter_In in Hc as [Hc Hcond]. apply andb_prop in Hcond as [Hu Ha].
  apply Z.eqb_eq in Hu.
  destruct (H item cart Hitem Eid Hc E) as [Hne|Hoff]; [contradiction|].
  rewrite Hoff in Ha. discriminate.
Qed.

(** X10. A cart line can be changed only through its owner's active cart:
    when no stored line with the given key lies in an active cart of the
    requesting user (there is no such line, or its cart is another user's,
    or its cart is no longer active), updating it and removing it are both
    answered 404 "Cart item not found" and the store stays as it is,
    whatever quantity was sent. *)
Theorem cart_lines_are_private
    (user pk : Pk) (q : JSON) (s : Store) :
  (forall item cart,
      In item (cart_items s) -> CartItem.id item = pk ->
      In cart (carts s) -> Cart.id cart = CartItem.cart item ->
      Cart.user cart <> user \/ Cart.is_active cart = false) ->
  UpdateCartItemView_patch user pk q s = (HTTP_404 CartItemNotFound, s)
  /\ RemoveCartItemView_delete user pk s = (HTTP_404 CartItemNotFound, s).
Proof.
  intros H. apply user_cart_items_foreign in H. split.
  - now apply UpdateCartItemView_patch_not_found.
  - now apply RemoveCartItemView_delete_not_found.
Qed.

(** ** Removing and clearing *)

Lemma filter_filter_comm {A} (f g : A -> bool) l :
  List.filter f (List.filter g l) = List.filter g (List.filter f l).
Proof.
  induction l as [|x l IH]; simpl; [reflexivity|].
  destruct (f x) eqn:Ef, (g x) eqn:Eg; simpl; rewrite ?Ef, ?Eg, IH; reflexivity.
Qed.

Lemma Py_sum_cons x l : Py_sum (x :: l) = x + Py_sum l.
Proof. rewrite !Py_sum_fold_right. reflexivity. Qed.

Lemma Py_sum_without_key {A} (key : A -> Pk) (f : A -> Z) (rows : list A) (r : A) :
  NoDup (map key rows) -> In r rows ->
  Py_sum (map f (List.filter (fun x => negb (key x =? key r)) rows))
  = Py_sum (map f rows) - f r.
Proof.
  induction rows as [|x rows IH]; simpl; [tauto|].
  intros Hnd Hin. apply NoDup_cons in Hnd as [Hx Hnd].
  rewrite Py_sum_cons.
  destruct Hin as [->|Hin].
  - rewrite Z.eqb_refl. simpl.
    rewrite List_filter_every; [lia|]. apply List.Forall_forall. intros y Hy.
    destruct (key y =? key r) eqn:E; [|reflexivity].
    apply Z.eqb_eq in E. exfalso. apply Hx. rewrite <- E.
    apply list_elem_of_In, in_map, Hy.
  - destruct (key x =? key r) eqn:E.
    + apply Z.eqb_eq in E. exfalso. apply Hx. rewrite E.
      apply list_elem_of_In, in_map, Hin.
    + simpl. rewrite Py_sum_cons, IH by assumption. lia.
Qed.

Lemma Py_sum_replaced {A} (key : A -> Pk) (f : A -> Z) (rows : list A) (r r' : A) :
  NoDup (map key rows) -> In r rows -> key r' = key r ->
  Py_sum (map f (map (fun x => if key x =? key r' then r' else x) rows))
  = Py_sum (map f rows) - f r + f r'.
Proof.
  intros Hnd Hin Hkey. rewrite Hkey. clear Hkey.
  induction rows as [|x rows IH]; simpl; [destruct Hin|].
  apply NoDup_cons in Hnd as [Hx Hnd]. rewrite !Py_sum_cons.
  destruct Hin as [->|Hin].
  - rewrite Z.eqb_refl.
    replace (map (fun x => if key x =? key r then r' else x) rows) with rows; [lia|].
    rewrite <- (map_id rows) at 1. apply map_ext_in. intros y Hy.
    destruct (key y =? key r) eqn:E; [|reflexivity].
    apply Z.eqb_eq in E. exfalso. apply Hx. rewrite <- E.
    apply list_elem_of_In, in_map, Hy.
  - destruct (key x =? key r) eqn:E.
    + apply Z.eqb_eq in E. exfalso. apply Hx. rewrite E.
      apply list_elem_of_In, in_map, Hin.
    + rewrite IH by assumption. lia.
Qed.

Lemma cart_items_all_In cart s i :
  In i (cart_items_all cart s) <-> In i (cart_items s) /\ CartItem.cart i = cart.
Proof.
  unfold cart_items_all. rewrite List.filter_In, Z.eqb_eq. reflexivity.
Qed.

(** X11. Removing a line of the user's active cart deletes exactly that
    row: the answer is 200 with the cart, every other line of every cart
    stays as it was, the carts themselves are untouched (the cart stays
    active, also when it is left empty), and the cart's item count and
    subtotal go down by the line's quantity and line total. *)
Theorem RemoveCartItemView_delete_removes_the_line
    (user pk : Pk) (s : Store) (item : CartItem.t) :
  cart_integrity s ->
  user_cart_items pk user s = [item] ->
  exists cart s',
    RemoveCartItemView_delete user pk s
    = (HTTP_200 (CartPayload cart (cart_items_all (Cart.id cart) s')), s')
    /\ active_carts user s = [cart]
    /\ CartItem.cart item = Cart.id cart
    /\ carts s' = carts s
    /\ (forall i, In i (cart_items s') <-> In i (cart_items s) /\ i <> item)
    /\ (forall c, c <> Cart.id cart -> cart_items_all c s' = cart_items_all c s)
    /\ Cart_item_count s' (Cart.id cart)
       = Cart_item_count s (Cart.id cart) - CartItem.quantity item
    /\ Cart_subtotal s' (Cart.id cart)
       = Cart_subtotal s (Cart.id cart) - line_total_of item.
Proof.
  intros Hwf Hfound.
  destruct (user_cart_item_cart pk user s item Hwf Hfound)
    as (Hin & Hid & cart & Hc & Hcid & Hcart).
  exists cart. eexists.
  split; [exact (RemoveCartItemView_delete_found user pk item cart s Hfound Hcart)|].
  cbv zeta.
  set (keep := fun i => negb (CartItem.id i =? CartItem.id item)).
  assert (Hkeep : forall i, In i (cart_items s) -> keep i = true <-> i <> item).
  { intros i Hi. unfold keep. rewrite negb_true_iff, Z.eqb_neq. split.
    - intros Hne ->. now apply Hne.
    - intros Hne Heq. apply Hne.
      eapply (NoDup_map_eq CartItem.id); eauto. exact (unique_line_pks s Hwf). }
  assert (Hall : forall c,
             cart_items_all c (with_cart_items (List.filter keep) s)
             = List.filter keep (cart_items_all c s)).
  { intros c. unfold cart_items_all. simpl. apply filter_filter_comm. }
  assert (Hmine : In item (cart_items_all (Cart.id cart) s))
    by (apply cart_items_all_In; auto).
  assert (Hnd : NoDup (map CartItem.id (cart_items_all (Cart.id cart) s)))
    by (apply NoDup_map_filter; exact (unique_line_pks s Hwf)).
  split; [exact Hc|]. split; [now symmetry|]. split; [reflexivity|].
  split.
  { intros i. simpl. rewrite List.filter_In. split.
    - intros [Hi Hk]. split; [exact Hi|]. now apply Hkeep.
    - intros [Hi Hne]. split; [exact Hi|]. now apply Hkeep. }
  split.
  { intros c Hne. rewrite Hall. apply List_filter_every.
    apply List.Forall_forall. intros i Hi. apply cart_items_all_In in Hi as [Hi Hci].
    apply Hkeep; [exact Hi|]. intros ->. congruence. }
  unfold Cart_item_count, Cart_subtotal. rewrite !or_0_aggregate_Sum, Hall.
  split; apply (Py_sum_without_key CartItem.id); assumption.
Qed.

(** X12. Clearing the cart deletes the lines of the user's active cart
    and nothing else: the cart itself stays stored and active, it shows no
    item and a subtotal of 0, and the lines of every other cart are as
    they were.  Without an active cart the view answers 200 all the same
    and changes nothing. *)
Theorem CartView_delete_clears_own_cart (user : Pk) (s : Store) :
  (forall cart,
      active_carts user s = [cart] ->
      exists s',
        CartView_delete user s = (HTTP_200 MessagePayload, s')
        /\ cart_items_all (Cart.id cart) s' = []
        /\ Cart_item_count s' (Cart.id cart) = 0
        /\ Cart_subtotal s' (Cart.id cart) = 0
        /\ carts s' = carts s
        /\ active_carts user s' = [cart]
        /\ forall c, c <> Cart.id cart -> cart_items_all c s' = cart_items_all c s)
  /\ (active_carts user s = [] ->
      CartView_delete user s = (HTTP_200 MessagePayload, s)).
Proof.
  split.
  - intros cart Hc. eexists. rewrite CartView_delete_cases, Hc.
    split; [reflexivity|].
    assert (Hnone : cart_items_all (Cart.id cart)
                      (with_cart_items
                         (List.filter (fun i => negb (CartItem.cart i =? Cart.id cart)))
                         s) = []).
    { unfold cart_items_all. simpl. apply List_filter_none.
      apply List.Forall_forall. intros i Hi. apply List.filter_In in Hi as [_ Hi].
      now apply negb_true_iff in Hi. }
    split; [exact Hnone|].
    unfold Cart_item_count, Cart_subtotal. rewrite Hnone.
    repeat (split; [reflexivity|]). split; [exact Hc|].
    intros c Hne. unfold cart_items_all. simpl. rewrite filter_filter_comm.
    apply List_filter_every. apply List.Forall_forall. intros i Hi.
    apply List.filter_In in Hi as [_ Hi]. apply Z.eqb_eq in Hi.
    apply negb_true_iff, Z.eqb_neq. congruence.
  - intros Hc. now rewrite CartView_delete_cases, Hc.
Qed.

(** X13. Showing the cart creates it at most once: a user with an active
    cart gets that cart and nothing is written; a user without one gets a
    new, empty, active cart of their own, appended to the table; either
    way the user then has exactly that active cart, and showing the cart
    again, at any later time, gives the same answer and writes nothing. *)
Theorem CartView_get_creates_once (now : DateTime) (user : Pk) (s : Store) :
  cart_integrity s ->
  (active_carts user s = [] -> session_id_free now user s) ->
  exists cart s',
    CartView_get now user s
    = (HTTP_200 (CartPayload cart (cart_items_all (Cart.id cart) s')), s')
    /\ active_carts user s' = [cart]
    /\ (active_carts user s = [cart] -> s' = s)
    /\ (active_carts user s = [] ->
        carts s' = carts s ++ [cart]
        /\ cart_items s' = cart_items s
        /\ cart_items_all (Cart.id cart) s' = []
        /\ Cart.user cart = user
        /\ ~ In (Cart.id cart) (map Cart.id (carts s)))
    /\ forall later,
         CartView_get later user s'
         = (HTTP_200 (CartPayload cart (cart_items_all (Cart.id cart) s')), s').
Proof.
  intros Hwf Hfree.
  destruct (at_most_one _ (one_active_cart s Hwf user)) as [Hc|(cart & Hc)].
  - specialize (Hfree Hc). unfold session_id_free in Hfree.
    set (cart := new_cart now user s). set (s' := insert_cart cart s).
    assert (Hc' : active_carts user s' = [cart]).
    { unfold active_carts, s', insert_cart. simpl. rewrite List.filter_app.
      fold (active_carts user s). rewrite Hc. simpl. now rewrite Z.eqb_refl. }
    exists cart, s'. split; [now rewrite CartView_get_cases, Hc, Hfree|].
    split; [exact Hc'|]. split; [rewrite Hc; discriminate|].
    split.
    + intros _. split; [reflexivity|]. split; [reflexivity|].
      split; [|split; [reflexivity|]].
      * unfold cart_items_all. simpl. apply List_filter_none.
        eapply List.Forall_impl; [|exact (lines_reference_carts s Hwf)].
        intros i Hi. simpl in Hi. apply next_pk_above in Hi.
        apply Z.eqb_neq. lia.
      * intros Hin. apply next_pk_above in Hin. simpl in Hin. lia.
    + intros later. now rewrite CartView_get_cases, Hc'.
  - exists cart, s. split; [now rewrite CartView_get_cases, Hc|].
    split; [exact Hc|]. split; [reflexivity|].
    split; [rewrite Hc; discriminate|].
    intros later. now rewrite CartView_get_cases, Hc.
Qed.

(** ** The stock check of the cart *)


(** ** Refused cart requests *)

(** X14. Cart requests that make no sense change nothing.  Adding a
    product that does not exist or is inactive is answered 400 with
    "Product not found or inactive" on [product_id], and a quantity below
    1 is answered 400 with an error on [quantity]; no cart is created for
    the user on the way.  Updating a line of the user's cart is answered
    400 "Invalid quantity" when what was posted as the quantity is
    missing, null, false, 0, an empty text, array or object, or a number
    below 1; a non-empty text (every quantity of a form-encoded body),
    array or object makes the comparison with 1 raise [TypeError], and the
    answer is 500. *)
Theorem invalid_cart_requests_change_nothing
    (now : DateTime) (user product_id pk : Pk) (quantity : Z) (posted : JSON)
    (s : Store) :
  ((products s !! product_id = None
    \/ (exists product, products s !! product_id = Some product
                        /\ Product.is_active product = false)) ->
   exists errors,
     AddToCartView_post now user product_id quantity s = (HTTP_400 errors, s)
     /\ In ("product_id", ProductNotFoundOrInactive) errors)
  /\ (quantity < 1 ->
      exists errors,
        AddToCartView_post now user product_id quantity s = (HTTP_400 errors, s)
        /\ In ("quantity", InvalidField) errors)
  /\ (forall item,
        user_cart_items pk user s = [item] ->
        (PyValue.truth posted = false ->
         UpdateCartItemView_patch user pk posted s
         = (HTTP_400 [("error", InvalidQuantity)], s))
        /\ (forall x,
              PyValue.number posted = Some x ->
              PyValue.lt x (inject_Z 1) = true ->
              UpdateCartItemView_patch user pk posted s
              = (HTTP_400 [("error", InvalidQuantity)], s))
        /\ (PyValue.truth posted = true ->
            PyValue.number posted = None ->
            UpdateCartItemView_patch user pk posted s = (HTTP_500 TypeError, s))).
Proof.
  split; [|split].
  - intros Hbad.
    assert (Herr : AddToCartSerializer_validate_product_id s product_id
                   = [("product_id", ProductNotFoundOrInactive)]).
    { unfold AddToCartSerializer_validate_product_id, failed.
      destruct Hbad as [->|(product & -> & ->)]; reflexivity. }
    eexists. split.
    + apply AddToCartView_post_invalid. unfold AddToCartSerializer_is_valid.
      unfold bind at 1. unfold gets at 1. rewrite Herr. reflexivity.
    + now left.
  - intros Hq.
    assert (Hlt : (quantity <? 1) = true) by now apply Z.ltb_lt.
    exists (AddToCartSerializer_validate_product_id s product_id
            ++ [("quantity", InvalidField)]).
    split.
    + apply AddToCartView_post_invalid. unfold AddToCartSerializer_is_valid.
      unfold bind at 1. unfold gets at 1. rewrite Hlt. unfold failed.
      destruct (AddToCartSerializer_validate_product_id s product_id);
        reflexivity.
    + apply in_or_app. right. now left.
  - intros item Hfound.
    rewrite (UpdateCartItemView_patch_one user pk posted item s Hfound).
    split; [|split].
    + intros ->. reflexivity.
    + intros x -> ->. destruct (negb (PyValue.truth posted)); reflexivity.
    + intros -> ->. reflexivity.
Qed.

(** ** What adding to the cart stores *)

Lemma cart_line_Some user product_id s line :
  cart_line user product_id s = Some line ->
  exists cart,
    active_carts user s = [cart] /\ cart_lines (Cart.id cart) product_id s = [line].
Proof.
  unfold cart_line.
  destruct (active_carts user s) as [|cart [|c2 cs]]; try discriminate.
  destruct (cart_lines (Cart.id cart) product_id s) as [|l [|l2 ls]] eqn:El;
    try discriminate.
  intros H; inversion H; subst. exists cart. split; [reflexivity|exact El].
Qed.

Lemma cart_line_of user product_id s cart line :
  active_carts user s = [cart] ->
  cart_lines (Cart.id cart) product_id s = [line] ->
  cart_line user product_id s = Some line.
Proof. intros Hc Hl. unfold cart_line. now rewrite Hc, Hl. Qed.

Lemma cart_line_None user product_id s :
  (active_carts user s = []
   \/ exists cart, active_carts user s = [cart]
                   /\ cart_lines (Cart.id cart) product_id s = []) ->
  cart_line user product_id s = None.
Proof.
  unfold cart_line. intros [->|(cart & -> & ->)]; reflexivity.
Qed.

Lemma no_lines_of_new_cart product_id s :
  Forall (fun i => In (CartItem.cart i) (map Cart.id (carts s))) (cart_items s) ->
  List.filter (fun i => CartItem.cart i =? next_pk (map Cart.id (carts s)))
    (cart_items s) = []
  /\ cart_lines (next_pk (map Cart.id (carts s))) product_id s = [].
Proof.
  intros Hfk.
  assert (H : Forall (fun i => (CartItem.cart i =? next_pk (map Cart.id (carts s)))
                               = false) (cart_items s)).
  { eapply List.Forall_impl; [|exact Hfk]. intros i Hi. simpl in Hi.
    apply next_pk_above in Hi. apply Z.eqb_neq. lia. }
  split; [now apply List_filter_none|].
  unfold cart_lines. apply List_filter_none.
  eapply List.Forall_impl; [|exact H]. intros i Hi. simpl in Hi. now rewrite Hi.
Qed.

(** What an accepted add stored, for sound cart tables: the user's active
    cart, the line of the product before and after, and the other lines of
    the cart. *)
Lemma AddToCartView_post_accepted now user product_id quantity s r s' :
  cart_integrity s ->
  AddToCartView_post now user product_id quantity s = (HTTP_200 r, s') ->
  exists product cart line,
    products s !! product_id = Some product
    /\ Product.is_active product = true
    /\ 1 <= quantity
    /\ active_carts user s' = [cart]
    /\ (active_carts user s = [cart] \/ active_carts user s = [])
    /\ cart_lines (Cart.id cart) product_id s' = [line]
    /\ r = CartPayload cart (cart_items_all (Cart.id cart) s')
    /\ match cart_line user product_id s with
       | None =>
           CartItem.quantity line = quantity
           /\ CartItem.unit_price line = Product.unit_price product
           /\ cart_items_all (Cart.id cart) s'
              = cart_items_all (Cart.id cart) s ++ [line]
       | Some old =>
           line = saved_line (CartItem.quantity old + quantity) product old
           /\ In old (cart_items_all (Cart.id cart) s)
           /\ cart_items_all (Cart.id cart) s'
              = map (fun i => if CartItem.id i =? CartItem.id line then line else i)
                    (cart_items_all (Cart.id cart) s)
       end.
Proof.
  intros Hwf Hrun.
  destruct (AddToCartView_post_cases now user product_id quantity s Hwf)
    as [(r0 & Hr0 & Hno)|(product & Hp & Ha & Hq & Hcase)].
  { rewrite Hr0 in Hrun. inversion Hrun; subst. discriminate. }
  exists product.
  destruct Hcase as [(cart & Hc & Hl & Heq)|[(Hc & Hfree & Heq)
                                            |(cart & line & Hc & Hl & Hfit & Heq)]];
    rewrite Heq in Hrun; cbv zeta in Hrun; inversion Hrun; subst r s'; clear Hrun Heq.
  - (* a new line in the active cart *)
    set (line := new_line (Cart.id cart) product_id quantity
                   (Product.unit_price product) s).
    exists cart, line. repeat (split; [first [assumption|lia]|]).
    split; [now left|].
    assert (Hl' : cart_lines (Cart.id cart) product_id (insert_line line s) = [line]).
    { unfold cart_lines, insert_line. simpl. rewrite List.filter_app.
      fold (cart_lines (Cart.id cart) product_id s). rewrite Hl. simpl.
      now rewrite !Z.eqb_refl. }
    split; [exact Hl'|]. split; [reflexivity|].
    rewrite (cart_line_None user product_id s) by (right; eauto).
    split; [reflexivity|]. split; [reflexivity|].
    unfold cart_items_all, insert_line. simpl. rewrite List.filter_app. simpl.
    now rewrite Z.eqb_refl.
  - (* a new cart with its first line *)
    set (cart := new_cart now user s). set (s1 := insert_cart cart s).
    set (line := new_line (Cart.id cart) product_id quantity
                   (Product.unit_price product) s1).
    destruct (no_lines_of_new_cart product_id s (lines_reference_carts s Hwf))
      as (Hnone & Hnone').
    exists cart, line. repeat (split; [first [assumption|lia]|]).
    split.
    { unfold active_carts, insert_line, s1, insert_cart. simpl.
      rewrite List.filter_app. fold (active_carts user s). rewrite Hc. simpl.
      now rewrite Z.eqb_refl. }
    split; [now right|].
    split.
    { unfold cart_lines, insert_line. simpl. rewrite List.filter_app.
      change (cart_items s1) with (cart_items s).
      fold (cart_lines (next_pk (map Cart.id (carts s))) product_id s).
      rewrite Hnone'. simpl. now rewrite !Z.eqb_refl. }
    split; [reflexivity|].
    rewrite (cart_line_None user product_id s) by (now left).
    split; [reflexivity|]. split; [reflexivity|].
    unfold cart_items_all, insert_line. simpl. rewrite List.filter_app. simpl.
    now rewrite Z.eqb_refl.
  - (* the line the cart already had *)
    set (line' := saved_line (CartItem.quantity line + quantity) product line).
    destruct (cart_lines_In (Cart.id cart) product_id s line) as (Hin & Hcart & Hprod);
      [rewrite Hl; now left|].
    destruct (saved_line_fields (CartItem.quantity line + quantity) product line)
      as (Hid & Hcart' & Hprod' & Hqty).
    fold line' in Hid, Hcart', Hprod', Hqty.
    exists cart, line'. repeat (split; [first [assumption|lia]|]).
    split; [now left|].
    split.
    { unfold cart_lines.
      rewrite (filter_replace_line _ line line' s (unique_line_pks s Hwf) Hin Hid)
        by (rewrite Hcart', Hprod'; reflexivity).
      fold (cart_lines (Cart.id cart) product_id s). rewrite Hl. simpl.
      now rewrite Hid, Z.eqb_refl. }
    split; [reflexivity|].
    rewrite (cart_line_of user product_id s cart line Hc Hl).
    split; [reflexivity|].
    split; [apply cart_items_all_In; auto|].
    unfold cart_items_all.
    apply (filter_replace_line _ line line' s (unique_line_pks s Hwf) Hin Hid).
    now rewrite Hcart'.
Qed.

Lemma cart_quantity_cart_line user product_id s :
  cart_quantity user product_id s
  = default 0 (CartItem.quantity <$> cart_line user product_id s).
Proof.
  unfold cart_quantity, cart_line.
  destruct (active_carts user s) as [|cart [|c2 cs]]; try reflexivity.
  destruct (cart_lines (Cart.id cart) product_id s) as [|l [|l2 ls]]; reflexivity.
Qed.

(** X15. The unit price of a cart line is taken when the line is created:
    an accepted add for a product the cart has no line for stores the
    product's catalog price of that moment; an accepted add to an existing
    line keeps the line's key and its stored unit price, whatever the
    catalog price has become, except that a stored price of 0 is replaced
    by the catalog price.  Either way the line then holds the quantity the
    cart had of the product plus the quantity added. *)
Theorem AddToCartView_post_unit_price
    (now : DateTime) (user product_id : Pk) (quantity : Z) (s s' : Store)
    (r : Payload) :
  cart_integrity s ->
  AddToCartView_post now user product_id quantity s = (HTTP_200 r, s') ->
  exists product line,
    products s !! product_id = Some product
    /\ cart_line user product_id s' = Some line
    /\ CartItem.quantity line = cart_quantity user product_id s + quantity
    /\ match cart_line user product_id s with
       | None => CartItem.unit_price line = Product.unit_price product
       | Some old =>
           CartItem.id line = CartItem.id old
           /\ (CartItem.unit_price old <> 0 ->
               CartItem.unit_price line = CartItem.unit_price old)
           /\ (CartItem.unit_price old = 0 ->
               CartItem.unit_price line = Product.unit_price product)
       end.
Proof.
  intros Hwf Hrun.
  destruct (AddToCartView_post_accepted now user product_id quantity s r s' Hwf Hrun)
    as (product & cart & line & Hp & _ & _ & Hc' & _ & Hl' & _ & Hcase).
  exists product, line. split; [exact Hp|].
  split; [now apply (cart_line_of user product_id s' cart)|].
  rewrite cart_quantity_cart_line.
  destruct (cart_line user product_id s) as [old|].
  - destruct Hcase as (-> & _ & _).
    destruct (saved_line_fields (CartItem.quantity old + quantity) product old)
      as (Hid & _ & _ & Hqty).
    split; [exact Hqty|]. split; [exact Hid|]. split.
    + apply saved_line_unit_price.
    + intros Hzero. unfold saved_line. cbv zeta.
      cbn [CartItem.unit_price with_quantity]. rewrite Hzero. reflexivity.
  - destruct Hcase as (Hq & Hprice & _). split; [simpl; lia|exact Hprice].
Qed.

(** X16. What the cart shows after an accepted add: the item count of the
    user's active cart goes up by the quantity added, and its subtotal
    changes by the new line total of the product's line minus the old one;
    so, unless a stored unit price of 0 was replaced, the subtotal goes up
    by the quantity added times the line's unit price. *)
Theorem AddToCartView_post_totals
    (now : DateTime) (user product_id : Pk) (quantity : Z) (s s' : Store)
    (r : Payload) :
  cart_integrity s ->
  AddToCartView_post now user product_id quantity s = (HTTP_200 r, s') ->
  exists cart line,
    active_carts user s' = [cart]
    /\ r = CartPayload cart (cart_items_all (Cart.id cart) s')
    /\ cart_line user product_id s' = Some line
    /\ Cart_item_count s' (Cart.id cart)
       = Cart_item_count s (Cart.id cart) + quantity
    /\ Cart_subtotal s' (Cart.id cart)
       = Cart_subtotal s (Cart.id cart)
         - default 0 (line_total_of <$> cart_line user product_id s)
         + line_total_of line
    /\ ((forall old, cart_line user product_id s = Some old ->
                     CartItem.unit_price old <> 0) ->
        Cart_subtotal s' (Cart.id cart)
        = Cart_subtotal s (Cart.id cart) + quantity * CartItem.unit_price line).
Proof.
  intros Hwf Hrun.
  destruct (AddToCartView_post_accepted now user product_id quantity s r s' Hwf Hrun)
    as (product & cart & line & Hp & _ & _ & Hc' & _ & Hl' & Hr & Hcase).
  exists cart, line. split; [exact Hc'|]. split; [exact Hr|].
  split; [now apply (cart_line_of user product_id s' cart)|].
  unfold Cart_item_count, Cart_subtotal. rewrite !or_0_aggregate_Sum.
  destruct (cart_line user product_id s) as [old|].
  - destruct Hcase as (Hline & Hin & ->).
    assert (Hnd : NoDup (map CartItem.id (cart_items_all (Cart.id cart) s)))
      by (apply NoDup_map_filter; exact (unique_line_pks s Hwf)).
    destruct (saved_line_fields (CartItem.quantity old + quantity) product old)
      as (Hid & _ & _ & Hqty).
    rewrite <- Hline in Hid, Hqty.
    rewrite !(Py_sum_replaced CartItem.id _ _ old line Hnd Hin Hid).
    split; [lia|]. split; [reflexivity|].
    intros Hkept. specialize (Hkept old eq_refl).
    assert (Hprice : CartItem.unit_price line = CartItem.unit_price old)
      by (rewrite Hline; now apply saved_line_unit_price).
    assert (Hsub : forall total : Z,
               total - line_total_of old + line_total_of line
               = total + quantity * CartItem.unit_price line).
    { intros total. unfold line_total_of, CartItem_line_total.
      rewrite Hprice, Hqty. unfold Decimal. lia. }
    apply Hsub.
  - destruct Hcase as (Hq & Hprice & ->).
    rewrite !map_app, !Py_sum_app. simpl. rewrite !Py_sum_cons.
    change (Py_sum []) with 0.
    split; [lia|]. split; [lia|]. intros _.
    assert (Hsub : forall total : Z,
               total + (line_total_of line + 0)
               = total + quantity * CartItem.unit_price line).
    { intros total. unfold line_total_of, CartItem_line_total.
      rewrite Hq. unfold Decimal. lia. }
    apply Hsub.
Qed.

(** ** The void view *)

Lemma void_transaction_stored now self user reason s pk :
  In self (sales_transactions s) ->
  NoDup (map SalesTransaction.transaction_number (sales_transactions s)) ->
  SalesTransaction.id self = Some pk ->
  SalesTransaction.transaction_number self <> "" ->
  SalesTransaction.status self <> VOID ->
  let emitted :=
    if bool_decide (SalesTransaction.status self = COMPLETED)
    then map (return_movement self user reason) (items_all pk s) else [] in
  let row := updated_row now (set_voided user now reason self) pk in
  void_transaction now self user reason s
  = (Return row, overwrite pk row (record_all emitted s)).
Proof.
  intros Hin Hnd Hid Hne Hst emitted row.
  unfold void_transaction.
  rewrite bool_decide_eq_false_2 by exact Hst.
  unfold bind at 1. subst emitted.
  destruct (bool_decide (SalesTransaction.status self = COMPLETED)).
  - unfold self_items. rewrite Hid.
    unfold bind at 1. unfold gets at 1. rewrite for_each_movements.
    apply (SalesTransaction_save_stored now _ self pk); auto;
      now rewrite record_all_sales_transactions.
  - unfold ret at 1.
    apply (SalesTransaction_save_stored now _ self pk); auto.
Qed.

Lemma VoidTransactionSerializer_is_valid_usable reason s :
  usable_reason reason ->
  VoidTransactionSerializer_is_valid (Some reason) s = (Return (Py.strip reason), s).
Proof.
  intros (Hne & Hlen & Hchars). unfold VoidTransactionSerializer_is_valid.
  destruct (String.eqb_spec (Py.strip reason) "") as [E|_]; [contradiction|].
  rewrite Hchars.
  destruct (500 <? Py.len (Py.strip reason))%nat eqn:E; [|reflexivity].
  apply Nat.ltb_lt in E. lia.
Qed.

Lemma VoidTransactionSerializer_is_valid_unusable reason s :
  (reason = None
   \/ exists r, reason = Some r
                /\ (Py.strip r = "" \/ (500 < Py.len (Py.strip r))%nat)) ->
  VoidTransactionSerializer_is_valid reason s
  = (Raise (ValidationError [("reason", InvalidField)]), s).
Proof.
  intros [->|(r & -> & Hbad)]; [reflexivity|].
  unfold VoidTransactionSerializer_is_valid.
  destruct (String.eqb_spec (Py.strip r) "") as [E|Hne]; [reflexivity|].
  destruct Hbad as [Hblank|Hlong]; [contradiction|].
  apply Nat.ltb_lt in Hlong. rewrite Hlong. reflexivity.
Qed.

Lemma VoidTransactionView_post_found now user pk reason self s :
  List.filter (has_pk pk) (sales_transactions s) = [self] ->
  SalesTransaction.status self <> VOID ->
  VoidTransactionView_post now user pk reason s
  = respond (
      let* reason := VoidTransactionSerializer_is_valid reason in
      let* transaction := void_transaction now self user reason in
      create_audit_log user "UPDATE" "sales_transactions"
        (SalesTransaction.id transaction) ;;
      ret (HTTP_200 (TransactionPayload transaction))) s.
Proof.
  intros Hget Hst.
  unfold VoidTransactionView_post, respond, or_does_not_exist, try_except,
    SalesTransaction_objects_get.
  unfold bind at 1. unfold bind at 1. unfold bind at 1. unfold gets at 1.
  rewrite Hget. unfold get_one, ret at 1. unfold ret at 1.
  rewrite bool_decide_eq_false_2 by exact Hst. reflexivity.
Qed.

(** X17. The void view refuses before it writes: for a key no stored
    transaction has it answers 404 "Transaction not found", and for a
    stored transaction that is not VOID yet it answers 400 on [reason]
    when the reason is missing, blank once trimmed, or longer than 500
    characters; in each case the store is what it was: nothing is voided
    and no stock comes back. *)
Theorem VoidTransactionView_post_refusals
    (now : DateTime) (user pk : Pk) (reason : option string) (s : Store) :
  (List.filter (has_pk pk) (sales_transactions s) = [] ->
   VoidTransactionView_post now user pk reason s = (HTTP_404 TransactionNotFound, s))
  /\ (forall self,
        List.filter (has_pk pk) (sales_transactions s) = [self] ->
        SalesTransaction.status self <> VOID ->
        (reason = None
         \/ exists r, reason = Some r
                      /\ (Py.strip r = "" \/ (500 < Py.len (Py.strip r))%nat)) ->
        VoidTransactionView_post now user pk reason s
        = (HTTP_400 [("reason", InvalidField)], s)).
Proof.
  split.
  - intros Hget.
    unfold VoidTransactionView_post, respond, or_does_not_exist, try_except,
      SalesTransaction_objects_get.
    unfold bind at 1. unfold bind at 1. unfold bind at 1. unfold gets at 1.
    rewrite Hget. reflexivity.
  - intros self Hget Hst Hbad.
    rewrite (VoidTransactionView_post_found now user pk reason self s Hget Hst).
    unfold respond. unfold bind at 1.
    now rewrite (VoidTransactionSerializer_is_valid_unusable reason s Hbad).
Qed.

Lemma filter_has_pk_In pk rows self :
  List.filter (has_pk pk) rows = [self] ->
  In self rows /\ SalesTransaction.id self = Some pk.
Proof.
  intros H.
  assert (Hin : In self (List.filter (has_pk pk) rows)) by (rewrite H; now left).
  apply List.filter_In in Hin as [Hin Hpk]. split; [exact Hin|].
  unfold has_pk in Hpk. now apply bool_decide_eq_true_1 in Hpk.
Qed.

(** X18. Voiding through the view: for a stored transaction that is not
    VOID and a usable reason (not blank once Unicode white space is
    trimmed, at most 500 characters then, no null character or surrogate)
    the answer is 200 with the transaction, now VOID, voided by the
    requesting user at the time of the request; the reason it stores is
    the posted reason with surrounding white space removed.  If the
    transaction was COMPLETED the ledger gains one RETURN movement per
    item, otherwise none.  The void is final: a further void
    request for the same key, by anyone and at any time, is answered 400
    "Transaction is already voided" and changes nothing. *)
Theorem VoidTransactionView_post_voids
    (now : DateTime) (user pk : Pk) (reason : string) (self : SalesTransaction.t)
    (s : Store) :
  List.filter (has_pk pk) (sales_transactions s) = [self] ->
  NoDup (map SalesTransaction.transaction_number (sales_transactions s)) ->
  SalesTransaction.transaction_number self <> "" ->
  SalesTransaction.status self <> VOID ->
  usable_reason reason ->
  exists txn s',
    VoidTransactionView_post now user pk (Some reason) s
    = (HTTP_200 (TransactionPayload txn), s')
    /\ SalesTransaction.status txn = VOID
    /\ SalesTransaction.void_reason txn = Py.strip reason
    /\ SalesTransaction.voided_by txn = Some user
    /\ SalesTransaction.voided_at txn = Some now
    /\ SalesTransaction.transaction_number txn
       = SalesTransaction.transaction_number self
    /\ List.filter (has_pk pk) (sales_transactions s') = [txn]
    /\ inventory_movements s'
       = inventory_movements s
         ++ (if bool_decide (SalesTransaction.status self = COMPLETED)
             then map (return_movement self user (Py.strip reason)) (items_all pk s)
             else [])
    /\ transaction_items s' = transaction_items s
    /\ forall later user' reason',
         VoidTransactionView_post later user' pk reason' s'
         = (HTTP_400 [("error", TransactionAlreadyVoided)], s').
Proof.
  intros Hget Hnd Hne Hst Hreason.
  destruct (filter_has_pk_In pk _ self Hget) as (Hin & Hid).
  set (emitted := if bool_decide (SalesTransaction.status self = COMPLETED)
                  then map (return_movement self user (Py.strip reason))
                         (items_all pk s)
                  else []).
  set (row := updated_row now (set_voided user now (Py.strip reason) self) pk).
  set (s1 := overwrite pk row (record_all emitted s)).
  set (s' := with_audit_logs
               (fun l => l ++ [{| AuditLog.user := user; AuditLog.action := "UPDATE";
                                  AuditLog.table_name := "sales_transactions";
                                  AuditLog.record_id := Some pk |}]) s1).
  assert (Hrun : VoidTransactionView_post now user pk (Some reason) s
                 = (HTTP_200 (TransactionPayload row), s')).
  { rewrite (VoidTransactionView_post_found now user pk _ self s Hget Hst).
    unfold respond. unfold bind at 1.
    rewrite (VoidTransactionSerializer_is_valid_usable reason s Hreason).
    unfold bind at 1.
    rewrite (void_transaction_stored now self user (Py.strip reason) s pk
               Hin Hnd Hid Hne Hst).
    reflexivity. }
  assert (Hrows : List.filter (has_pk pk) (sales_transactions s') = [row]).
  { unfold s', s1. simpl. rewrite record_all_sales_transactions.
    rewrite filter_replace.
    - rewrite Hget. simpl. unfold has_pk. rewrite bool_decide_eq_true_2 by exact Hid.
      reflexivity.
    - intros r _. destruct (has_pk pk r) eqn:E; [|exact E].
      unfold has_pk. now apply bool_decide_eq_true_2. }
  exists row, s'. split; [exact Hrun|].
  repeat (split; [reflexivity|]).
  split; [exact Hrows|].
  split; [unfold s', s1; simpl; apply record_all_movements|].
  split; [unfold s', s1; simpl; apply record_all_transaction_items|].
  intros later user' reason'.
  unfold VoidTransactionView_post, respond, or_does_not_exist, try_except,
    SalesTransaction_objects_get.
  unfold bind at 1. unfold bind at 1. unfold bind at 1. unfold gets at 1.
  rewrite Hrows. unfold get_one, ret at 1. unfold ret at 1.
  rewrite bool_decide_eq_true_2 by reflexivity. reflexivity.
Qed.

(** ** What validation accepts *)

Lemma DecimalField_valid v : DecimalField v = true <-> valid_decimal v.
Proof.
  unfold DecimalField, valid_decimal. rewrite andb_true_iff, !Z.leb_le. reflexivity.
Qed.







(** X20. The message "Quantity must be greater than 0" of
    [validate_quantity] is never reported: a quantity below 1 is refused
    by the field's own minimum before [validate_quantity] runs, so
    whatever the request, no error that [createTransaction] raises
    carries that message. *)
Theorem validate_quantity_message_is_unreachable
    (now : DateTime) (user : Pk) (data : TransactionData.t) (s s' : Store)
    (errors : list (string * ErrorDetail)) :
  Forall (fun fe => snd fe <> QuantityMustBePositive) (field_errors s data)
  /\ (create_transaction now user data s = (Raise (ValidationError errors), s') ->
      Forall (fun fe => snd fe <> QuantityMustBePositive) errors).
Proof.
  assert (Hitem : forall d, Forall (fun fe => snd fe <> QuantityMustBePositive)
                              (item_errors s d)).
  { intros d. unfold item_errors, item_field_errors,
      TransactionItemCreateSerializer_validate, validate_quantity, failed.
    destruct (products s !! ItemData.product d) as [p|]; simpl;
      destruct (ItemData.quantity d <? 1) eqn:E1; simpl;
      destruct (ItemData.quantity d <=? 0) eqn:E0; simpl;
      try (apply Z.ltb_ge in E1; apply Z.leb_le in E0; lia);
      destruct (DecimalField (ItemData.unit_price d)); simpl;
      destruct (ItemData.discount d) as [x|]; simpl;
      try destruct (DecimalField x); simpl;
      try destruct (Product.current_stock p <? ItemData.quantity d);
      repeat constructor; discriminate. }
  assert (Hfields : Forall (fun fe => snd fe <> QuantityMustBePositive)
                      (field_errors s data)).
  { unfold field_errors. repeat (apply Forall_app; split).
    - unfold items_errors.
      destruct (flat_map (item_errors s) (TransactionData.items data)) eqn:Hfm.
      + unfold validate_items, failed. destruct (TransactionData.items data);
          repeat constructor; discriminate.
      + rewrite <- Hfm. clear Hfm.
        induction (TransactionData.items data) as [|d ds IH]; simpl; [constructor|].
        apply Forall_app. split; [apply Hitem|exact IH].
    - destruct (TransactionData.payment_method data) as [m|];
        [destruct (ChoiceField m)|]; repeat constructor; discriminate.
    - unfold required_decimal. destruct (TransactionData.amount_paid data) as [x|];
        [destruct (DecimalField x)|]; repeat constructor; discriminate.
    - unfold optional_decimal. destruct (TransactionData.tax data) as [x|];
        [destruct (DecimalField x)|]; repeat constructor; discriminate.
    - unfold optional_decimal. destruct (TransactionData.discount data) as [x|];
        [destruct (DecimalField x)|]; repeat constructor; discriminate.
    - unfold email_errors. destruct (String.eqb _ ""); [constructor|].
      destruct (EmailValidator _); repeat constructor; discriminate. }
  split; [exact Hfields|].
  intros Hrun.
  destruct (field_errors s data) as [|fe fes] eqn:Hfe.
  - destruct (field_errors_to_internal_value _ _ Hfe) as (v & Htiv).
    destruct (Z.lt_ge_cases (ValidatedData.amount_paid v) (calculated_total v))
      as [Hlt|Hge].
    + rewrite (create_transaction_insufficient_payment now user data s v Hfe Htiv Hlt)
        in Hrun.
      inversion Hrun; subst. repeat constructor. discriminate.
    + exfalso. revert Hrun. unfold create_transaction, is_valid. run.
      rewrite Hfe, Htiv. unfold SalesTransactionCreateSerializer_validate.
      fold (calculated_subtotal v). fold (calculated_total v).
      apply Z.ltb_ge in Hge. rewrite Hge. simpl.
      intros H. apply create_raises in H as [_ [H|H]]; discriminate.
  - rewrite create_transaction_field_errors in Hrun by (rewrite Hfe; discriminate).
    inversion Hrun; subst. rewrite Hfe. exact Hfields.
Qed.

(** X21. Nothing keeps the total from going negative: a request that
    passes field validation with a discount above subtotal + tax needs no
    payment at all; when its rows fit their columns the creation returns
    (on a day whose numbers have at most four digits), the transaction is
    stored with a negative total, and its change is more than what was
    paid. *)
Theorem negative_total_is_accepted
    (now : DateTime) (user : Pk) (data : TransactionData.t) (s : Store) :
  field_errors s data = [] ->
  storable data ->
  four_digit_day now s ->
  request_total data < 0 ->
  exists txn s' paid,
    create_transaction now user data s = (Return txn, s')
    /\ TransactionData.amount_paid data = Some paid
    /\ 0 <= paid
    /\ SalesTransaction.status txn = COMPLETED
    /\ SalesTransaction.total_amount txn = request_total data
    /\ SalesTransaction.total_amount txn < 0
    /\ SalesTransaction.change_amount txn = paid - request_total data
    /\ paid < SalesTransaction.change_amount txn
    /\ In txn (sales_transactions s').
Proof.
  intros Hfe _ Hday Hneg.
  destruct (field_errors_to_internal_value _ _ Hfe) as (v & Htiv).
  destruct (to_internal_value_amounts _ _ Htiv) as (Hp & Htotal & _).
  assert (Hpaid : 0 <= ValidatedData.amount_paid v).
  { revert Hfe. unfold field_errors. rewrite !app_nil.
    intros (_ & _ & Hreq & _). unfold required_decimal in Hreq. rewrite Hp in Hreq.
    destruct (DecimalField (ValidatedData.amount_paid v)) eqn:E; [|discriminate].
    apply DecimalField_valid in E. unfold valid_decimal in E. lia. }
  assert (Hok : calculated_total v <= ValidatedData.amount_paid v) by lia.
  eexists _, _, (ValidatedData.amount_paid v). split;
    [exact (create_transaction_runs now user data s v Hfe Htiv Hok Hday)|].
  split; [exact Hp|]. split; [exact Hpaid|].
  cbn [SalesTransaction.status SalesTransaction.total_amount
       SalesTransaction.change_amount updated_row set_saved set_completed
       set_transaction_number new_transaction].
  rewrite Htotal. split; [reflexivity|]. split; [reflexivity|].
  split; [exact Hneg|]. split; [reflexivity|]. split; [lia|].
  simpl. rewrite record_all_sales_transactions, insert_items_sales_transactions.
  simpl. eapply In_overwrite; [apply in_or_app; right; left; reflexivity|].
  reflexivity.
Qed.

(** ** Numbering through a day *)

Lemma fold_max_app xs ys :
  fold_right Z.max 0 (xs ++ ys)
  = Z.max (fold_right Z.max 0 xs) (fold_right Z.max 0 ys).
Proof.
  induction xs as [|x xs IH]; simpl.
  - assert (0 <= fold_right Z.max 0 ys); [|lia].
    induction ys as [|y ys IHy]; simpl; lia.
  - rewrite IH. lia.
Qed.

Lemma insert_header_day now row s k :
  four_digit_day now s ->
  SalesTransaction.transaction_number row = number_of (strftime_Ymd now) k ->
  1 <= k <= 9999 ->
  todays now (insert_header row s) = todays now s ++ [row]
  /\ four_digit_day now (insert_header row s)
  /\ max_sequence now (insert_header row s) = Z.max (max_sequence now s) k.
Proof.
  intros Hday Hnum Hk.
  assert (Ht : todays now (insert_header row s) = todays now s ++ [row])
    by (apply todays_insert_header; rewrite Hnum; apply startswith_number_of).
  split; [exact Ht|]. split.
  - unfold four_digit_day. rewrite Ht. apply Forall_app. split; [exact Hday|].
    constructor; [|constructor]. exists k. auto.
  - unfold max_sequence. rewrite Ht, omap_app, fold_max_app. simpl.
    rewrite Hnum, sequence_of_number_of by lia. simpl. lia.
Qed.

Lemma saved_all_numbers now selves :
  forall s,
    four_digit_day now s ->
    Forall unsaved selves ->
    max_sequence now s + Z.of_nat (length selves) <= 9999 ->
    map SalesTransaction.transaction_number (sales_transactions (saved_all now selves s))
    = map SalesTransaction.transaction_number (sales_transactions s)
      ++ next_numbers (strftime_Ymd now) (max_sequence now s) (length selves)
    /\ four_digit_day now (saved_all now selves s)
    /\ max_sequence now (saved_all now selves s)
       = max_sequence now s + Z.of_nat (length selves).
Proof.
  induction selves as [|self rest IH]; intros s Hday Hnew Hroom.
  - simpl. rewrite app_nil_r. split; [reflexivity|]. split; [exact Hday|lia].
  - inversion Hnew as [|? ? [Hid Hnum] Hrest]; subst.
    pose proof (max_sequence_bounds now s Hday) as Hb.
    cbn [saved_all length] in *.
    rewrite (SalesTransaction_save_new now self s Hday Hid Hnum). cbv zeta. cbn [snd].
    set (row := set_saved _ _ _ _).
    destruct (insert_header_day now row s (max_sequence now s + 1) Hday eq_refl
                ltac:(lia)) as (_ & Hday1 & Hmax1).
    rewrite Z.max_r in Hmax1 by lia.
    destruct (IH (insert_header row s) Hday1 Hrest ltac:(lia)) as (Hn & Hd & Hm).
    rewrite Hn, Hm, Hmax1. split; [|split; [exact Hd|lia]].
    simpl. rewrite map_app, <- app_assoc. f_equal. simpl.
    unfold next_numbers. cbn [seq map].
    rewrite <- (seq_shift (length rest) 1), map_map.
    replace (max_sequence now s + Z.of_nat 1) with (max_sequence now s + 1) by lia.
    f_equal. apply map_ext. intros i. f_equal. lia.
Qed.

Lemma In_next_numbers date_str m n number :
  In number (next_numbers date_str m n)
  <-> exists k, m < k <= m + Z.of_nat n /\ number = number_of date_str k.
Proof.
  unfold next_numbers. rewrite in_map_iff. split.
  - intros (i & <- & Hi). apply in_seq in Hi. exists (m + Z.of_nat i).
    split; [lia|reflexivity].
  - intros (k & Hk & ->). exists (Z.to_nat (k - m)). split.
    + f_equal. lia.
    + apply in_seq. lia.
Qed.

Lemma NoDup_next_numbers date_str m n :
  0 <= m -> m + Z.of_nat n <= 9999 -> NoDup (next_numbers date_str m n).
Proof.
  intros Hm Hroom. unfold next_numbers.
  apply NoDup_fmap_2_strong; [|apply NoDup_ListNoDup, seq_NoDup].
  intros i j Hi Hj Heq. apply list_elem_of_In, in_seq in Hi, Hj.
  apply (f_equal sequence_of) in Heq.
  rewrite !sequence_of_number_of in Heq by lia. inversion Heq. lia.
Qed.

(** X22. Numbering through a day: when new transactions are saved one
    after the other on a day whose numbers have sequences of at most four
    digits, and the day has room for them (no sequence passes 9999), they
    get the numbers TXN-<date>-<m+1>, TXN-<date>-<m+2>, ... in the order
    they are saved, where m is the greatest sequence the day had (0 on a
    day without transactions, so that the first number is
    TXN-<date>-0001 whatever other days hold).  These numbers are
    pairwise different, no stored transaction had any of them, each comes
    after the one before in string order, and the stored numbers stay
    without duplicates. *)
Theorem day_numbers_are_sequential
    (now : DateTime) (selves : list SalesTransaction.t) (s : Store) :
  four_digit_day now s ->
  Forall unsaved selves ->
  max_sequence now s + Z.of_nat (length selves) <= 9999 ->
  let date_str := strftime_Ymd now in
  let m := max_sequence now s in
  let issued := next_numbers date_str m (length selves) in
  let s' := saved_all now selves s in
  map SalesTransaction.transaction_number (sales_transactions s')
  = map SalesTransaction.transaction_number (sales_transactions s) ++ issued
  /\ (todays now s = [] -> m = 0)
  /\ number_of date_str 1 = "TXN-" +:+ date_str +:+ "-0001"
  /\ NoDup issued
  /\ (forall number, In number issued ->
        ~ In number (map SalesTransaction.transaction_number (sales_transactions s)))
  /\ (forall j k, m < j -> j < k -> k <= m + Z.of_nat (length selves) ->
        String.compare (number_of date_str j) (number_of date_str k) = Lt)
  /\ (NoDup (map SalesTransaction.transaction_number (sales_transactions s)) ->
      NoDup (map SalesTransaction.transaction_number (sales_transactions s')))
  /\ max_sequence now s' = m + Z.of_nat (length selves).
Proof.
  intros Hday Hnew Hroom date_str m issued s'.
  pose proof (max_sequence_bounds now s Hday) as Hb. fold m in Hb, Hroom.
  destruct (saved_all_numbers now selves s Hday Hnew Hroom) as (Hn & _ & Hm).
  fold m date_str issued s' in Hn, Hm.
  assert (Hnd : NoDup issued) by (apply NoDup_next_numbers; lia).
  assert (Hfresh : forall number, In number issued ->
             ~ In number (map SalesTransaction.transaction_number
                            (sales_transactions s))).
  { intros number Hin Hold. apply In_next_numbers in Hin as (k & Hk & ->).
    apply in_map_iff in Hold as (r & Hr & Hin).
    assert (Ht : In r (todays now s)).
    { apply List.filter_In. split; [exact Hin|]. rewrite Hr.
      apply startswith_number_of. }
    destruct (todays_sequence_bound now s r Hday Ht) as (k' & Hk' & Hle & Hnum).
    rewrite Hnum in Hr. apply (f_equal sequence_of) in Hr.
    rewrite !sequence_of_number_of in Hr by lia. inversion Hr. fold m in Hle. lia. }
  split; [exact Hn|].
  split; [intros Ht; unfold m, max_sequence; now rewrite Ht|].
  split; [reflexivity|]. split; [exact Hnd|]. split; [exact Hfresh|].
  split; [intros j k Hj Hjk Hk; apply number_of_order; lia|].
  split; [|exact Hm].
  intros Hold. rewrite Hn. apply NoDup_app. split; [exact Hold|].
  split; [|exact Hnd].
  intros number H1 H2. apply list_elem_of_In in H1, H2. exact (Hfresh number H2 H1).
Qed.

(** ** Reading a number back *)

Lemma digit_of_digit_char d :
  0 <= d <= 9 -> Py.digit_of (Py.digit_char d) = Some d.
Proof.
  intros Hd. unfold Py.digit_of, Py.digit_char.
  rewrite nat_ascii_embedding by lia.
  destruct ((48 <=? Z.of_nat (48 + Z.to_nat d))
            && (Z.of_nat (48 + Z.to_nat d) <=? 57)) eqn:E.
  - f_equal. lia.
  - apply andb_false_iff in E as [E|E]; [apply Z.leb_gt in E|apply Z.leb_gt in E]; lia.
Qed.

Lemma digit_is_no_dash c :
  is_Some (Py.digit_of c) -> Ascii.eqb c "-" = false.
Proof.
  intros [d Hd]. destruct (Ascii.eqb_spec c "-") as [->|]; [|reflexivity].
  vm_compute in Hd. discriminate.
Qed.

Lemma split_digits_only s :
  digits_only s = true -> s <> "" -> Py.split "-" s = [s].
Proof.
  induction s as [|c s IH]; [contradiction|]. intros Hd _.
  cbn [digits_only] in Hd. apply andb_prop in Hd as [Hc Hs].
  apply bool_decide_eq_true_1 in Hc. cbn [Py.split].
  rewrite (digit_is_no_dash c Hc).
  destruct s as [|c' s']; [reflexivity|].
  rewrite IH by (auto; discriminate). reflexivity.
Qed.

Lemma digits_only_app s1 s2 :
  digits_only (s1 +:+ s2) = digits_only s1 && digits_only s2.
Proof.
  induction s1 as [|c s1 IH]; simpl; [reflexivity|]. now rewrite IH, andb_assoc.
Qed.

Lemma digits_only_zeros k : digits_only (Py.zeros k) = true.
Proof. induction k as [|k IH]; simpl; [reflexivity|exact IH]. Qed.

Lemma mod_10_digit n : 0 <= n -> 0 <= n mod 10 <= 9.
Proof. intros _. pose proof (Z.mod_pos_bound n 10). lia. Qed.

Lemma str_fuel_digits_only fuel n acc :
  0 <= n -> digits_only acc = true -> digits_only (Py.str_fuel fuel n acc) = true.
Proof.
  revert n acc. induction fuel as [|f IH]; intros n acc Hn Hacc; simpl; [exact Hacc|].
  assert (Hd : digits_only (String (Py.digit_char (n mod 10)) acc) = true).
  { cbn [digits_only]. rewrite Hacc, andb_true_r. apply bool_decide_eq_true_2.
    rewrite digit_of_digit_char by now apply mod_10_digit. now eexists. }
  destruct (n / 10 =? 0); [exact Hd|].
  apply IH; [apply Z.div_pos; lia|exact Hd].
Qed.

Lemma str_fuel_nonempty fuel n acc :
  (acc <> "" \/ fuel <> O) -> Py.str_fuel fuel n acc <> "".
Proof.
  revert n acc. induction fuel as [|f IH]; intros n acc H; simpl.
  - destruct H as [H|H]; [exact H|contradiction].
  - destruct (n / 10 =? 0); [discriminate|]. apply IH. left. discriminate.
Qed.

(** Reading the digits that [str] wrote gives the number back. *)
Lemma int_acc_str_fuel fuel n acc a :
  0 <= n < 2 ^ Z.of_nat fuel ->
  exists p, Py.int_acc (Py.str_fuel fuel n acc) a = Py.int_acc acc (a * 10 ^ p + n)
            /\ 0 <= p.
Proof.
  revert n acc a. induction fuel as [|f IH]; intros n acc a Hn.
  - simpl in Hn. assert (n = 0) as -> by lia. exists 0. simpl. split; [|lia].
    f_equal. lia.
  - cbn [Py.str_fuel]. cbv zeta.
    assert (Hstep : forall x,
               Py.int_acc (String (Py.digit_char (n mod 10)) acc) x
               = Py.int_acc acc (10 * x + n mod 10)).
    { intros x. cbn [Py.int_acc].
      now rewrite digit_of_digit_char by (apply mod_10_digit; lia). }
    destruct (n / 10 =? 0) eqn:E.
    + apply Z.eqb_eq in E. exists 1. split; [|lia]. rewrite Hstep. f_equal.
      rewrite (Z.div_mod n 10) at 2 by lia. rewrite E. lia.
    + apply Z.eqb_neq in E.
      assert (Hdiv : 0 <= n / 10 < 2 ^ Z.of_nat f).
      { split; [apply Z.div_pos; lia|].
        rewrite Nat2Z.inj_succ, Z.pow_succ_r in Hn by lia.
        apply Z.div_lt_upper_bound; lia. }
      destruct (IH (n / 10) (String (Py.digit_char (n mod 10)) acc) a Hdiv)
        as (p & Hp & Hp0).
      exists (p + 1). split; [|lia]. rewrite Hp, Hstep. f_equal.
      rewrite Z.pow_add_r by lia. rewrite (Z.div_mod n 10) at 3 by lia. lia.
Qed.

Lemma int_str n : 0 <= n -> Py.int (Py.str n) = Some n.
Proof.
  intros Hn. unfold Py.int, Py.str.
  set (fuel := S (Z.to_nat (Z.log2 n))).
  pose proof (str_fuel_nonempty fuel n "" (or_intror (Nat.neq_succ_0 _))) as Hne.
  destruct (Py.str_fuel fuel n "") as [|c t] eqn:E; [contradiction|].
  rewrite <- E.
  destruct (int_acc_str_fuel fuel n "" 0) as (p & Hp & _).
  - split; [exact Hn|]. unfold fuel. rewrite Nat2Z.inj_succ, Z2Nat.id
      by apply Z.log2_nonneg.
    destruct (Z.eq_dec n 0) as [->|Hpos]; [reflexivity|].
    apply Z.log2_spec. lia.
  - rewrite Hp. cbn [Py.int_acc]. f_equal; lia.
Qed.

Lemma int_acc_zeros k s : Py.int_acc (Py.zeros k +:+ s) 0 = Py.int_acc s 0.
Proof. induction k as [|k IH]; simpl; [reflexivity|exact IH]. Qed.

Lemma int_format_0d width n : 0 <= n -> Py.int (Py.format_0d width n) = Some n.
Proof.
  intros Hn. unfold Py.format_0d. cbv zeta.
  pose proof (int_str n Hn) as Hint. unfold Py.int in *.
  destruct (Py.str n) as [|c t] eqn:E; [discriminate|].
  destruct (Py.zeros (width - String.length (String c t)) +:+ String c t)
    as [|c' t'] eqn:Ez.
  { destruct (Py.zeros _); discriminate. }
  rewrite <- Ez, int_acc_zeros. exact Hint.
Qed.

Lemma format_0d_digits width n :
  0 <= n ->
  digits_only (Py.format_0d width n) = true /\ Py.format_0d width n <> "".
Proof.
  intros Hn. unfold Py.format_0d. cbv zeta. split.
  - rewrite digits_only_app, digits_only_zeros. simpl.
    apply str_fuel_digits_only; [exact Hn|reflexivity].
  - pose proof (str_fuel_nonempty (S (Z.to_nat (Z.log2 n))) n ""
                  (or_intror (Nat.neq_succ_0 _))) as Hne.
    fold (Py.str n) in Hne. destruct (Py.zeros _); simpl; [exact Hne|discriminate].
Qed.

Lemma length_app_string s1 s2 :
  String.length (s1 +:+ s2) = (String.length s1 + String.length s2)%nat.
Proof. induction s1 as [|c s1 IH]; simpl; [reflexivity|]. now rewrite IH. Qed.

Lemma length_zeros k : String.length (Py.zeros k) = k.
Proof. induction k as [|k IH]; simpl; [reflexivity|]. now rewrite IH. Qed.

Lemma str_fuel_length fuel n acc p :
  0 <= n < 10 ^ Z.of_nat (S p) ->
  (String.length (Py.str_fuel fuel n acc) <= String.length acc + S p)%nat.
Proof.
  revert n acc p. induction fuel as [|f IH]; intros n acc p Hn; simpl; [lia|].
  destruct (n / 10 =? 0) eqn:E; [simpl; lia|].
  apply Z.eqb_neq in E.
  destruct p as [|p].
  - exfalso. apply E. apply Z.div_small. simpl in Hn. lia.
  - etransitivity; [apply (IH (n / 10) _ p)|simpl; lia].
    split; [apply Z.div_pos; lia|].
    rewrite (Nat2Z.inj_succ (S p)), Z.pow_succ_r in Hn by lia.
    apply Z.div_lt_upper_bound; lia.
Qed.

(** X23. A generated number reads back as it was written, for every
    sequence: [int(number.split('-')[-1])] of [f'TXN-{date}-{k:04d}'] is
    [k], whatever the date string and however many digits [k] has; the
    number starts with the day's prefix, its sequence part has only
    digits, at least four of them, and exactly four up to 9999. *)
Theorem generated_number_reads_back (date_str : string) (k : Z) :
  0 <= k ->
  sequence_of (number_of date_str k) = Some k
  /\ Py.startswith (number_of date_str k) ("TXN-" +:+ date_str) = true
  /\ List.last (Py.split "-" (number_of date_str k)) "" = Py.format_0d 4 k
  /\ digits_only (Py.format_0d 4 k) = true
  /\ (4 <= String.length (Py.format_0d 4 k))%nat
  /\ (k <= 9999 -> String.length (Py.format_0d 4 k) = 4%nat).
Proof.
  intros Hk. destruct (format_0d_digits 4 k Hk) as (Hd & Hne).
  assert (Hlast : List.last (Py.split "-" (number_of date_str k)) ""
                  = Py.format_0d 4 k).
  { rewrite number_of_split.
    destruct (split_after_sep "-" ("TXN-" +:+ date_str) (Py.format_0d 4 k))
      as (_ & _ & _ & _ & ->).
    now rewrite (split_digits_only _ Hd Hne). }
  split; [unfold sequence_of; rewrite Hlast; now apply int_format_0d|].
  split; [apply startswith_number_of|]. split; [exact Hlast|]. split; [exact Hd|].
  unfold Py.format_0d. cbv zeta. rewrite length_app_string, length_zeros.
  split; [lia|]. intros Hmax.
  assert (String.length (Py.str k) <= 4)%nat; [|lia].
  unfold Py.str. apply (str_fuel_length _ k "" 3). simpl. lia.
Qed.

(** X24. Selling is all or nothing at the views, whatever goes wrong:
    [SalesTransactionListCreateView.post] and [CheckoutView.post] either
    answer 201 or leave the whole store, cart included, as it was; and
    the checkout answers 404 "No active cart found" exactly when the user
    has no active cart. *)
Theorem sales_views_all_or_nothing
    (now : DateTime) (user : Pk) (data : TransactionData.t)
    (checkout : CheckoutData.t) (s : Store) :
  (is_HTTP_201 (fst (SalesTransactionListCreateView_post now user data s)) = true
   \/ snd (SalesTransactionListCreateView_post now user data s) = s)
  /\ (is_HTTP_201 (fst (CheckoutView_post now user checkout s)) = true
      \/ snd (CheckoutView_post now user checkout s) = s)
  /\ (fst (CheckoutView_post now user checkout s) = HTTP_404 NoActiveCartFound
      <-> active_carts user s = []).
Proof.
  assert (Hcheckout :
            (is_HTTP_201 (fst (CheckoutView_post now user checkout s)) = true
             \/ snd (CheckoutView_post now user checkout s) = s)
            /\ (fst (CheckoutView_post now user checkout s)
                = HTTP_404 NoActiveCartFound
                <-> active_carts user s = [])).
  { destruct (active_carts user s) as [|cart [|c2 cs]] eqn:Hc.
    - rewrite (CheckoutView_post_no_cart now user checkout s Hc). simpl. tauto.
    - assert (Hno : [cart] = [] <-> False) by (split; [discriminate|tauto]).
      destruct (cart_items_all (Cart.id cart) s) as [|l ls] eqn:El.
      { rewrite (CheckoutView_post_empty now user checkout cart s Hc El). simpl.
        split; [now right|]. split; [discriminate|discriminate]. }
      assert (Hne : cart_items_all (Cart.id cart) s <> [])
        by (rewrite El; discriminate).
      destruct (create_transaction now user
                  (checkout_request (cart_items_all (Cart.id cart) s) checkout) s)
        as [[t|e] s1] eqn:Hrun.
      + rewrite (CheckoutView_post_return now user checkout cart s t s1 Hc Hne Hrun).
        simpl. split; [now left|]. split; discriminate.
      + rewrite (CheckoutView_post_raise now user checkout cart s e s1 Hc Hne Hrun).
        simpl. split; [now right|]. split; [destruct e; discriminate|discriminate].
    - rewrite (CheckoutView_post_many_carts now user checkout s _ _ _ Hc). simpl.
      split; [now right|]. split; discriminate. }
  split; [|exact Hcheckout].
  unfold SalesTransactionListCreateView_post, respond, bind.
  destruct (create_transaction now user data s) as [[t|e] s1] eqn:Hrun.
  - left. reflexivity.
  - right. rewrite (create_transaction_raise_restores _ _ _ _ _ _ Hrun).
    destruct e; reflexivity.
Qed.

(** ** A line stored at 0.00 *)

Lemma In_inserted_rows pk existing items d :
  In d items ->
  exists r,
    In r (inserted_rows pk existing items)
    /\ TransactionItem.product r = ItemData.product d
    /\ TransactionItem.quantity r = ItemData.quantity d
    /\ TransactionItem.unit_price r = ItemData.unit_price d.
Proof.
  revert existing. induction items as [|x xs IH]; intros ex Hin; [destruct Hin|].
  destruct Hin as [<-|Hin]; simpl.
  - eexists. split; [left; reflexivity|]. repeat split.
  - edestruct IH as (r & Hr & H); [exact Hin|].
    exists r. split; [right; exact Hr|exact H].
Qed.

(** C7. Where the claim fails: [CartItem.save] takes a stored unit price
    of 0.00 for a price that was not provided.  A line of the user's
    active cart that was stored at 0.00 (the catalog price when it was
    added) takes the live catalog price at its next save: an accepted
    update of its quantity answers 200 and stores the line with the
    product's present price; the checkout then hands that price to
    [createTransaction], and a checkout that answers 201 has stored an
    item for the line's product at the live price, not at the price
    captured when the line was added. *)
Theorem C7_zero_price_is_replaced_by_live_price
    (now : DateTime) (user pk : Pk) (quantity : Z) (data : CheckoutData.t)
    (line : CartItem.t) (product : Product.t) (s : Store) :
  cart_integrity s ->
  user_cart_items pk user s = [line] ->
  CartItem.unit_price line = 0 ->
  products s !! CartItem.product line = Some product ->
  1 <= quantity <= Product.current_stock product ->
  exists cart payload s1 line1,
    active_carts user s = [cart]
    /\ UpdateCartItemView_patch user pk (JInt quantity) s = (HTTP_200 payload, s1)
    /\ active_carts user s1 = [cart]
    /\ In line1 (cart_items_all (Cart.id cart) s1)
    /\ CartItem.id line1 = pk
    /\ CartItem.product line1 = CartItem.product line
    /\ CartItem.unit_price line1 = Product.unit_price product
    /\ In (Product.unit_price product)
         (map ItemData.unit_price
            (TransactionData.items
               (checkout_request (cart_items_all (Cart.id cart) s1) data)))
    /\ forall txn s2,
         items_reference_transactions s1 ->
         CheckoutView_post now user data s1
         = (HTTP_201 (TransactionPayload txn), s2) ->
         exists key row,
           SalesTransaction.id txn = Some key
           /\ In row (items_all key s2)
           /\ TransactionItem.product row = CartItem.product line
           /\ TransactionItem.unit_price row = Product.unit_price product.
Proof.
  intros Hwf Hfound Hzero Hp [Hq1 Hq2].
  destruct (user_cart_item_cart pk user s line Hwf Hfound)
    as (Hin & Hid & cart & Hc & Hcid & Hcart).
  set (line1 := saved_line quantity product line).
  set (s1 := replace_line line1 s).
  destruct (saved_line_fields quantity product line) as (Hid1 & Hcart1 & Hprod1 & _).
  fold line1 in Hid1, Hcart1, Hprod1.
  assert (Hrun : UpdateCartItemView_patch user pk (JInt quantity) s
                 = (HTTP_200 (CartPayload cart (cart_items_all (Cart.id cart) s1)),
                    s1)).
  { rewrite (UpdateCartItemView_patch_found user pk quantity line product cart s
               Hfound Hin Hcart Hp Hq1).
    destruct (Product.current_stock product <? quantity) eqn:E; [|reflexivity].
    apply Z.ltb_lt in E. lia. }
  assert (Hprice : CartItem.unit_price line1 = Product.unit_price product).
  { unfold line1, saved_line. cbv zeta. cbn [CartItem.unit_price with_quantity].
    rewrite Hzero. reflexivity. }
  assert (Hc1 : active_carts user s1 = [cart]) by exact Hc.
  assert (Hin1 : In line1 (cart_items_all (Cart.id cart) s1)).
  { unfold cart_items_all. apply List.filter_In. split.
    - unfold s1, replace_line. simpl. apply in_map_iff. exists line.
      split; [|exact Hin]. now rewrite Hid1, Z.eqb_refl.
    - rewrite Hcart1, Hcid. apply Z.eqb_refl. }
  exists cart, (CartPayload cart (cart_items_all (Cart.id cart) s1)), s1, line1.
  split; [exact Hc|]. split; [exact Hrun|]. split; [exact Hc1|].
  split; [exact Hin1|]. split; [now rewrite Hid1|]. split; [exact Hprod1|].
  split; [exact Hprice|]. split.
  { unfold checkout_request, checkout_transaction_data. simpl. rewrite map_map.
    apply in_map_iff. exists line1. split; [exact Hprice|exact Hin1]. }
  intros txn s2 Hfk Hpost.
  apply CheckoutView_post_created in Hpost as (cart' & s1' & Hc' & _ & Hcreate & ->).
  rewrite Hc1 in Hc'. inversion Hc'; subst cart'. clear Hc'.
  destruct (create_transaction_tables now user _ s1 txn s1' Hfk Hcreate)
    as (Hkey & _ & _ & Hall & _).
  destruct (In_inserted_rows
              (next_pk (omap SalesTransaction.id (sales_transactions s1)))
              (transaction_items s1)
              (map item_internal_value
                 (TransactionData.items
                    (checkout_request (cart_items_all (Cart.id cart) s1) data)))
              (item_internal_value (checkout_item line1)))
    as (row & Hrow & Hrp & _ & Hru).
  { apply in_map. unfold checkout_request, checkout_transaction_data. simpl.
    apply in_map. exact Hin1. }
  exists (next_pk (omap SalesTransaction.id (sales_transactions s1))), row.
  split; [exact Hkey|]. split.
  - replace (items_all _ (consume_cart cart s1'))
      with (items_all (next_pk (omap SalesTransaction.id (sales_transactions s1))) s1')
      by reflexivity.
    rewrite Hall. exact Hrow.
  - split; [rewrite Hrp; exact Hprod1|rewrite Hru; exact Hprice].
Qed.

End Pos.

(** * The theorems at work on the sample shop *)

(** A concrete request whose rows fit their columns. *)
Ltac storable_by_computation :=
  unfold storable, storable_item, fits_max_digits, fits_max_length, fits_text;
  repeat first [apply Forall_cons | apply Forall_nil | split];
  first [reflexivity | lia | vm_compute; first [reflexivity | discriminate | lia]].

Lemma sample_sale_created :
  create_transaction stock_effect any_email sample_now 7
    (sale_of [three_of_A] 3000) shop
  = (Return sample_sale, shop_after_sale).
Proof. vm_compute. reflexivity. Qed.

Lemma sample_sale_voided :
  void_transaction stock_effect sample_now sample_sale 9 "wrong item" shop_after_sale
  = (Return voided_sale, shop_after_void).
Proof. vm_compute. reflexivity. Qed.

Lemma C1_witness :
  items_reference_transactions shop
  /\ create_transaction stock_effect any_email sample_now 7
       (sale_of [three_of_A] 3000) shop
     = (Return sample_sale, shop_after_sale)
  /\ SalesTransaction.subtotal sample_sale
     = Py_sum (map line_amount (items_all 1 shop_after_sale))
  /\ SalesTransaction.change_amount sample_sale
     = SalesTransaction.amount_paid sample_sale
       - SalesTransaction.total_amount sample_sale.
Proof.
  assert (H1 : items_reference_transactions shop) by constructor.
  assert (H2 : create_transaction stock_effect any_email sample_now 7
                 (sale_of [three_of_A] 3000) shop
               = (Return sample_sale, shop_after_sale)) by (vm_compute; reflexivity).
  split; [exact H1|]. split; [exact H2|].
  destruct (C1_created_transaction_amounts stock_effect any_email sample_now 7
              (sale_of [three_of_A] 3000) shop shop_after_sale sample_sale H1 H2)
    as (pk & Hpk & _ & _ & _ & _ & Hsub & _ & Hchange & _).
  inversion Hpk; subst pk. split; [exact Hsub|exact Hchange].
Defined.

Lemma C2_witness :
  todays sample_now empty_store = []
  /\ Z.of_nat (Z.to_nat 10000) = 10000
  /\ number_of (strftime_Ymd sample_now) 10000 = "TXN-20240115-10000"
  /\ max_sequence sample_now (history sample_now (Z.to_nat 10000) empty_store) = 10000
  /\ generate_transaction_number sample_now
       (history sample_now (Z.to_nat 10000) empty_store)
     = (Return (number_of (strftime_Ymd sample_now) 10000),
        history sample_now (Z.to_nat 10000) empty_store)
  /\ SalesTransaction_save sample_now fresh_transaction
       (history sample_now (Z.to_nat 10000) empty_store)
     = (Raise IntegrityError, history sample_now (Z.to_nat 10000) empty_store).
Proof.
  assert (H1 : todays sample_now empty_store = []) by reflexivity.
  assert (H2 : Z.of_nat (Z.to_nat 10000) = 10000) by (apply Z2Nat.id; lia).
  split; [exact H1|]. split; [exact H2|]. split; [vm_compute; reflexivity|].
  destruct (C2_number_repeats_after_ten_thousand sample_now empty_store
              (Z.to_nat 10000) H1 H2) as (_ & Hmax & Hgen & _ & _ & Hsave).
  split; [exact Hmax|]. split; [exact Hgen|exact Hsave].
Defined.

Lemma C3_witness :
  item_errors shop six_of_A <> []
  /\ (exists errors,
        create_transaction stock_effect any_email sample_now 7
          (sale_of [six_of_A] 6000) shop
        = (Raise (ValidationError errors), shop))
  /\ item_errors shop_short_of_stock (checkout_item sample_line) <> []
  /\ (exists errors,
        CheckoutView_post stock_effect any_email sample_now 7 (cash 3000)
          shop_short_of_stock
        = (HTTP_400 errors, shop_short_of_stock)).
Proof.
  assert (H1 : item_errors shop six_of_A <> []) by (vm_compute; discriminate).
  assert (H2 : item_errors shop_short_of_stock (checkout_item sample_line) <> [])
    by (vm_compute; discriminate).
  split; [exact H1|]. split.
  - destruct (C3_creation_is_all_or_nothing stock_effect any_email sample_now 7
                shop six_of_A H1) as (Hcreate & _ & _).
    exact (Hcreate (sale_of [six_of_A] 6000) (or_introl eq_refl)).
  - split; [exact H2|].
    destruct (C3_creation_is_all_or_nothing stock_effect any_email sample_now 7
                shop_short_of_stock (checkout_item sample_line) H2)
      as (_ & Hcheckout & _).
    exact (Hcheckout (cash 3000) sample_cart eq_refl (or_introl eq_refl)).
Defined.

Lemma C4_witness :
  In sample_sale (sales_transactions shop_after_sale)
  /\ NoDup (map SalesTransaction.transaction_number
              (sales_transactions shop_after_sale))
  /\ SalesTransaction.id sample_sale = Some 1
  /\ SalesTransaction.transaction_number sample_sale <> ""
  /\ SalesTransaction.status sample_sale = COMPLETED
  /\ exists self' s',
       void_transaction stock_effect sample_now sample_sale 9 "wrong item"
         shop_after_sale = (Return self', s')
       /\ inventory_movements s'
          = inventory_movements shop_after_sale
            ++ [return_movement sample_sale 9 "wrong item" sample_item]
       /\ SalesTransaction.status self' = VOID.
Proof.
  assert (H1 : In sample_sale (sales_transactions shop_after_sale))
    by (left; reflexivity).
  assert (H2 : NoDup (map SalesTransaction.transaction_number
                        (sales_transactions shop_after_sale)))
    by (apply NoDup_singleton).
  assert (H3 : SalesTransaction.transaction_number sample_sale <> "")
    by discriminate.
  repeat (split; [first [assumption|reflexivity]|]).
  destruct (C4_void_completed_restores stock_effect sample_now sample_sale 9
              "wrong item" shop_after_sale 1 H1 H2 eq_refl H3 eq_refl)
    as (self' & s' & Hrun & Hmv & _ & _ & Hst & _).
  exists self', s'. repeat split; assumption.
Defined.

Lemma C5_witness :
  SalesTransaction.status voided_sale = VOID
  /\ void_transaction stock_effect sample_now voided_sale 9 "again" shop_after_void
     = (Return voided_sale, shop_after_void)
  /\ VoidTransactionView_post stock_effect sample_now 9 1 (Some "again")
       shop_after_void
     = (HTTP_400 [("error", TransactionAlreadyVoided)], shop_after_void).
Proof.
  assert (H : SalesTransaction.status voided_sale = VOID) by reflexivity.
  split; [exact H|].
  destruct (C5_void_transaction_noop_when_void stock_effect sample_now voided_sale 9
              "again" shop_after_void) as (Hvoid & _).
  destruct (Hvoid H) as (Hnoop & Hview).
  split; [exact Hnoop|]. exact (Hview 1 (Some "again") eq_refl).
Defined.



Lemma shop_free_repriced_integrity : cart_integrity shop_free_repriced.
Proof.
  constructor.
  - intros user. unfold active_carts. simpl.
    match goal with |- context [if ?c then _ else _] => destruct c end; simpl; lia.
  - intros cart product. unfold cart_lines. simpl.
    match goal with |- context [if ?c then _ else _] => destruct c end; simpl; lia.
  - apply NoDup_singleton.
  - apply NoDup_singleton.
  - constructor; [left; reflexivity|constructor].
  - constructor; [simpl; lia|constructor].
Qed.

Lemma C7_witness :
  AddToCartView_post sample_now 7 1 1 shop_free
  = (HTTP_200 (CartPayload sample_cart [free_line]), shop_free_added)
  /\ cart_integrity shop_free_repriced
  /\ user_cart_items 1 7 shop_free_repriced = [free_line]
  /\ CartItem.unit_price free_line = 0
  /\ products shop_free_repriced !! 1 = Some product_priced
  /\ 1 <= 2 <= Product.current_stock product_priced
  /\ UpdateCartItemView_patch 7 1 (JInt 2) shop_free_repriced
     = (HTTP_200 (CartPayload sample_cart [repriced_line]), shop_free_updated)
  /\ In 1200
       (map ItemData.unit_price
          (TransactionData.items
             (checkout_request (cart_items_all 1 shop_free_updated) (cash 2400))))
  /\ is_HTTP_201
       (fst (CheckoutView_post stock_effect any_email sample_now 7 (cash 2400)
               shop_free_updated)) = true
  /\ forall txn s2,
       CheckoutView_post stock_effect any_email sample_now 7 (cash 2400)
         shop_free_updated
       = (HTTP_201 (TransactionPayload txn), s2) ->
       exists key row,
         SalesTransaction.id txn = Some key
         /\ In row (items_all key s2)
         /\ TransactionItem.product row = 1
         /\ TransactionItem.unit_price row = 1200.
Proof.
  assert (Hadd : AddToCartView_post sample_now 7 1 1 shop_free
                 = (HTTP_200 (CartPayload sample_cart [free_line]), shop_free_added))
    by (vm_compute; reflexivity).
  pose proof shop_free_repriced_integrity as Hwf.
  assert (Hline : user_cart_items 1 7 shop_free_repriced = [free_line])
    by reflexivity.
  assert (Hp : products shop_free_repriced !! 1 = Some product_priced)
    by reflexivity.
  assert (Hq : 1 <= 2 <= Product.current_stock product_priced) by (simpl; lia).
  assert (Hpatch : UpdateCartItemView_patch 7 1 (JInt 2) shop_free_repriced
                   = (HTTP_200 (CartPayload sample_cart [repriced_line]),
                      shop_free_updated))
    by (vm_compute; reflexivity).
  assert (H201 : is_HTTP_201
                   (fst (CheckoutView_post stock_effect any_email sample_now 7
                           (cash 2400) shop_free_updated)) = true)
    by (vm_compute; reflexivity).
  split; [exact Hadd|]. split; [exact Hwf|]. split; [exact Hline|].
  split; [reflexivity|]. split; [exact Hp|]. split; [exact Hq|].
  split; [exact Hpatch|].
  destruct (C7_zero_price_is_replaced_by_live_price stock_effect any_email
              sample_now 7 1 2 (cash 2400) free_line product_priced
              shop_free_repriced Hwf Hline eq_refl Hp Hq)
    as (cart & payload & s1 & line1 & Hc & Hrun & _ & _ & _ & _ & _ & Hreq & Hsold).
  rewrite Hpatch in Hrun. inversion Hrun; subst payload s1. clear Hrun.
  inversion Hc; subst cart. clear Hc.
  split; [exact Hreq|]. split; [exact H201|].
  intros txn s2 Hpost. apply (Hsold txn s2); [constructor|exact Hpost].
Defined.

Lemma CheckoutView_post_projects_lines_example :
  active_carts 7 shop_repriced = [sample_cart]
  /\ CheckoutView_post stock_effect any_email sample_now 7 (cash 3000)
       shop_with_empty_cart
     = (HTTP_400 [("error", CartIsEmpty)], shop_with_empty_cart)
  /\ create_transaction stock_effect any_email sample_now 7
       (checkout_request (cart_items_all 1 shop_repriced) (cash 3000)) shop_repriced
     = (Return sample_sale, shop_repriced_sold)
  /\ CheckoutView_post stock_effect any_email sample_now 7 (cash 3000) shop_repriced
     = (HTTP_201 (TransactionPayload sample_sale),
        consume_cart sample_cart shop_repriced_sold)
  /\ cart_items_all 1 (consume_cart sample_cart shop_repriced_sold) = []
  /\ active_carts 7 (consume_cart sample_cart shop_repriced_sold) = []
  /\ exists pk,
       SalesTransaction.id sample_sale = Some pk
       /\ map TransactionItem.unit_price
            (items_all pk (consume_cart sample_cart shop_repriced_sold))
          = map CartItem.unit_price (cart_items_all 1 shop_repriced).
Proof.
  assert (H : active_carts 7 shop_repriced = [sample_cart]) by reflexivity.
  assert (Hc : create_transaction stock_effect any_email sample_now 7
                 (checkout_request (cart_items_all 1 shop_repriced) (cash 3000))
                 shop_repriced
               = (Return sample_sale, shop_repriced_sold))
    by (vm_compute; reflexivity).
  assert (Hfk : items_reference_transactions shop_repriced) by constructor.
  split; [exact H|]. split.
  - destruct (CheckoutView_post_projects_lines stock_effect any_email
                sample_now 7 (cash 3000) sample_cart shop_with_empty_cart eq_refl)
      as (Hempty & _).
    exact (Hempty eq_refl).
  - split; [exact Hc|].
    destruct (CheckoutView_post_projects_lines stock_effect any_email
                sample_now 7 (cash 3000) sample_cart shop_repriced H)
      as (_ & Hfull).
    assert (Hne : cart_items_all (Cart.id sample_cart) shop_repriced <> [])
      by discriminate.
    destruct (Hfull Hne) as (_ & _ & _ & Hrun).
    destruct (Hrun sample_sale shop_repriced_sold Hc)
      as (Hpost & Hlines & _ & Hnone & Hprice).
    split; [exact Hpost|]. split; [exact Hlines|]. split; [exact Hnone|].
    exact (Hprice Hfk).
Defined.

Lemma shop_with_cart_integrity : cart_integrity shop_with_cart.
Proof.
  constructor.
  - intros user. unfold active_carts. simpl.
    match goal with |- context [if ?c then _ else _] => destruct c end; simpl; lia.
  - intros cart product. unfold cart_lines. simpl.
    match goal with |- context [if ?c then _ else _] => destruct c end; simpl; lia.
  - apply NoDup_singleton.
  - apply NoDup_singleton.
  - constructor; [left; reflexivity|constructor].
  - constructor; [simpl; lia|constructor].
Qed.



Lemma C9_witness :
  products shop_after_sale !! 1 = Some product_A_after_sale
  /\ Forall (fun i => is_Some (products shop_after_sale !! TransactionItem.product i))
            (items_all 1 shop_after_sale)
  /\ Forall (fun i => 1 <= TransactionItem.quantity i) (items_all 1 shop_after_sale)
  /\ SalesTransaction_profit shop_after_sale 1 = Some 1200
  /\ SalesTransaction_profit (set_cost_price 1 700 shop_after_sale) 1 = Some 900
  /\ SalesTransaction_profit (set_cost_price 1 700 shop_after_sale) 1
     <> SalesTransaction_profit shop_after_sale 1.
Proof.
  assert (H1 : products shop_after_sale !! 1 = Some product_A_after_sale)
    by reflexivity.
  assert (Hitems : items_all 1 shop_after_sale = [sample_item]) by reflexivity.
  assert (H2 : Forall (fun i => is_Some (products shop_after_sale
                                           !! TransactionItem.product i))
                      (items_all 1 shop_after_sale)).
  { rewrite Hitems. constructor; [|constructor]. exists product_A_after_sale.
    reflexivity. }
  assert (H3 : Forall (fun i => 1 <= TransactionItem.quantity i)
                      (items_all 1 shop_after_sale)).
  { rewrite Hitems. constructor; [simpl; lia|constructor]. }
  repeat (split; [assumption|]).
  destruct (C9_profit_uses_current_cost_price shop_after_sale 1 1
              product_A_after_sale 700 H1 H2 H3)
    as (_ & _ & _ & v & Hv & Hv' & Hne).
  split; [reflexivity|]. split; [reflexivity|].
  apply Hne.
  - exists sample_item. rewrite Hitems. split; [left|]; reflexivity.
  - simpl. lia.
Defined.

Lemma C10_witness :
  SalesTransaction.status sample_sale = COMPLETED
  /\ complete_transaction stock_effect sample_now sample_sale shop_after_sale
     = (Return sample_sale, shop_after_sale).
Proof.
  assert (H : SalesTransaction.status sample_sale = COMPLETED) by reflexivity.
  split; [exact H|].
  destruct (C10_complete_transaction_idempotent stock_effect sample_now sample_sale
              shop_after_sale) as (Hdone & _).
  exact (Hdone H).
Defined.

Lemma complete_transaction_emits_sales_witness :
  In pending_sale (sales_transactions shop_pending)
  /\ NoDup (map SalesTransaction.transaction_number (sales_transactions shop_pending))
  /\ SalesTransaction.id pending_sale = Some 1
  /\ SalesTransaction.transaction_number pending_sale <> ""
  /\ SalesTransaction.status pending_sale <> COMPLETED
  /\ exists self' s',
       complete_transaction stock_effect sample_now pending_sale shop_pending
       = (Return self', s')
       /\ inventory_movements s'
          = [sale_movement (set_completed sample_now pending_sale) sample_item]
       /\ products s' = {[ 1 := product_A_after_sale ]}
       /\ SalesTransaction.status self' = COMPLETED.
Proof.
  assert (H1 : In pending_sale (sales_transactions shop_pending))
    by (left; reflexivity).
  assert (H2 : NoDup (map SalesTransaction.transaction_number
                        (sales_transactions shop_pending)))
    by (apply NoDup_singleton).
  assert (H3 : SalesTransaction.transaction_number pending_sale <> "")
    by discriminate.
  assert (H4 : SalesTransaction.status pending_sale <> COMPLETED) by discriminate.
  repeat (split; [first [assumption|reflexivity]|]).
  destruct (complete_transaction_emits_sales stock_effect sample_now pending_sale
              shop_pending 1 H1 H2 eq_refl H3 H4)
    as (self' & s' & Hrun & Hmv & _ & Hp & Hst & _).
  exists self', s'. repeat split; assumption.
Defined.

Lemma void_transaction_not_completed_witness :
  In pending_sale (sales_transactions shop_pending)
  /\ NoDup (map SalesTransaction.transaction_number (sales_transactions shop_pending))
  /\ SalesTransaction.id pending_sale = Some 1
  /\ SalesTransaction.transaction_number pending_sale <> ""
  /\ SalesTransaction.status pending_sale = PENDING
  /\ exists self' s',
       void_transaction stock_effect sample_now pending_sale 9 "mistake" shop_pending
       = (Return self', s')
       /\ inventory_movements s' = []
       /\ products s' = {[ 1 := product_A ]}
       /\ SalesTransaction.status self' = VOID.
Proof.
  assert (H1 : In pending_sale (sales_transactions shop_pending))
    by (left; reflexivity).
  assert (H2 : NoDup (map SalesTransaction.transaction_number
                        (sales_transactions shop_pending)))
    by (apply NoDup_singleton).
  assert (H3 : SalesTransaction.transaction_number pending_sale <> "")
    by discriminate.
  repeat (split; [first [assumption|reflexivity]|]).
  destruct (void_transaction_not_completed stock_effect sample_now pending_sale 9
              "mistake" shop_pending 1 H1 H2 eq_refl H3 (or_introl eq_refl))
    as (self' & s' & Hrun & Hmv & Hp & _ & Hst & _).
  exists self', s'. repeat split; assumption.
Defined.

Lemma create_transaction_succeeds_witness :
  field_errors any_email shop (sale_of [three_of_A] 5000) = []
  /\ TransactionData.amount_paid (sale_of [three_of_A] 5000) = Some 5000
  /\ request_total (sale_of [three_of_A] 5000) <= 5000
  /\ storable (sale_of [three_of_A] 5000)
  /\ four_digit_day sample_now shop
  /\ exists txn s',
       create_transaction stock_effect any_email sample_now 7
         (sale_of [three_of_A] 5000) shop = (Return txn, s')
       /\ SalesTransaction.transaction_number txn
          = number_of (strftime_Ymd sample_now) (max_sequence sample_now shop + 1)
       /\ SalesTransaction.total_amount txn = 3000
       /\ SalesTransaction.change_amount txn = 2000.
Proof.
  assert (H1 : field_errors any_email shop (sale_of [three_of_A] 5000) = [])
    by (vm_compute; reflexivity).
  assert (H2 : TransactionData.amount_paid (sale_of [three_of_A] 5000) = Some 5000)
    by reflexivity.
  assert (H3 : request_total (sale_of [three_of_A] 5000) <= 5000)
    by (vm_compute; discriminate).
  assert (H4 : four_digit_day sample_now shop) by constructor.
  assert (H5 : storable (sale_of [three_of_A] 5000)) by storable_by_computation.
  repeat (split; [assumption|]).
  destruct (create_transaction_succeeds stock_effect any_email sample_now 7
              (sale_of [three_of_A] 5000) shop 5000 H1 H2 H3 H5 H4)
    as (txn & s' & Hrun & _ & _ & Hnum & _ & _ & Htotal & Hchange & _).
  exists txn, s'. repeat split; assumption.
Defined.

Lemma create_transaction_appends_witness :
  items_reference_transactions shop
  /\ create_transaction stock_effect any_email sample_now 7
       (sale_of [three_of_A] 3000) shop
     = (Return sample_sale, shop_after_sale)
  /\ sales_transactions shop_after_sale = sales_transactions shop ++ [sample_sale]
  /\ inventory_movements shop_after_sale
     = inventory_movements shop
       ++ map (sale_movement sample_sale) (items_all 1 shop_after_sale)
  /\ products shop_after_sale
     = apply_movements stock_effect
         (map (sale_movement sample_sale) (items_all 1 shop_after_sale))
         (products shop).
Proof.
  assert (H1 : items_reference_transactions shop) by constructor.
  assert (H2 : create_transaction stock_effect any_email sample_now 7
                 (sale_of [three_of_A] 3000) shop
               = (Return sample_sale, shop_after_sale)) by (vm_compute; reflexivity).
  split; [exact H1|]. split; [exact H2|].
  destruct (create_transaction_appends stock_effect any_email sample_now 7
              (sale_of [three_of_A] 3000) shop shop_after_sale sample_sale H1 H2)
    as (pk & Hpk & Hrows & _ & _ & _ & Hmv & _ & Hp & _).
  inversion Hpk; subst pk. repeat split; assumption.
Defined.

Lemma duplicate_lines_oversell_witness :
  items_reference_transactions shop
  /\ four_digit_day sample_now shop
  /\ field_errors any_email shop (sale_of [three_of_A; three_more_of_A] 6000) = []
  /\ storable (sale_of [three_of_A; three_more_of_A] 6000)
  /\ Product.current_stock product_A
     < ItemData.quantity three_of_A + ItemData.quantity three_more_of_A
  /\ request_total (sale_of [three_of_A; three_more_of_A] 6000) <= 6000
  /\ exists txn s' mv1 mv2,
       create_transaction stock_effect any_email sample_now 7
         (sale_of [three_of_A; three_more_of_A] 6000) shop = (Return txn, s')
       /\ inventory_movements s' = inventory_movements shop ++ [mv1; mv2]
       /\ Product.current_stock product_A < sold_units 1 [mv1; mv2].
Proof.
  assert (H1 : items_reference_transactions shop) by constructor.
  assert (H2 : four_digit_day sample_now shop) by constructor.
  assert (H3 : field_errors any_email shop
                 (sale_of [three_of_A; three_more_of_A] 6000) = [])
    by (vm_compute; reflexivity).
  assert (H4 : Product.current_stock product_A
               < ItemData.quantity three_of_A + ItemData.quantity three_more_of_A)
    by (vm_compute; reflexivity).
  assert (H5 : request_total (sale_of [three_of_A; three_more_of_A] 6000) <= 6000)
    by (vm_compute; discriminate).
  assert (H6 : storable (sale_of [three_of_A; three_more_of_A] 6000))
    by storable_by_computation.
  repeat (split; [assumption|]).
  destruct (duplicate_lines_oversell stock_effect any_email sample_now 7
              (sale_of [three_of_A; three_more_of_A] 6000) shop
              three_of_A three_more_of_A product_A 6000
              H1 H2 H3 H6 eq_refl eq_refl eq_refl H4 eq_refl H5)
    as (_ & _ & txn & s' & mv1 & mv2 & Hrun & Hmv & _ & Hover).
  exists txn, s', mv1, mv2. repeat split; assumption.
Defined.

Lemma checkout_charges_cart_totals_witness :
  items_reference_transactions shop_with_cart
  /\ CheckoutView_post stock_effect any_email sample_now 7 (cash 5000) shop_with_cart
     = (HTTP_201 (TransactionPayload sample_sale_with_change), shop_checked_out)
  /\ Cart_subtotal shop_with_cart 1 = 3000
  /\ Cart_item_count shop_with_cart 1 = 3
  /\ SalesTransaction.subtotal sample_sale_with_change = 3000
  /\ SalesTransaction.change_amount sample_sale_with_change = 2000
  /\ SalesTransaction_item_count shop_checked_out 1 = 3
  /\ Cart_item_count shop_checked_out 1 = 0.
Proof.
  assert (H1 : items_reference_transactions shop_with_cart) by constructor.
  assert (H2 : CheckoutView_post stock_effect any_email sample_now 7 (cash 5000)
                 shop_with_cart
               = (HTTP_201 (TransactionPayload sample_sale_with_change),
                  shop_checked_out)) by (vm_compute; reflexivity).
  split; [exact H1|]. split; [exact H2|].
  split; [reflexivity|]. split; [reflexivity|].
  destruct (checkout_charges_cart_totals stock_effect any_email sample_now 7
              (cash 5000) shop_with_cart shop_checked_out sample_sale_with_change
              H1 H2)
    as (cart & pk & paid & Hc & Hpk & Hpaid & Hsub & _ & Hchange & _ & Hcount
        & Hleft & _).
  inversion Hc; subst cart. inversion Hpk; subst pk. inversion Hpaid; subst paid.
  split; [exact Hsub|]. split; [exact Hchange|]. split; [exact Hcount|exact Hleft].
Defined.

Lemma cart_views_keep_cart_integrity_witness :
  cart_integrity shop_with_cart
  /\ cart_integrity (snd (AddToCartView_post sample_now 7 1 2 shop_with_cart))
  /\ cart_integrity
       (snd (UpdateCartItemView_patch 7 1 (JFloat (5 # 2)%Q) shop_with_cart))
  /\ cart_integrity (snd (RemoveCartItemView_delete 7 1 shop_with_cart)).
Proof.
  pose proof shop_with_cart_integrity as Hwf.
  destruct (cart_views_keep_cart_integrity sample_now 7 1 1 2 (JFloat (5 # 2)%Q)
              shop_with_cart Hwf) as (_ & _ & Hadd & Hupdate & Hremove).
  split; [exact Hwf|]. split; [exact Hadd|]. split; [exact Hupdate|exact Hremove].
Defined.

Lemma sales_views_keep_cart_integrity_witness :
  cart_integrity shop_with_cart
  /\ cart_integrity
       (snd (CheckoutView_post stock_effect any_email sample_now 7 (cash 5000)
               shop_with_cart)).
Proof.
  pose proof shop_with_cart_integrity as Hwf.
  destruct (sales_views_keep_cart_integrity stock_effect any_email sample_now 7
              (cash 5000) (sale_of [three_of_A] 3000) shop_with_cart Hwf)
    as (Hcheckout & _).
  split; [exact Hwf|exact Hcheckout].
Defined.

Lemma cart_lines_are_private_witness :
  (forall item cart,
      In item (cart_items shop_with_cart) -> CartItem.id item = 1 ->
      In cart (carts shop_with_cart) -> Cart.id cart = CartItem.cart item ->
      Cart.user cart <> 8 \/ Cart.is_active cart = false)
  /\ UpdateCartItemView_patch 8 1 (JInt 2) shop_with_cart
     = (HTTP_404 CartItemNotFound, shop_with_cart)
  /\ RemoveCartItemView_delete 8 1 shop_with_cart
     = (HTTP_404 CartItemNotFound, shop_with_cart).
Proof.
  assert (H : forall item cart,
             In item (cart_items shop_with_cart) -> CartItem.id item = 1 ->
             In cart (carts shop_with_cart) -> Cart.id cart = CartItem.cart item ->
             Cart.user cart <> 8 \/ Cart.is_active cart = false).
  { intros item cart _ _ [<-|[]] _. left. discriminate. }
  split; [exact H|].
  exact (cart_lines_are_private 8 1 (JInt 2) shop_with_cart H).
Defined.

Lemma RemoveCartItemView_delete_removes_the_line_witness :
  cart_integrity shop_with_cart
  /\ user_cart_items 1 7 shop_with_cart = [sample_line]
  /\ exists cart s',
       RemoveCartItemView_delete 7 1 shop_with_cart
       = (HTTP_200 (CartPayload cart (cart_items_all (Cart.id cart) s')), s')
       /\ active_carts 7 shop_with_cart = [cart]
       /\ carts s' = carts shop_with_cart
       /\ Cart_item_count s' (Cart.id cart)
          = Cart_item_count shop_with_cart (Cart.id cart) - 3.
Proof.
  pose proof shop_with_cart_integrity as Hwf.
  assert (H : user_cart_items 1 7 shop_with_cart = [sample_line]) by reflexivity.
  split; [exact Hwf|]. split; [exact H|].
  destruct (RemoveCartItemView_delete_removes_the_line 7 1 shop_with_cart sample_line
              Hwf H)
    as (cart & s' & Hrun & Hc & _ & Hcarts & _ & _ & Hcount & _).
  exists cart, s'. repeat split; assumption.
Defined.

Lemma CartView_delete_clears_own_cart_witness :
  active_carts 7 shop_with_cart = [sample_cart]
  /\ exists s',
       CartView_delete 7 shop_with_cart = (HTTP_200 MessagePayload, s')
       /\ cart_items_all 1 s' = []
       /\ active_carts 7 s' = [sample_cart].
Proof.
  assert (H : active_carts 7 shop_with_cart = [sample_cart]) by reflexivity.
  split; [exact H|].
  destruct (CartView_delete_clears_own_cart 7 shop_with_cart) as (Hclear & _).
  destruct (Hclear sample_cart H) as (s' & Hrun & Hnone & _ & _ & _ & Hc & _).
  exists s'. repeat split; assumption.
Defined.

Lemma shop_integrity : cart_integrity shop.
Proof.
  constructor; simpl; try (intros; simpl; lia); constructor.
Qed.

Lemma CartView_get_creates_once_witness :
  cart_integrity shop
  /\ session_id_free sample_now 7 shop
  /\ exists cart s',
       CartView_get sample_now 7 shop
       = (HTTP_200 (CartPayload cart (cart_items_all (Cart.id cart) s')), s')
       /\ active_carts 7 s' = [cart]
       /\ carts s' = [cart]
       /\ CartView_get sample_now 7 s'
          = (HTTP_200 (CartPayload cart (cart_items_all (Cart.id cart) s')), s').
Proof.
  pose proof shop_integrity as Hwf.
  assert (Hfree : session_id_free sample_now 7 shop) by reflexivity.
  split; [exact Hwf|]. split; [exact Hfree|].
  destruct (CartView_get_creates_once sample_now 7 shop Hwf (fun _ => Hfree))
    as (cart & s' & Hrun & Hc & _ & Hnew & Hagain).
  destruct (Hnew eq_refl) as (Hcarts & _).
  exists cart, s'. repeat split; auto.
Defined.

Lemma invalid_cart_requests_change_nothing_witness :
  products shop_with_two_products !! 3 = Some product_C
  /\ Product.is_active product_C = false
  /\ (exists errors,
        AddToCartView_post sample_now 7 3 1 shop_with_two_products
        = (HTTP_400 errors, shop_with_two_products)
        /\ In ("product_id", ProductNotFoundOrInactive) errors)
  /\ (exists errors,
        AddToCartView_post sample_now 7 2 0 shop_with_two_products
        = (HTTP_400 errors, shop_with_two_products)
        /\ In ("quantity", InvalidField) errors)
  /\ user_cart_items 1 7 shop_with_two_products = [sample_line]
  /\ UpdateCartItemView_patch 7 1 (JInt 0) shop_with_two_products
     = (HTTP_400 [("error", InvalidQuantity)], shop_with_two_products)
  /\ UpdateCartItemView_patch 7 1 (JFloat (1 # 2)%Q) shop_with_two_products
     = (HTTP_400 [("error", InvalidQuantity)], shop_with_two_products)
  /\ UpdateCartItemView_patch 7 1 (JString "2") shop_with_two_products
     = (HTTP_500 TypeError, shop_with_two_products).
Proof.
  assert (H1 : products shop_with_two_products !! 3 = Some product_C)
    by reflexivity.
  assert (H2 : Product.is_active product_C = false) by reflexivity.
  assert (H3 : user_cart_items 1 7 shop_with_two_products = [sample_line])
    by reflexivity.
  split; [exact H1|]. split; [exact H2|].
  split; [|split; [|split; [exact H3|split; [|split]]]].
  - destruct (invalid_cart_requests_change_nothing sample_now 7 3 1 1 JNull
                shop_with_two_products) as (Hproduct & _).
    apply Hproduct. right. exists product_C. split; assumption.
  - destruct (invalid_cart_requests_change_nothing sample_now 7 2 1 0 JNull
                shop_with_two_products) as (_ & Hquantity & _).
    apply Hquantity. lia.
  - destruct (invalid_cart_requests_change_nothing sample_now 7 2 1 0 (JInt 0)
                shop_with_two_products) as (_ & _ & Hupdate).
    destruct (Hupdate sample_line H3) as (Hfalsy & _). apply Hfalsy. reflexivity.
  - destruct (invalid_cart_requests_change_nothing sample_now 7 2 1 0
                (JFloat (1 # 2)%Q) shop_with_two_products) as (_ & _ & Hupdate).
    destruct (Hupdate sample_line H3) as (_ & Hlow & _).
    apply (Hlow (1 # 2)%Q); reflexivity.
  - destruct (invalid_cart_requests_change_nothing sample_now 7 2 1 0
                (JString "2") shop_with_two_products) as (_ & _ & Hupdate).
    destruct (Hupdate sample_line H3) as (_ & _ & Htype).
    apply Htype; reflexivity.
Defined.

Lemma shop_repriced_integrity : cart_integrity shop_repriced.
Proof.
  exact (cart_integrity_same_carts shop_with_cart shop_repriced eq_refl eq_refl
           shop_with_cart_integrity).
Qed.

Lemma AddToCartView_post_unit_price_witness :
  cart_integrity shop_repriced
  /\ AddToCartView_post sample_now 7 1 1 shop_repriced
     = (HTTP_200 (CartPayload sample_cart [sample_line_plus_one]), shop_repriced_added)
  /\ (Product.unit_price <$> products shop_repriced !! 1) = Some 1200
  /\ exists line,
       cart_line 7 1 shop_repriced_added = Some line
       /\ CartItem.quantity line = 4
       /\ CartItem.unit_price line = 1000.
Proof.
  pose proof shop_repriced_integrity as Hwf.
  assert (Hrun : AddToCartView_post sample_now 7 1 1 shop_repriced
                 = (HTTP_200 (CartPayload sample_cart [sample_line_plus_one]),
                    shop_repriced_added)) by (vm_compute; reflexivity).
  split; [exact Hwf|]. split; [exact Hrun|]. split; [reflexivity|].
  destruct (AddToCartView_post_unit_price sample_now 7 1 1 shop_repriced
              shop_repriced_added _ Hwf Hrun)
    as (product & line & _ & Hline & Hq & Hprice).
  exists line. split; [exact Hline|]. split; [exact Hq|].
  destruct Hprice as (_ & Hkept & _). apply Hkept. discriminate.
Defined.

Lemma AddToCartView_post_totals_witness :
  cart_integrity shop_repriced
  /\ AddToCartView_post sample_now 7 1 1 shop_repriced
     = (HTTP_200 (CartPayload sample_cart [sample_line_plus_one]), shop_repriced_added)
  /\ Cart_item_count shop_repriced 1 = 3
  /\ Cart_subtotal shop_repriced 1 = 3000
  /\ exists cart,
       active_carts 7 shop_repriced_added = [cart]
       /\ Cart_item_count shop_repriced_added (Cart.id cart)
          = Cart_item_count shop_repriced (Cart.id cart) + 1
       /\ Cart_subtotal shop_repriced_added (Cart.id cart)
          = Cart_subtotal shop_repriced (Cart.id cart) - 3000 + 4000.
Proof.
  pose proof shop_repriced_integrity as Hwf.
  assert (Hrun : AddToCartView_post sample_now 7 1 1 shop_repriced
                 = (HTTP_200 (CartPayload sample_cart [sample_line_plus_one]),
                    shop_repriced_added)) by (vm_compute; reflexivity).
  split; [exact Hwf|]. split; [exact Hrun|].
  split; [reflexivity|]. split; [reflexivity|].
  destruct (AddToCartView_post_totals sample_now 7 1 1 shop_repriced
              shop_repriced_added _ Hwf Hrun)
    as (cart & line & Hc & _ & Hline & Hcount & Hsub & _).
  exists cart. split; [exact Hc|]. split; [exact Hcount|].
  inversion Hline; subst line. exact Hsub.
Defined.

Lemma VoidTransactionView_post_refusals_witness :
  List.filter (has_pk 5) (sales_transactions shop_after_sale) = []
  /\ VoidTransactionView_post stock_effect sample_now 9 5 (Some "wrong item")
       shop_after_sale
     = (HTTP_404 TransactionNotFound, shop_after_sale)
  /\ List.filter (has_pk 1) (sales_transactions shop_after_sale) = [sample_sale]
  /\ Py.strip (" " +:+ no_break_space) = ""
  /\ VoidTransactionView_post stock_effect sample_now 9 1
       (Some (" " +:+ no_break_space)) shop_after_sale
     = (HTTP_400 [("reason", InvalidField)], shop_after_sale).
Proof.
  assert (H1 : List.filter (has_pk 5) (sales_transactions shop_after_sale) = [])
    by reflexivity.
  assert (H2 : List.filter (has_pk 1) (sales_transactions shop_after_sale)
               = [sample_sale]) by reflexivity.
  assert (H3 : Py.strip (" " +:+ no_break_space) = "") by reflexivity.
  split; [exact H1|]. split.
  - destruct (VoidTransactionView_post_refusals stock_effect sample_now 9 5
                (Some "wrong item") shop_after_sale) as (Hmissing & _).
    exact (Hmissing H1).
  - split; [exact H2|]. split; [exact H3|].
    destruct (VoidTransactionView_post_refusals stock_effect sample_now 9 1
                (Some (" " +:+ no_break_space)) shop_after_sale) as (_ & Hreason).
    apply (Hreason sample_sale H2); [discriminate|].
    right. exists (" " +:+ no_break_space). split; [reflexivity|left; exact H3].
Defined.

Lemma VoidTransactionView_post_voids_witness :
  List.filter (has_pk 1) (sales_transactions shop_after_sale) = [sample_sale]
  /\ NoDup (map SalesTransaction.transaction_number
              (sales_transactions shop_after_sale))
  /\ SalesTransaction.transaction_number sample_sale <> ""
  /\ SalesTransaction.status sample_sale <> VOID
  /\ usable_reason padded_reason
  /\ exists txn s',
       VoidTransactionView_post stock_effect sample_now 9 1 (Some padded_reason)
         shop_after_sale
       = (HTTP_200 (TransactionPayload txn), s')
       /\ SalesTransaction.status txn = VOID
       /\ SalesTransaction.void_reason txn = "wrong item"
       /\ inventory_movements s'
          = inventory_movements shop_after_sale
            ++ [return_movement sample_sale 9 "wrong item" sample_item]
       /\ VoidTransactionView_post stock_effect sample_now 9 1 (Some "again") s'
          = (HTTP_400 [("error", TransactionAlreadyVoided)], s').
Proof.
  assert (H1 : List.filter (has_pk 1) (sales_transactions shop_after_sale)
               = [sample_sale]) by reflexivity.
  assert (H2 : NoDup (map SalesTransaction.transaction_number
                        (sales_transactions shop_after_sale)))
    by (apply NoDup_singleton).
  assert (H3 : SalesTransaction.transaction_number sample_sale <> "")
    by discriminate.
  assert (H4 : SalesTransaction.status sample_sale <> VOID) by discriminate.
  assert (H5 : usable_reason padded_reason).
  { split; [vm_compute; discriminate|].
    split; [apply Nat.leb_le; reflexivity|reflexivity]. }
  repeat (split; [assumption|]).
  destruct (VoidTransactionView_post_voids stock_effect sample_now 9 1
              padded_reason sample_sale shop_after_sale H1 H2 H3 H4 H5)
    as (txn & s' & Hrun & Hst & Hreason & _ & _ & _ & _ & Hmv & _ & Hagain).
  exists txn, s'. split; [exact Hrun|]. split; [exact Hst|].
  split; [exact Hreason|]. split; [exact Hmv|]. apply Hagain.
Defined.

Lemma negative_total_is_accepted_witness :
  field_errors any_email shop discounted_sale = []
  /\ storable discounted_sale
  /\ four_digit_day sample_now shop
  /\ request_total discounted_sale = -7000
  /\ exists txn s',
       create_transaction stock_effect any_email sample_now 7 discounted_sale shop
       = (Return txn, s')
       /\ SalesTransaction.total_amount txn = -7000
       /\ SalesTransaction.change_amount txn = 7000
       /\ In txn (sales_transactions s').
Proof.
  assert (H1 : field_errors any_email shop discounted_sale = [])
    by (vm_compute; reflexivity).
  assert (H2 : four_digit_day sample_now shop) by constructor.
  assert (H3 : request_total discounted_sale = -7000) by (vm_compute; reflexivity).
  assert (H4 : request_total discounted_sale < 0) by (rewrite H3; lia).
  assert (H5 : storable discounted_sale) by storable_by_computation.
  repeat (split; [assumption|]).
  destruct (negative_total_is_accepted stock_effect any_email sample_now 7
              discounted_sale shop H1 H5 H2 H4)
    as (txn & s' & paid & Hrun & Hp & _ & _ & Htotal & _ & Hchange & _ & Hin).
  exists txn, s'. split; [exact Hrun|]. rewrite Htotal, Hchange, H3.
  assert (paid = 0) as -> by (cbv in Hp; congruence).
  split; [reflexivity|split; [reflexivity|exact Hin]].
Defined.

Lemma day_numbers_are_sequential_witness :
  four_digit_day sample_now shop_after_sale
  /\ Forall unsaved [fresh_transaction; fresh_transaction]
  /\ max_sequence sample_now shop_after_sale = 1
  /\ map SalesTransaction.transaction_number
       (sales_transactions
          (saved_all sample_now [fresh_transaction; fresh_transaction]
             shop_after_sale))
     = map SalesTransaction.transaction_number (sales_transactions shop_after_sale)
       ++ next_numbers (strftime_Ymd sample_now) 1 2.
Proof.
  assert (H1 : four_digit_day sample_now shop_after_sale).
  { constructor; [|constructor]. exists 1. split; [lia|]. vm_compute. reflexivity. }
  assert (H2 : Forall unsaved [fresh_transaction; fresh_transaction])
    by (repeat constructor).
  assert (H3 : max_sequence sample_now shop_after_sale = 1)
    by (vm_compute; reflexivity).
  repeat (split; [assumption|]).
  assert (H4 : max_sequence sample_now shop_after_sale
               + Z.of_nat (length [fresh_transaction; fresh_transaction]) <= 9999)
    by (rewrite H3; simpl; lia).
  pose proof (day_numbers_are_sequential sample_now
                [fresh_transaction; fresh_transaction] shop_after_sale H1 H2 H4)
    as H.
  cbv zeta in H. destruct H as (H & _). rewrite H3 in H. exact H.
Defined.

Lemma generated_number_reads_back_witness :
  0 <= 12345
  /\ sequence_of (number_of "20240115" 12345) = Some 12345
  /\ sequence_of (number_of "20240115" 7) = Some 7
  /\ String.length (Py.format_0d 4 7) = 4%nat.
Proof.
  assert (H1 : 0 <= 12345) by lia.
  split; [exact H1|].
  split; [exact (proj1 (generated_number_reads_back "20240115" 12345 H1))|].
  split; vm_compute; reflexivity.
Defined.

